(** * Release-engineering agent workflows: a shallow embedding

    The development models the two LangGraph workflows of the repository,
    [src/agent/re_agent.py] (the joke workflow) and [src/agent/re_agent_v2.py]
    (the Slack approval / Azure DevOps pipeline workflow), and proves
    properties of their gates, nodes, polling loop and runs.

    Conventions.
    - Python values are the JSON-like type [pyval] (no fractional numbers).
    - Python [str] is [string], holding the UTF-8 encoding of the text: a
      character of the ASCII range is one byte below 128, and no byte of
      another character is.  Equality, [in] and [split] are then the same on
      bytes as on characters.  [lower], [capitalize], [int] and [repr] are
      computed on ASCII strings; on a string with other characters their
      result is decided by the Unicode database of the interpreter, which
      is a parameter of the model: see [Unicode].
    - A computation is a function from the log of external interactions made
      so far to an outcome (a value or a raised exception) and the extended
      log.  The outside world (HTTP endpoints, the language model) answers
      as a function of that log and of the request: see [Env]. *)

From Stdlib Require Import ZArith String Ascii List Lia Bool.
From stdpp Require Import base gmap strings list fin_maps pretty.
From Equations Require Import Equations.
Import ListNotations.

Local Open Scope string_scope.
Local Open Scope Z_scope.

(** ** Python values *)

Module Py.

Local Unset Elimination Schemes.
Inductive pyval :=
| PNone
| PBool (b : bool)
| PInt (z : Z)
| PStr (s : string)
| PList (l : list pyval)
| PDict (d : list (string * pyval)).
Local Set Elimination Schemes.

(** Exception classes that the workflows tell apart.  Every exception of the
    model is an instance of [Exception]; [ValueError] stands for the class
    and its subclasses (as [except ValueError] catches them). *)
Inductive exn_class :=
| KeyError
| TypeError
| AttributeError
| ValueError
| OtherError (name : string).

Record exn := Exn { exn_cls : exn_class; exn_msg : string }.

Inductive outcome (A : Type) :=
| Ret (a : A)
| Raise (e : exn).
Arguments Ret {A} a.
Arguments Raise {A} e.

Definition is_ValueError (e : exn) : bool :=
  match exn_cls e with ValueError => true | _ => false end.

(** [bool(v)] *)
Definition truthy (v : pyval) : bool :=
  match v with
  | PNone => false
  | PBool b => b
  | PInt z => negb (z =? 0)
  | PStr s => negb (String.eqb s "")
  | PList l => match l with [] => false | _ => true end
  | PDict d => match d with [] => false | _ => true end
  end.

Definition type_name (v : pyval) : string :=
  match v with
  | PNone => "NoneType"
  | PBool _ => "bool"
  | PInt _ => "int"
  | PStr _ => "str"
  | PList _ => "list"
  | PDict _ => "dict"
  end.

Definition no_attribute (v : pyval) (attr : string) : exn :=
  Exn AttributeError ("'" +:+ type_name v +:+ "' object has no attribute '" +:+ attr +:+ "'").

Fixpoint assoc (k : string) (d : list (string * pyval)) : option pyval :=
  match d with
  | [] => None
  | (k', v) :: d' => if String.eqb k k' then Some v else assoc k d'
  end.

(** [a == b] *)
Fixpoint py_eq (a b : pyval) {struct a} : bool :=
  match a, b with
  | PNone, PNone => true
  | PBool x, PBool y => Bool.eqb x y
  | PBool x, PInt y => Z.b2z x =? y
  | PInt x, PBool y => x =? Z.b2z y
  | PInt x, PInt y => x =? y
  | PStr x, PStr y => String.eqb x y
  | PList xs, PList ys =>
      (fix go (xs ys : list pyval) {struct xs} : bool :=
         match xs, ys with
         | [], [] => true
         | x :: xs', y :: ys' => py_eq x y && go xs' ys'
         | _, _ => false
         end) xs ys
  | PDict d1, PDict d2 =>
      Nat.eqb (length d1) (length d2) &&
      (fix go (d : list (string * pyval)) {struct d} : bool :=
         match d with
         | [] => true
         | (k, v) :: d' =>
             match assoc k d2 with
             | Some v' => py_eq v v'
             | None => false
             end && go d'
         end) d1
  | _, _ => false
  end.

(** ** Strings *)

Definition is_ascii_char (c : ascii) : bool := (nat_of_ascii c <? 128)%nat.

Fixpoint is_ascii (s : string) : bool :=
  match s with
  | EmptyString => true
  | String c s' => is_ascii_char c && is_ascii s'
  end.

(** The interpreter's Unicode database, as far as the workflows consult it:
    on a string that is not ASCII, [u_lower] is [s.lower()], [u_capitalize]
    is [s.capitalize()], [u_int] is [int(s)] ([None] for a [ValueError]) and
    [u_literal] is the text by which that [ValueError] quotes [s]. *)
Record Unicode := {
  u_lower : string -> string;
  u_capitalize : string -> string;
  u_int : string -> option Z;
  u_literal : string -> string
}.

(** [hay.startswith(needle)] *)
Fixpoint starts_with (needle hay : string) {struct needle} : bool :=
  match needle, hay with
  | EmptyString, _ => true
  | String a needle', String b hay' => Ascii.eqb a b && starts_with needle' hay'
  | String _ _, EmptyString => false
  end.

(** [needle in hay] on two strings *)
Fixpoint contains (needle hay : string) : bool :=
  if starts_with needle hay then true
  else match hay with
       | EmptyString => false
       | String _ hay' => contains needle hay'
       end.

(** Whitespace of [str.strip()] in the ASCII range: TAB, LF, VT, FF, CR,
    FS, GS, RS, US and the space.  Whitespace beyond ASCII stays in place;
    the workflows strip only before the test ["Approved" in ...], whose
    outcome whitespace at the ends does not change. *)
Definition is_space (c : ascii) : bool :=
  let n := nat_of_ascii c in
  ((9 <=? n)%nat && (n <=? 13)%nat) || ((28 <=? n)%nat && (n <=? 32)%nat).

Fixpoint lstrip (s : string) : string :=
  match s with
  | EmptyString => EmptyString
  | String c s' => if is_space c then lstrip s' else s
  end.

Fixpoint rstrip (s : string) : string :=
  match s with
  | EmptyString => EmptyString
  | String c s' =>
      let r := rstrip s' in
      if is_space c && String.eqb r "" then EmptyString else String c r
  end.

Definition strip (s : string) : string := rstrip (lstrip s).

Definition lower_char (c : ascii) : ascii :=
  let n := nat_of_ascii c in
  if ((65 <=? n)%nat && (n <=? 90)%nat) then ascii_of_nat (n + 32) else c.

Definition upper_char (c : ascii) : ascii :=
  let n := nat_of_ascii c in
  if ((97 <=? n)%nat && (n <=? 122)%nat) then ascii_of_nat (n - 32) else c.

Fixpoint lower_ascii (s : string) : string :=
  match s with
  | EmptyString => EmptyString
  | String c s' => String (lower_char c) (lower_ascii s')
  end.

Definition capitalize_ascii (s : string) : string :=
  match s with
  | EmptyString => EmptyString
  | String c s' => String (upper_char c) (lower_ascii s')
  end.

(** [s.lower()] *)
Definition lower (U : Unicode) (s : string) : string :=
  if is_ascii s then lower_ascii s else u_lower U s.

(** [s.capitalize()] *)
Definition capitalize (U : Unicode) (s : string) : string :=
  if is_ascii s then capitalize_ascii s else u_capitalize U s.

(** [s.split(sep)] for a one-character separator *)
Fixpoint split (sep : ascii) (s : string) : list string :=
  match s with
  | EmptyString => [EmptyString]
  | String c s' =>
      if Ascii.eqb c sep then EmptyString :: split sep s'
      else match split sep s' with
           | h :: t => String c h :: t
           | [] => [String c EmptyString]
           end
  end.

(** [int(s)] for a string: surrounding whitespace, an optional sign,
    decimal digits with single underscores between them.  The whitespace
    that [int] skips in an ASCII string is TAB, LF, VT, FF, CR and the
    space: FS, GS, RS and US are not skipped.  (The interpreter's optional
    limit on the number of digits is not modelled.) *)
Definition is_int_space (c : ascii) : bool :=
  let n := nat_of_ascii c in
  ((9 <=? n)%nat && (n <=? 13)%nat) || (n =? 32)%nat.

Fixpoint int_lstrip (s : string) : string :=
  match s with
  | EmptyString => EmptyString
  | String c s' => if is_int_space c then int_lstrip s' else s
  end.

Fixpoint int_rstrip (s : string) : string :=
  match s with
  | EmptyString => EmptyString
  | String c s' =>
      let r := int_rstrip s' in
      if is_int_space c && String.eqb r "" then EmptyString else String c r
  end.

Definition digit_of (c : ascii) : option Z :=
  let n := nat_of_ascii c in
  if ((48 <=? n)%nat && (n <=? 57)%nat) then Some (Z.of_nat (n - 48)) else None.

Definition underscore : ascii := "_"%char.

(** [digits acc prev s]: [prev] tells whether the previous character was a
    digit (an underscore must stand between two digits). *)
Fixpoint digits (acc : Z) (prev : bool) (s : string) : option Z :=
  match s with
  | EmptyString => if prev then Some acc else None
  | String c s' =>
      match digit_of c with
      | Some d => digits (10 * acc + d) true s'
      | None =>
          if Ascii.eqb c underscore && prev
          then match s' with
               | EmptyString => None
               | String c' _ =>
                   match digit_of c' with
                   | Some _ => digits acc false s'
                   | None => None
                   end
               end
          else None
      end
  end.

Definition unsigned_of_string (s : string) : option Z :=
  match s with
  | EmptyString => None
  | String c _ =>
      match digit_of c with
      | Some _ => digits 0 false s
      | None => None
      end
  end.

Definition int_ascii (s : string) : option Z :=
  match int_rstrip (int_lstrip s) with
  | String "-"%char s' => Z.opp <$> unsigned_of_string s'
  | String "+"%char s' => unsigned_of_string s'
  | s' => unsigned_of_string s'
  end.

Definition int_of_string (U : Unicode) (s : string) : option Z :=
  if is_ascii s then int_ascii s else u_int U s.

(** [repr(s)] of an ASCII string: double quotes when the string holds a
    single quote and no double quote, single quotes otherwise; the quote
    and the backslash are escaped, as are the control characters. *)
Definition single_quote : ascii := "'"%char.
Definition double_quote : ascii := ascii_of_nat 34.
Definition backslash : ascii := "\"%char.

Fixpoint has_char (c : ascii) (s : string) : bool :=
  match s with
  | EmptyString => false
  | String c' s' => Ascii.eqb c c' || has_char c s'
  end.

Definition hex_digit (n : nat) : ascii :=
  ascii_of_nat (if (n <? 10)%nat then 48 + n else 87 + n).

Definition escape (quote c : ascii) : string :=
  let n := nat_of_ascii c in
  if Ascii.eqb c quote || Ascii.eqb c backslash then String backslash (String c EmptyString)
  else if (n =? 9)%nat then String backslash "t"
  else if (n =? 10)%nat then String backslash "n"
  else if (n =? 13)%nat then String backslash "r"
  else if (n <? 32)%nat || (n =? 127)%nat then
    String backslash
      (String "x"%char (String (hex_digit (n / 16)) (String (hex_digit (n mod 16)) EmptyString)))
  else String c EmptyString.

Fixpoint escape_all (quote : ascii) (s : string) : string :=
  match s with
  | EmptyString => EmptyString
  | String c s' => escape quote c +:+ escape_all quote s'
  end.

Definition repr_ascii (s : string) : string :=
  let quote :=
    if has_char single_quote s && negb (has_char double_quote s)
    then double_quote else single_quote in
  String quote (escape_all quote s +:+ String quote EmptyString).

(** The first [n] characters of an ASCII string. *)
Fixpoint clip (n : nat) (s : string) : string :=
  match n, s with
  | S n', String c s' => String c (clip n' s')
  | _, _ => EmptyString
  end.

(** How the [ValueError] of [int(s)] quotes [s]: [repr(s)], cut after 200
    characters. *)
Definition int_literal (U : Unicode) (s : string) : string :=
  if is_ascii s then clip 200 (repr_ascii s) else u_literal U s.

(** ** Operations that may raise *)

(** [v.get(k, dflt)]: only a dict has [get]. *)
Definition py_get (v : pyval) (k : string) (dflt : pyval) : outcome pyval :=
  match v with
  | PDict d => Ret (default dflt (assoc k d))
  | _ => Raise (no_attribute v "get")
  end.

(** [v.lower()], [v.strip()], [v.capitalize()], [v.split("/")]: only a str
    has them. *)
Definition py_lower (U : Unicode) (v : pyval) : outcome string :=
  match v with
  | PStr s => Ret (lower U s)
  | _ => Raise (no_attribute v "lower")
  end.

Definition py_strip (v : pyval) : outcome string :=
  match v with
  | PStr s => Ret (strip s)
  | _ => Raise (no_attribute v "strip")
  end.

Definition py_split (v : pyval) (sep : ascii) : outcome (list string) :=
  match v with
  | PStr s => Ret (split sep s)
  | _ => Raise (no_attribute v "split")
  end.

Definition not_iterable (v : pyval) : exn :=
  Exn TypeError ("argument of type '" +:+ type_name v +:+ "' is not iterable").

(** [needle in c] for a str [needle] *)
Definition py_in (needle : string) (c : pyval) : outcome bool :=
  match c with
  | PStr s => Ret (contains needle s)
  | PList l => Ret (existsb (py_eq (PStr needle)) l)
  | PDict d => Ret (existsb (fun kv => String.eqb needle (fst kv)) d)
  | _ => Raise (not_iterable c)
  end.

Definition chars (s : string) : list pyval :=
  (fun c => PStr (String c EmptyString)) <$> list_ascii_of_string s.

(** [for x in v]: the elements the loop visits *)
Definition py_iter (v : pyval) : outcome (list pyval) :=
  match v with
  | PList l => Ret l
  | PStr s => Ret (chars s)
  | PDict d => Ret ((fun kv => PStr (fst kv)) <$> d)
  | _ => Raise (Exn TypeError ("'" +:+ type_name v +:+ "' object is not iterable"))
  end.

(** [int(v)] *)
Definition py_int (U : Unicode) (v : pyval) : outcome Z :=
  match v with
  | PInt z => Ret z
  | PBool b => Ret (Z.b2z b)
  | PStr s =>
      match int_of_string U s with
      | Some z => Ret z
      | None =>
          Raise (Exn ValueError ("invalid literal for int() with base 10: " +:+ int_literal U s))
      end
  | _ => Raise (Exn TypeError ("int() argument must be a string, a bytes-like object or a real number, not '" +:+ type_name v +:+ "'"))
  end.

(** [isinstance(v, (str, int))]: [bool] is a subclass of [int]. *)
Definition is_str_or_int (v : pyval) : bool :=
  match v with
  | PStr _ | PInt _ | PBool _ => true
  | _ => false
  end.

End Py.
Export Py.

(** ** Effects: the log of interactions and the outside world *)

Module Effects.

Inductive method := GET | POST.

Record request := {
  req_method : method;
  req_url : string;
  req_headers : list (string * string);
  req_params : list (string * pyval);
  req_json : option pyval
}.

(** What the workflows read of a [requests.Response]: [status_code], [text]
    and the result of [json()], which raises on a body that is not JSON. *)
Record response := {
  status_code : Z;
  text : string;
  json : outcome pyval
}.

Inductive event :=
| EvCall (fn : string)          (* a function of the source was entered *)
| EvHttp (r : request)          (* requests.get / requests.post *)
| EvLlm (prompt : string)       (* llm.invoke *)
| EvSleep (secs : Z)            (* time.sleep *)
| EvPrint (line : string).      (* print *)

(** The newest event is at the head. *)
Abbreviation history := (list event).

(** The world outside the process.  An answer may depend on everything that
    happened before it.  [b64encode] and [repr] are the library functions
    [base64.b64encode] and [str()] on containers, whose output only travels
    inside requests and messages; [unicode] is the interpreter's Unicode
    database. *)
Record Env := {
  http : history -> request -> outcome response;
  llm_content : history -> string -> outcome pyval;
  b64encode : string -> string;
  repr : pyval -> string;
  unicode : Unicode
}.

Definition M (A : Type) : Type := history -> outcome A * history.

Definition ret {A} (a : A) : M A := fun h => (Ret a, h).

Definition raise {A} (e : exn) : M A := fun h => (Raise e, h).

Definition bind {A B} (m : M A) (k : A -> M B) : M B :=
  fun h =>
    match m h with
    | (Ret a, h') => k a h'
    | (Raise e, h') => (Raise e, h')
    end.

Definition lift {A} (o : outcome A) : M A := fun h => (o, h).

(** [try: body  except Exception as e: handler e] *)
Definition try_except {A} (body : M A) (handler : exn -> M A) : M A :=
  fun h =>
    match body h with
    | (Ret a, h') => (Ret a, h')
    | (Raise e, h') => handler e h'
    end.

Definition emit (ev : event) : M unit := fun h => (Ret tt, ev :: h).

(** Entering the body of [def fn]. *)
Definition call {A} (fn : string) (body : M A) : M A :=
  fun h => body (EvCall fn :: h).

Definition sleep (secs : Z) : M unit := emit (EvSleep secs).
Definition print (line : string) : M unit := emit (EvPrint line).

Definition obind {A B} (o : outcome A) (k : A -> outcome B) : outcome B :=
  match o with
  | Ret a => k a
  | Raise e => Raise e
  end.

Definition is_call (fn : string) (ev : event) : bool :=
  match ev with EvCall g => String.eqb fn g | _ => false end.

Definition is_sleep (ev : event) : bool :=
  match ev with EvSleep _ => true | _ => false end.

Definition is_http (ev : event) : bool :=
  match ev with EvHttp _ => true | _ => false end.

Definition is_llm (ev : event) : bool :=
  match ev with EvLlm _ => true | _ => false end.

Fixpoint count (p : event -> bool) (h : history) : nat :=
  match h with
  | [] => O
  | ev :: h' => ((if p ev then 1 else 0) + count p h')%nat
  end.

(** How often [fn] was entered, how often the process slept, how many
    requests were sent. *)
Definition calls (fn : string) (h : history) : nat := count (is_call fn) h.
Definition sleeps (h : history) : nat := count is_sleep h.
Definition requests (h : history) : nat := count is_http h.

Section WithEnv.
Context (env : Env).

Definition send (r : request) : M response :=
  fun h => (http env h r, EvHttp r :: h).

Definition requests_get (url : string) (headers : list (string * string))
    (params : list (string * pyval)) : M response :=
  send {| req_method := GET; req_url := url; req_headers := headers;
          req_params := params; req_json := None |}.

Definition requests_post (url : string) (headers : list (string * string))
    (payload : pyval) : M response :=
  send {| req_method := POST; req_url := url; req_headers := headers;
          req_params := []; req_json := Some payload |}.

(** [llm.invoke(prompt).content] *)
Definition llm_invoke (prompt : string) : M pyval :=
  fun h => (llm_content env h prompt, EvLlm prompt :: h).

(** [str(v)] *)
Definition py_str (v : pyval) : string :=
  match v with
  | PStr s => s
  | PInt z => pretty z
  | PBool true => "True"
  | PBool false => "False"
  | PNone => "None"
  | _ => repr env v
  end.
End WithEnv.

End Effects.
Export Effects.

Notation "'let!' x ':=' m 'in' k" := (bind m (fun x => k))
  (at level 10, x name, m at level 100, k at level 200).
Notation "'do!' m 'in' k" := (bind m (fun _ => k))
  (at level 10, m at level 100, k at level 200).
Notation "'let?' x ':=' o 'in' k" := (obind o (fun x => k))
  (at level 10, x name, o at level 100, k at level 200).

(** ** The graph engine *)

Module Engine.

(** A StateRecord: field name to value. *)
Abbreviation State := (gmap string pyval).

Inductive target :=
| Node (name : string)
| END.

Definition START : string := "__start__".

(** [add_conditional_edges(source, gate, mapping)] *)
Record conditional := {
  gate : State -> outcome string;
  mapping : list (string * target)
}.

(** What the builder [StateGraph] has collected: [add_node], [add_edge],
    [add_conditional_edges], each table in the order of the calls. *)
Record Graph := {
  nodes : list (string * (State -> M State));
  edges : list (string * target);
  conditionals : list (string * conditional)
}.

Inductive fault :=
| MissingEdge (node : string)
| UnmappedLabel (node label : string)
| UnknownNode (node : string)
| StepLimit.

(** One executed node: its name, the partial update it returned and the
    StateRecord after the merge. *)
Record visit := {
  v_node : string;
  v_update : State;
  v_state : State
}.

Record run_result := {
  final_state : State;
  run_fault : option fault;
  visited : list visit
}.

Fixpoint table_get {A} (k : string) (t : list (string * A)) : option A :=
  match t with
  | [] => None
  | (k', a) :: t' => if String.eqb k k' then Some a else table_get k t'
  end.

(** Modelled from the spec: the merge of a node's partial update into the
    StateRecord (section 4.1, "merge by overwrite"); the executor itself is
    the LangGraph library, which is not part of the repository's sources. *)
Definition merge (update st : State) : State := update ∪ st.

(** Modelled from the spec: the resolution of the outgoing edge of a node
    (section 4.1): an unconditional edge, else the conditional group whose
    gate is evaluated on the merged StateRecord, else a structural fault.
    An exception of the gate propagates. *)
Definition next (g : Graph) (n : string) (st : State) : outcome (target + fault) :=
  match table_get n (edges g) with
  | Some t => Ret (inl t)
  | None =>
      match table_get n (conditionals g) with
      | Some c =>
          let? label := gate c st in
          match table_get label (mapping c) with
          | Some t => Ret (inl t)
          | None => Ret (inr (UnmappedLabel n label))
          end
      | None => Ret (inr (MissingEdge n))
      end
  end.

Definition stop (st : State) (f : option fault) : run_result :=
  {| final_state := st; run_fault := f; visited := [] |}.

Definition record (v : visit) (r : run_result) : run_result :=
  {| final_state := final_state r; run_fault := run_fault r; visited := v :: visited r |}.

(** Modelled from the spec: the Engine's walk (section 4.1), with the
    per-run step counter [steps] that bounds the node executions.  An
    exception raised by a work function propagates to the caller of [run]. *)
Fixpoint walk (g : Graph) (steps : nat) (cur : target) (st : State) : M run_result :=
  match cur with
  | END => ret (stop st None)
  | Node n =>
      match steps with
      | O => ret (stop st (Some StepLimit))
      | S steps' =>
          match table_get n (nodes g) with
          | None => ret (stop st (Some (UnknownNode n)))
          | Some work =>
              let! update := work st in
              let st' := merge update st in
              let v := {| v_node := n; v_update := update; v_state := st' |} in
              let! nxt := lift (next g n st') in
              match nxt with
              | inl t => let! r := walk g steps' t st' in ret (record v r)
              | inr f => ret (record v (stop st' (Some f)))
              end
          end
      end
  end.

(** Modelled from the spec: [run(graph, initialState)] (section 4.1),
    [chain.invoke] in the sources. *)
Definition run (g : Graph) (cap : nat) (initial : State) : M run_result :=
  let! nxt := lift (next g START initial) in
  match nxt with
  | inl t => walk g cap t initial
  | inr f => ret (stop initial (Some f))
  end.

(** [state[k]] *)
Definition getitem (st : State) (k : string) : outcome pyval :=
  match st !! k with
  | Some v => Ret v
  | None => Raise (Exn KeyError ("'" +:+ k +:+ "'"))
  end.

(** [state.get(k, dflt)] *)
Definition get (st : State) (k : string) (dflt : pyval) : pyval :=
  default dflt (st !! k).

End Engine.
Export Engine.

(** ** The joke workflow: [src/agent/re_agent.py] *)

Module ReAgent.
Section Workflow.
Context (env : Env).

Definition generate_joke (state : State) : M State :=
  call "generate_joke" (
    let! topic := lift (getitem state "topic") in
    let! content := llm_invoke env ("Write a short joke about " +:+ py_str env topic) in
    ret {[ "joke" := content ]}).

(** The gate: [if "?" in state["joke"] or "!" in state["joke"]]. *)
Definition check_punchline (state : State) : outcome string :=
  let? joke := getitem state "joke" in
  let? question := py_in "?" joke in
  if question then Ret "Pass"
  else
    let? joke' := getitem state "joke" in
    let? exclamation := py_in "!" joke' in
    if exclamation then Ret "Pass" else Ret "Fail".

Definition improve_joke (state : State) : M State :=
  call "improve_joke" (
    let! joke := lift (getitem state "joke") in
    let! content := llm_invoke env ("Make this joke funnier by adding wordplay: " +:+ py_str env joke) in
    ret {[ "improved_joke" := content ]}).

Definition ask_for_applause (state : State) : M State :=
  call "ask_for_applause" (
    let! joke := lift (getitem state "joke") in
    let! content := llm_invoke env ("Ask for applause for the joke: " +:+ py_str env joke) in
    ret {[ "ask_for_applause" := content ]}).

Definition polish_joke (state : State) : M State :=
  call "polish_joke" (
    let! improved := lift (getitem state "improved_joke") in
    let! content := llm_invoke env ("Add a surprising twist to this joke: " +:+ py_str env improved) in
    ret {[ "final_joke" := content ]}).

Definition workflow : Graph := {|
  nodes := [ ("generate_joke", generate_joke);
             ("improve_joke", improve_joke);
             ("ask_for_applause", ask_for_applause);
             ("polish_joke", polish_joke) ];
  edges := [ (START, Node "generate_joke");
             ("improve_joke", Node "polish_joke");
             ("polish_joke", Node "ask_for_applause");
             ("ask_for_applause", END) ];
  conditionals :=
    [ ("generate_joke",
       {| gate := check_punchline;
          mapping := [ ("Fail", Node "improve_joke"); ("Pass", Node "ask_for_applause") ] |}) ]
|}.

(** [chain.invoke(initial)] *)
Definition invoke (cap : nat) (initial : State) : M run_result :=
  run workflow cap initial.
End Workflow.
End ReAgent.

(** ** The approval workflow: [src/agent/re_agent_v2.py] *)

Module ReAgentV2.

(** The module-level configuration, read with [os.getenv] at import time:
    each variable is a string or [None]. *)
Record Config := {
  SLACK_TOKEN : option string;
  AZURE_DEVOPS_PAT : option string;
  AZURE_DEVOPS_ORG : option string;
  AZURE_DEVOPS_PROJECT : option string;
  AZURE_DEVOPS_PIPELINE_ID : option string
}.

Definition SLACK_API_BASE : string := "https://slack.com/api".

Definition getenv (o : option string) : pyval :=
  match o with
  | Some s => PStr s
  | None => PNone
  end.

Section Workflow.
Context (cfg : Config) (env : Env).

(** [base64.b64encode(f":{AZURE_DEVOPS_PAT}".encode()).decode() if AZURE_DEVOPS_PAT else None] *)
Definition AZURE_DEVOPS_TOKEN : pyval :=
  if truthy (getenv (AZURE_DEVOPS_PAT cfg))
  then PStr (b64encode env (":" +:+ py_str env (getenv (AZURE_DEVOPS_PAT cfg))))
  else PNone.

Definition slack_headers : list (string * string) :=
  [ ("Authorization", "Bearer " +:+ py_str env (getenv (SLACK_TOKEN cfg)));
    ("Content-Type", "application/json") ].

Definition azure_headers : list (string * string) :=
  [ ("Authorization", "Basic " +:+ py_str env AZURE_DEVOPS_TOKEN);
    ("Content-Type", "application/json") ].

Definition azure_base : string :=
  "https://dev.azure.com/" +:+ py_str env (getenv (AZURE_DEVOPS_ORG cfg)) +:+ "/"
    +:+ py_str env (getenv (AZURE_DEVOPS_PROJECT cfg)) +:+ "/".

(** The loop of [get_slack_channel_id]; running off its end reaches the
    final [return None]. *)
Fixpoint find_channel (channel_name : pyval) (channels : list pyval) : outcome pyval :=
  match channels with
  | [] => Ret PNone
  | channel :: rest =>
      let? name := py_get channel "name" PNone in
      let? hit :=
        (if py_eq name channel_name then Ret true
         else let? id := py_get channel "id" PNone in Ret (py_eq id channel_name)) in
      if hit then py_get channel "id" PNone
      else find_channel channel_name rest
  end.

Definition get_slack_channel_id (channel_name : pyval) : M pyval :=
  call "get_slack_channel_id" (
    let! response :=
      requests_get env (SLACK_API_BASE +:+ "/conversations.list") slack_headers
        [ ("types", PStr "public_channel,private_channel") ] in
    if status_code response =? 200 then
      let! data := lift (json response) in
      let! ok := lift (py_get data "ok" PNone) in
      if truthy ok then
        let! channels := lift (py_get data "channels" (PList [])) in
        let! items := lift (py_iter channels) in
        lift (find_channel channel_name items)
      else ret PNone
    else ret PNone).

Definition get_slack_messages (channel_id : pyval) (limit : Z) : M pyval :=
  call "get_slack_messages" (
    let! response :=
      requests_get env (SLACK_API_BASE +:+ "/conversations.history") slack_headers
        [ ("channel", channel_id); ("limit", PInt limit) ] in
    if status_code response =? 200 then
      let! data := lift (json response) in
      let! ok := lift (py_get data "ok" PNone) in
      if truthy ok then lift (py_get data "messages" (PList []))
      else ret (PList [])
    else ret (PList [])).

Definition trigger_azure_pipeline (pipeline_id : Z) (branch : string) : M pyval :=
  call "trigger_azure_pipeline" (
    if negb (truthy AZURE_DEVOPS_TOKEN) then ret PNone
    else
      let url := azure_base +:+ "_apis/pipelines/" +:+ pretty pipeline_id
                   +:+ "/runs?api-version=7.1" in
      let payload :=
        PDict [ ("resources",
          PDict [ ("repositories",
            PDict [ ("self",
              PDict [ ("refName", PStr ("refs/heads/" +:+ branch)) ]) ]) ]) ] in
      try_except
        (let! response := requests_post env url azure_headers payload in
         if status_code response =? 200 then lift (json response)
         else
           do! print ("Error triggering pipeline: " +:+ pretty (status_code response)
                        +:+ " - " +:+ text response) in
           ret PNone)
        (fun e =>
           do! print ("Exception triggering pipeline: " +:+ exn_msg e) in
           ret PNone)).

Definition get_pipeline_status (pipeline_id run_id : pyval) : M pyval :=
  call "get_pipeline_status" (
    if negb (truthy AZURE_DEVOPS_TOKEN) then ret PNone
    else
      let url := azure_base +:+ "_apis/pipelines/" +:+ py_str env pipeline_id
                   +:+ "/runs/" +:+ py_str env run_id +:+ "?api-version=7.1" in
      try_except
        (let! response := requests_get env url azure_headers [] in
         if status_code response =? 200 then lift (json response)
         else
           do! print ("Error getting pipeline status: " +:+ pretty (status_code response)
                        +:+ " - " +:+ text response) in
           ret PNone)
        (fun e =>
           do! print ("Exception getting pipeline status: " +:+ exn_msg e) in
           ret PNone)).

(** *** Nodes *)

Definition consult_slack_messages (state : State) : M State :=
  call "consult_slack_messages" (
    let! channel := lift (getitem state "channel") in
    try_except
      (let! channel_id := get_slack_channel_id channel in
       if negb (truthy channel_id) then
         ret {[ "error" := PStr ("Channel '" +:+ py_str env channel
                                   +:+ "' not found or not accessible") ]}
       else
         let! messages := get_slack_messages channel_id 100 in
         ret {[ "slack_messages" := messages ]})
      (fun e => ret {[ "error" := PStr ("Error fetching Slack messages: " +:+ exn_msg e) ]})).

(** The body of the [try] inside the loop of [check_albert_message]:
    [Some text] when the author is Albert H. (the assignment followed by
    [break]), [None] when the body runs to its end. *)
Definition author_check (message user_id : pyval) : M (option pyval) :=
  let! user_response :=
    requests_get env (SLACK_API_BASE +:+ "/users.info") slack_headers
      [ ("user", user_id) ] in
  if status_code user_response =? 200 then
    let! user_data := lift (json user_response) in
    let! ok := lift (py_get user_data "ok" PNone) in
    if truthy ok then
      let! user := lift (py_get user_data "user" (PDict [])) in
      let! user_name := lift (py_get user "real_name" (PStr "")) in
      let! user' := lift (py_get user_data "user" (PDict [])) in
      let! profile := lift (py_get user' "profile" (PDict [])) in
      let! display_name := lift (py_get profile "display_name" (PStr "")) in
      let! in_name := lift (py_in "Albert H." user_name) in
      let! hit := (if in_name then ret true else lift (py_in "Albert H." display_name)) in
      if hit then
        let! text := lift (py_get message "text" (PStr "")) in
        ret (Some text)
      else ret None
    else ret None
  else ret None.

(** The loop [for message in messages]; the result is [albert_message]
    when the loop is left ([None] at the start).  The bare [except: pass]
    leaves the variable as it was and goes on with the next message. *)
Fixpoint find_albert (messages : list pyval) : M pyval :=
  match messages with
  | [] => ret PNone
  | message :: rest =>
      let! user_id := lift (py_get message "user" (PStr "")) in
      let! found := try_except (author_check message user_id) (fun _ => ret None) in
      match found with
      | Some text => ret text
      | None => find_albert rest
      end
  end.

Definition approval_prompt (albert_message : pyval) : string :=
  "Review the following Slack message from Albert H.:

" +:+ py_str env albert_message +:+ "

" +:+ "Determine if we should proceed with triggering the Azure DevOps pipeline. "
    +:+ "Respond with 'Approved' if we should proceed, or 'Rejected' if we should not. "
    +:+ "Only respond with one word: 'Approved' or 'Rejected'.".

Definition check_albert_message (state : State) : M State :=
  call "check_albert_message" (
    let messages := get state "slack_messages" (PList []) in
    let! items := lift (py_iter messages) in
    let! albert_message := find_albert items in
    if negb (truthy albert_message) then
      ret {[ "albert_message" := PStr "";
             "llm_approval" := PStr "Rejected";
             "error" := PStr "No message from Albert H. found in channel" ]}
    else
      try_except
        (let! content := llm_invoke env (approval_prompt albert_message) in
         let! approval := lift (py_strip content) in
         let approval' := if contains "Approved" approval then "Approved" else "Rejected" in
         ret {[ "albert_message" := albert_message;
                "llm_approval" := PStr approval' ]})
        (fun e =>
           ret {[ "albert_message" := albert_message;
                  "llm_approval" := PStr "Rejected";
                  "error" := PStr ("Error evaluating message with LLM: " +:+ exn_msg e) ]})).

(** The gate. *)
Definition validate_approval (state : State) : outcome string :=
  let approval := get state "llm_approval" (PStr "") in
  if py_eq approval (PStr "Approved") then Ret "Approved" else Ret "Rejected".

(** The loop over [enumerate(parts)] of [trigger_pipeline]: the part that
    follows the first ["runs"] that has a successor. *)
Fixpoint find_run_id (parts : list string) : option string :=
  match parts with
  | [] => None
  | part :: rest =>
      if String.eqb part "runs" then
        match rest with
        | following :: _ => Some following
        | [] => find_run_id rest
        end
      else find_run_id rest
  end.

Definition trigger_pipeline (state : State) : M State :=
  call "trigger_pipeline" (
    try_except
      (if negb (truthy (getenv (AZURE_DEVOPS_PIPELINE_ID cfg))) then
         ret {[ "error" := PStr "Azure DevOps pipeline ID not configured" ]}
       else
         let! pipeline_id := lift (py_int (unicode env) (getenv (AZURE_DEVOPS_PIPELINE_ID cfg))) in
         let! result := trigger_azure_pipeline pipeline_id "main" in
         if truthy result then
           let! id := lift (py_get result "id" PNone) in
           let! build_id :=
             (if negb (truthy id) then
                let! links := lift (py_get result "_links" (PDict [])) in
                let! self := lift (py_get links "self" (PDict [])) in
                let! href := lift (py_get self "href" (PStr "")) in
                if truthy href then
                  let! parts := lift (py_split href "/") in
                  ret (match find_run_id parts with
                       | Some part => PStr part
                       | None => id
                       end)
                else ret id
              else ret id) in
           if truthy build_id then
             let! build :=
               (if is_str_or_int build_id then lift (py_int (unicode env) build_id)
                else ret pipeline_id) in
             ret {[ "pipeline_id" := PInt pipeline_id;
                    "build_id" := PInt build;
                    "build_status" := PStr "InProgress" ]}
           else
             ret {[ "error" := PStr "Failed to extract build ID from pipeline trigger response";
                    "pipeline_id" := PInt pipeline_id ]}
         else
           ret {[ "error" := PStr "Failed to trigger Azure DevOps pipeline - check logs for details" ]})
      (fun e =>
         if is_ValueError e then
           ret {[ "error" := PStr ("Invalid pipeline ID format: " +:+ exn_msg e) ]}
         else
           ret {[ "error" := PStr ("Error triggering pipeline: " +:+ exn_msg e) ]})).

Definition attempt_label (attempt max_attempts : Z) : string :=
  "(attempt " +:+ pretty (attempt + 1) +:+ "/" +:+ pretty max_attempts +:+ ")".

(** One pass through the body of [while attempt < max_attempts]:
    [Some update] when the body returns [update], [None] when it reaches
    [attempt += 1]. *)
Definition poll_iteration (max_attempts : Z) (pipeline_id build_id : pyval) (attempt : Z)
    : M (option State) :=
  try_except
    (let! run_info := get_pipeline_status pipeline_id build_id in
     if truthy run_info then
       let! state_raw := lift (py_get run_info "state" (PStr "")) in
       let! state_value := lift (py_lower (unicode env) state_raw) in
       let! result_probe := lift (py_get run_info "result" PNone) in
       let! result_value :=
         (if truthy result_probe then
            let! result_raw := lift (py_get run_info "result" (PStr "")) in
            let! lowered := lift (py_lower (unicode env) result_raw) in
            ret (Some lowered)
          else ret None) in
       if String.eqb state_value "completed" then
         let status_msg :=
           match result_value with
           | Some r =>
               if negb (String.eqb r "") then "Completed - " +:+ capitalize (unicode env) r
               else "Completed"
           | None => "Completed"
           end in
         do! print ("Pipeline run " +:+ py_str env build_id +:+ " completed with status: "
                      +:+ status_msg) in
         ret (Some {[ "build_status" := PStr status_msg ]})
       else
         let! current_status := lift (py_get run_info "state" (PStr "Unknown")) in
         do! print ("Pipeline run " +:+ py_str env build_id +:+ " status: "
                      +:+ py_str env current_status +:+ " " +:+ attempt_label attempt max_attempts) in
         do! sleep 3 in
         ret None
     else
       do! print ("Unable to get status for run " +:+ py_str env build_id +:+ ", retrying... "
                    +:+ attempt_label attempt max_attempts) in
       do! sleep 3 in
       ret None)
    (fun e => ret (Some {[ "error" := PStr ("Error checking pipeline status: " +:+ exn_msg e) ]})).

(** [while attempt < max_attempts: ...]: [Some update] when the body
    returned, [None] when the condition became false. *)
Equations? poll_loop (max_attempts : Z) (pipeline_id build_id : pyval) (attempt : Z)
    (h : history) : outcome (option State) * history
    by wf (Z.to_nat (max_attempts - attempt)) lt :=
  poll_loop max_attempts pipeline_id build_id attempt h with Z_lt_dec attempt max_attempts := {
    | right _ => (Ret None, h)
    | left _ with poll_iteration max_attempts pipeline_id build_id attempt h := {
        | (Ret (Some update), h') => (Ret (Some update), h')
        | (Ret None, h') => poll_loop max_attempts pipeline_id build_id (attempt + 1) h'
        | (Raise e, h') => (Raise e, h') } }.
Proof. lia. Qed.

Definition max_attempts : Z := 100.

Definition check_pipeline_status (state : State) : M State :=
  call "check_pipeline_status" (
    let pipeline_id := get state "pipeline_id" PNone in
    let build_id := get state "build_id" PNone in
    if negb (truthy pipeline_id) || negb (truthy build_id) then
      ret {[ "error" := PStr "No pipeline ID or build ID available" ]}
    else
      do! print "Waiting 3 seconds before first status check..." in
      do! sleep 3 in
      do! print ("Starting status polling for pipeline " +:+ py_str env pipeline_id
                   +:+ ", run " +:+ py_str env build_id +:+ "...") in
      let! exit := poll_loop max_attempts pipeline_id build_id 0 in
      match exit with
      | Some update => ret update
      | None =>
          do! print ("Pipeline status check timed out after " +:+ pretty max_attempts
                       +:+ " attempts") in
          ret {[ "build_status" := PStr "Timeout - Status check exceeded maximum attempts";
                 "error" := PStr "Pipeline status check timed out" ]}
      end).

Definition workflow : Graph := {|
  nodes := [ ("consult_slack_messages", consult_slack_messages);
             ("check_albert_message", check_albert_message);
             ("trigger_pipeline", trigger_pipeline);
             ("check_pipeline_status", check_pipeline_status) ];
  edges := [ (START, Node "consult_slack_messages");
             ("consult_slack_messages", Node "check_albert_message");
             ("trigger_pipeline", Node "check_pipeline_status");
             ("check_pipeline_status", END) ];
  conditionals :=
    [ ("check_albert_message",
       {| gate := validate_approval;
          mapping := [ ("Approved", Node "trigger_pipeline"); ("Rejected", END) ] |}) ]
|}.

(** [chain.invoke(initial)] *)
Definition invoke (cap : nat) (initial : State) : M run_result :=
  run workflow cap initial.
End Workflow.
End ReAgentV2.

(** ** The posts and replies service: [src/emulation/teams/app.py] *)

Module TeamsApp.

(** A row of [posts_db]: the dict with the keys [id], [title], [user],
    [role], [message], [timestamp]. *)
Record post_row := {
  p_id : string;
  p_title : option string;
  p_user : string;
  p_role : string;
  p_message : string;
  p_timestamp : string
}.

(** A row of [replies_db]. *)
Record reply_row := {
  r_id : string;
  r_post_id : string;
  r_user : string;
  r_role : string;
  r_message : string;
  r_timestamp : string
}.

#[global] Instance post_eq_dec : EqDecision post_row.
Proof. solve_decision. Defined.

#[global] Instance reply_eq_dec : EqDecision reply_row.
Proof. solve_decision. Defined.

(** The request bodies. *)
Record PostCreate := {
  pc_title : option string;
  pc_user : string;
  pc_role : string;
  pc_message : string
}.

Record PostUpdate := {
  pu_title : option string;
  pu_message : option string
}.

Record ReplyCreate := {
  rc_post_id : string;
  rc_user : string;
  rc_role : string;
  rc_message : string
}.

Record ReplyCreateSimple := {
  rs_user : string;
  rs_role : string;
  rs_message : string
}.

Record ReplyUpdate := { ru_message : string }.

(** The response models. *)
Record PostSummary := {
  s_id : string;
  s_title : option string;
  s_message : string
}.

Record Post := {
  f_id : string;
  f_title : option string;
  f_user : string;
  f_role : string;
  f_message : string;
  f_timestamp : string;
  f_replies : list reply_row
}.

(** The two module-level lists. *)
Record Db := {
  posts_db : list post_row;
  replies_db : list reply_row
}.

(** What a handler answers: a value, a raised [HTTPException], or an
    exception that no handler catches. *)
Inductive result (A : Type) :=
| Ok (a : A)
| HTTPException (status : Z) (detail : string)
| Unhandled (e : exn).
Arguments Ok {A} a.
Arguments HTTPException {A} status detail.
Arguments Unhandled {A} e.

(** [next((p for p in posts_db if p["id"] == post_id), None)] *)
Definition find_post (post_id : string) (posts : list post_row) : option post_row :=
  List.find (fun p => String.eqb (p_id p) post_id) posts.

(** [next((r for r in replies_db if r["id"] == reply_id), None)] *)
Definition find_reply (reply_id : string) (replies : list reply_row) : option reply_row :=
  List.find (fun r => String.eqb (r_id r) reply_id) replies.

(** [l.remove(x)]: drops the first element equal to [x]; [None] stands for
    the [ValueError] of a list without such an element. *)
Fixpoint list_remove {A} `{EqDecision A} (x : A) (l : list A) : option (list A) :=
  match l with
  | [] => None
  | y :: l' => if decide (y = x) then Some l' else cons y <$> list_remove x l'
  end.

(** Assignments to the keys of a dict that sits in a list change the list's
    row: the row is the first one that passes [test], the one [next] found. *)
Fixpoint update_first {A} (test : A -> bool) (f : A -> A) (l : list A) : list A :=
  match l with
  | [] => []
  | y :: l' => if test y then f y :: l' else y :: update_first test f l'
  end.

Definition not_in_list : exn := Exn ValueError "list.remove(x): x not in list".

(** [uuid.uuid4()] and [datetime.now().isoformat()] are inputs of the
    handlers that use them: [uid] and [now]. *)
Definition init_sample_data (uid1 now1 uid2 now2 : string) (db : Db) : Db :=
  match posts_db db with
  | [] =>
      let sample_post :=
        {| p_id := uid1;
           p_title := Some "M190.0.0 Google Vertex AI Release";
           p_user := "Cristina M.";
           p_role := "Program Manager";
           p_message := "Hello everyone, this is the deployment plan to start today with it. Please check the component ID here: vertex-ai-re-agent.";
           p_timestamp := now1 |} in
      let sample_reply :=
        {| r_id := uid2;
           r_post_id := p_id sample_post;
           r_user := "Alexa A.";
           r_role := "SCRUM Master";
           r_message := "M190.0.0 GVA validated.

There is no pending SC tickets.

Please start with the release.";
           r_timestamp := now2 |} in
      {| posts_db := posts_db db ++ [sample_post];
         replies_db := replies_db db ++ [sample_reply] |}
  | _ :: _ => db
  end.

Definition get_posts (db : Db) : list PostSummary :=
  (fun post => {| s_id := p_id post; s_title := p_title post; s_message := p_message post |})
    <$> posts_db db.

(** The rows are records, so no key is missing and the handler's [except]
    clause (a 500 answer) has nothing to catch. *)
Definition get_posts_full (db : Db) : result (list Post) :=
  Ok ((fun post =>
         let post_replies :=
           List.filter (fun reply => String.eqb (r_post_id reply) (p_id post)) (replies_db db) in
         {| f_id := p_id post;
            f_title := p_title post;
            f_user := p_user post;
            f_role := p_role post;
            f_message := p_message post;
            f_timestamp := p_timestamp post;
            f_replies := post_replies |})
        <$> posts_db db).

Definition get_post (post_id : string) (db : Db) : result Post :=
  match find_post post_id (posts_db db) with
  | None => HTTPException 404 "Post not found"
  | Some post =>
      let post_replies :=
        List.filter (fun reply => String.eqb (r_post_id reply) post_id) (replies_db db) in
      Ok {| f_id := p_id post;
            f_title := p_title post;
            f_user := p_user post;
            f_role := p_role post;
            f_message := p_message post;
            f_timestamp := p_timestamp post;
            f_replies := post_replies |}
  end.

Definition get_replies (post_id : string) (db : Db) : list reply_row :=
  List.filter (fun reply => String.eqb (r_post_id reply) post_id) (replies_db db).

Definition create_post (uid now : string) (body : PostCreate) (db : Db) : result post_row * Db :=
  let new_post :=
    {| p_id := uid;
       p_title := pc_title body;
       p_user := pc_user body;
       p_role := pc_role body;
       p_message := pc_message body;
       p_timestamp := now |} in
  (Ok new_post,
   {| posts_db := posts_db db ++ [new_post]; replies_db := replies_db db |}).

(** The assignments of [update_post] to the found row. *)
Definition apply_post_update (now : string) (post_update : PostUpdate) (post : post_row) : post_row :=
  let post1 :=
    match pu_title post_update with
    | Some title =>
        {| p_id := p_id post; p_title := Some title; p_user := p_user post;
           p_role := p_role post; p_message := p_message post;
           p_timestamp := p_timestamp post |}
    | None => post
    end in
  let post2 :=
    match pu_message post_update with
    | Some message =>
        {| p_id := p_id post1; p_title := p_title post1; p_user := p_user post1;
           p_role := p_role post1; p_message := message;
           p_timestamp := p_timestamp post1 |}
    | None => post1
    end in
  {| p_id := p_id post2; p_title := p_title post2; p_user := p_user post2;
     p_role := p_role post2; p_message := p_message post2; p_timestamp := now |}.

Definition update_post (now : string) (post_id : string) (post_update : PostUpdate) (db : Db)
    : result post_row * Db :=
  match find_post post_id (posts_db db) with
  | None => (HTTPException 404 "Post not found", db)
  | Some post =>
      (Ok (apply_post_update now post_update post),
       {| posts_db := update_first (fun p => String.eqb (p_id p) post_id)
                        (apply_post_update now post_update) (posts_db db);
          replies_db := replies_db db |})
  end.

Definition delete_post (post_id : string) (db : Db) : result string * Db :=
  match find_post post_id (posts_db db) with
  | None => (HTTPException 404 "Post not found", db)
  | Some post =>
      match list_remove post (posts_db db) with
      | None => (Unhandled not_in_list, db)
      | Some posts =>
          (Ok "Post deleted successfully",
           {| posts_db := posts;
              replies_db :=
                List.filter (fun r => negb (String.eqb (r_post_id r) post_id)) (replies_db db) |})
      end
  end.

Definition create_reply (uid now : string) (body : ReplyCreate) (db : Db) : result reply_row * Db :=
  match find_post (rc_post_id body) (posts_db db) with
  | None => (HTTPException 404 "Post not found", db)
  | Some _ =>
      let new_reply :=
        {| r_id := uid;
           r_post_id := rc_post_id body;
           r_user := rc_user body;
           r_role := rc_role body;
           r_message := rc_message body;
           r_timestamp := now |} in
      (Ok new_reply,
       {| posts_db := posts_db db; replies_db := replies_db db ++ [new_reply] |})
  end.

Definition create_reply_simple (uid now : string) (post_id : string) (body : ReplyCreateSimple)
    (db : Db) : result reply_row * Db :=
  match find_post post_id (posts_db db) with
  | None => (HTTPException 404 "Post not found", db)
  | Some _ =>
      let new_reply :=
        {| r_id := uid;
           r_post_id := post_id;
           r_user := rs_user body;
           r_role := rs_role body;
           r_message := rs_message body;
           r_timestamp := now |} in
      (Ok new_reply,
       {| posts_db := posts_db db; replies_db := replies_db db ++ [new_reply] |})
  end.

(** The assignments of [update_reply] to the found row. *)
Definition apply_reply_update (now : string) (reply_update : ReplyUpdate) (reply : reply_row) : reply_row :=
  {| r_id := r_id reply; r_post_id := r_post_id reply; r_user := r_user reply;
     r_role := r_role reply; r_message := ru_message reply_update; r_timestamp := now |}.

Definition update_reply (now : string) (reply_id : string) (reply_update : ReplyUpdate) (db : Db)
    : result reply_row * Db :=
  match find_reply reply_id (replies_db db) with
  | None => (HTTPException 404 "Reply not found", db)
  | Some reply =>
      (Ok (apply_reply_update now reply_update reply),
       {| posts_db := posts_db db;
          replies_db := update_first (fun r => String.eqb (r_id r) reply_id)
                          (apply_reply_update now reply_update) (replies_db db) |})
  end.

Definition delete_reply (reply_id : string) (db : Db) : result string * Db :=
  match find_reply reply_id (replies_db db) with
  | None => (HTTPException 404 "Reply not found", db)
  | Some reply =>
      match list_remove reply (replies_db db) with
      | None => (Unhandled not_in_list, db)
      | Some replies =>
          (Ok "Reply deleted successfully",
           {| posts_db := posts_db db; replies_db := replies |})
      end
  end.

End TeamsApp.

(** ** Vocabulary of the statements *)

Module Props.

Definition is_dict (v : pyval) : bool :=
  match v with PDict _ => true | _ => false end.

(** How the polling loop reads the answer of one status check: it goes on
    ([Pending]), it returns a build status ([Completed]), or the answer
    makes the body raise, which its handler turns into an error update
    ([Malformed]). *)
Inductive verdict :=
| Pending
| Completed (status_msg : string)
| Malformed (e : exn).

Definition classify (env : Env) (run_info : pyval) : verdict :=
  let U := unicode env in
  if negb (truthy run_info) then Pending
  else
    match run_info with
    | PDict d =>
        let state := default (PStr "") (assoc "state" d) in
        let result := default PNone (assoc "result" d) in
        match state with
        | PStr s =>
            if truthy result then
              match result with
              | PStr r =>
                  if String.eqb (lower U s) "completed"
                  then Completed (if negb (String.eqb (lower U r) "")
                                  then "Completed - " +:+ capitalize U (lower U r)
                                  else "Completed")
                  else Pending
              | _ => Malformed (no_attribute result "lower")
              end
            else if String.eqb (lower U s) "completed" then Completed "Completed" else Pending
        | _ => Malformed (no_attribute state "lower")
        end
    | _ => Malformed (no_attribute run_info "get")
    end.

(** An answer of the HTTP layer that is no status report: the request
    raised, the status is not 200, or the body is not JSON. *)
Definition io_failure (o : outcome response) : bool :=
  match o with
  | Raise _ => true
  | Ret resp =>
      negb (status_code resp =? 200)
      || match json resp with Raise _ => true | Ret _ => false end
  end.

(** An answer to [users.info] that does not resolve the author: the request
    raised, the status is not 200, the body is not JSON or not an object,
    or its [ok] flag is false. *)
Definition lookup_failure (o : outcome response) : bool :=
  match o with
  | Raise _ => true
  | Ret resp =>
      negb (status_code resp =? 200)
      || match json resp with
         | Raise _ => true
         | Ret data =>
             match py_get data "ok" PNone with
             | Raise _ => true
             | Ret ok => negb (truthy ok)
             end
         end
  end.

(** The request [get_pipeline_status] sends. *)
Definition status_request (cfg : ReAgentV2.Config) (env : Env) (pipeline_id run_id : pyval)
    : request :=
  {| req_method := GET;
     req_url := ReAgentV2.azure_base cfg env +:+ "_apis/pipelines/" +:+ py_str env pipeline_id
                  +:+ "/runs/" +:+ py_str env run_id +:+ "?api-version=7.1";
     req_headers := ReAgentV2.azure_headers cfg env;
     req_params := [];
     req_json := None |}.

(** The status check entered at history [h] meets an I/O failure. *)
Definition check_fails (cfg : ReAgentV2.Config) (env : Env) (pipeline_id run_id : pyval)
    (h : history) : bool :=
  io_failure (http env (EvCall "get_pipeline_status" :: h)
                (status_request cfg env pipeline_id run_id)).

(** An OK answer to [users.info] on which the lookup raises all the same:
    [user] or [profile] is no JSON object, or a name is of a type that [in]
    cannot search.  The bare [except] of the loop swallows the exception. *)
Definition lookup_breaks (o : outcome response) : bool :=
  match o with
  | Raise _ => false
  | Ret resp =>
      (status_code resp =? 200)
      && match json resp with
         | Ret (PDict d) =>
             truthy (default PNone (assoc "ok" d))
             && match default (PDict []) (assoc "user" d) with
                | PDict u =>
                    match default (PDict []) (assoc "profile" u) with
                    | PDict p =>
                        match py_in "Albert H." (default (PStr "") (assoc "real_name" u)) with
                        | Raise _ => true
                        | Ret true => false
                        | Ret false =>
                            match py_in "Albert H."
                                    (default (PStr "") (assoc "display_name" p)) with
                            | Raise _ => true
                            | Ret _ => false
                            end
                        end
                    | _ => true
                    end
                | _ => true
                end
         | _ => false
         end
  end.

(** The author of a message, as the loop reads it: [message.get("user", "")]. *)
Definition author_of (message : pyval) : pyval :=
  match message with
  | PDict d => default (PStr "") (assoc "user" d)
  | _ => PStr ""
  end.

(** [preserves f m]: running [m] does not change the reading [f] of the
    history.  With [f] a count of events, [m] adds no such event; with [f]
    the identity, [m] has no effect at all. *)
Definition preserves {X A} (f : history -> X) (m : M A) : Prop :=
  forall h, f (snd (m h)) = f h.

Definition effect_free {A} (m : M A) : Prop := preserves (fun h => h) m.

(** [total m]: [m] returns, whatever the history; it never raises. *)
Definition total {A} (m : M A) : Prop :=
  forall h, exists a h', m h = (Ret a, h').

(** The value a computation returns from a history; [PNone] stands in when
    it raises. *)
Definition value (r : outcome pyval * history) : pyval :=
  match fst r with Ret v => v | Raise _ => PNone end.

(** The first, respectively last, character of a string is no whitespace. *)
Definition starts_solid (n : string) : bool :=
  match n with
  | EmptyString => false
  | String a _ => negb (is_space a)
  end.

Fixpoint ends_solid (n : string) : bool :=
  match n with
  | EmptyString => false
  | String a EmptyString => negb (is_space a)
  | String _ n' => ends_solid n'
  end.

(** Whether [check_albert_message] takes the answer of the model for an
    approval: a string in which, once stripped, "Approved" occurs. *)
Definition reply_approves (o : outcome pyval) : bool :=
  match o with
  | Ret (PStr reply) => contains "Approved" (strip reply)
  | _ => false
  end.

(** The request [check_albert_message] sends to resolve an author. *)
Definition users_info (cfg : ReAgentV2.Config) (env : Env) (user_id : pyval) : request :=
  {| req_method := GET;
     req_url := ReAgentV2.SLACK_API_BASE +:+ "/users.info";
     req_headers := ReAgentV2.slack_headers cfg env;
     req_params := [("user", user_id)];
     req_json := None |}.

(** The lookup of the author of [message], made at history [h], fails: by
    an exception or an answer that is not OK ([lookup_failure]), or by an
    exception on an OK answer ([lookup_breaks]). *)
Definition lookup_fails (cfg : ReAgentV2.Config) (env : Env) (h : history) (message : pyval)
    : bool :=
  lookup_failure (http env h (users_info cfg env (author_of message)))
  || lookup_breaks (http env h (users_info cfg env (author_of message))).

(** The request [get_slack_messages] sends. *)
Definition history_request (cfg : ReAgentV2.Config) (env : Env) (channel_id : pyval)
    (limit : Z) : request :=
  {| req_method := GET;
     req_url := ReAgentV2.SLACK_API_BASE +:+ "/conversations.history";
     req_headers := ReAgentV2.slack_headers cfg env;
     req_params := [("channel", channel_id); ("limit", PInt limit)];
     req_json := None |}.

(** The language model always answers, and with a string. *)
Definition llm_answers (env : Env) : Prop :=
  forall h prompt, exists s, llm_content env h prompt = Ret (PStr s).

(** The StateRecord after a list of visits, each merged in turn. *)
Definition replay (st : State) (vs : list visit) : State :=
  fold_left (fun s v => merge (v_update v) s) vs st.

(** Each visit's state is its update merged into the state before it. *)
Fixpoint coherent (st : State) (vs : list visit) : Prop :=
  match vs with
  | [] => True
  | v :: vs' => v_state v = merge (v_update v) st /\ coherent (v_state v) vs'
  end.

(** A StateRecord whose [slack_messages], when present, is a list of JSON
    objects, as the Slack API delivers it. *)
Definition messages_are_records (state : State) : Prop :=
  forall v, state !! "slack_messages" = Some v ->
            exists l, v = PList l /\ forallb is_dict l = true.

(** The update of [check_albert_message] when no message qualifies. *)
Definition not_found : State :=
  {[ "albert_message" := PStr "";
     "llm_approval" := PStr "Rejected";
     "error" := PStr "No message from Albert H. found in channel" ]}.

(** Answers to [conversations.history]: a failed retrieval (a status other
    than 200, or a JSON object whose [ok] flag is false), and the answer of
    a channel that has no messages. *)
Definition retrieval_failed (o : outcome response) : bool :=
  match o with
  | Raise _ => false
  | Ret resp =>
      negb (status_code resp =? 200)
      || match json resp with
         | Ret (PDict d) => negb (truthy (default PNone (assoc "ok" d)))
         | _ => false
         end
  end.

Definition empty_channel (o : outcome response) : bool :=
  match o with
  | Raise _ => false
  | Ret resp =>
      (status_code resp =? 200)
      && match json resp with
         | Ret (PDict d) =>
             truthy (default PNone (assoc "ok" d))
             && match default (PList []) (assoc "messages" d) with
                | PList [] => true
                | _ => false
                end
         | _ => false
         end
  end.

(** The exception with which reading the history ends, if it does: the one
    of the request, the one of decoding a 200 body that is not JSON, or the
    [AttributeError] of [data.get] on a 200 body that is no JSON object. *)
Definition retrieval_error (o : outcome response) : option exn :=
  match o with
  | Raise e => Some e
  | Ret resp =>
      if status_code resp =? 200 then
        match json resp with
        | Raise e => Some e
        | Ret (PDict _) => None
        | Ret v => Some (no_attribute v "get")
        end
      else None
  end.

(** The update of [consult_slack_messages] that carries no message. *)
Definition no_messages : State := {[ "slack_messages" := PList [] ]}.

(** The update of [check_pipeline_status] when the attempts are used up. *)
Definition timed_out : State :=
  {[ "build_status" := PStr "Timeout - Status check exceeded maximum attempts";
     "error" := PStr "Pipeline status check timed out" ]}.

End Props.
Export Props.

(** ** Concrete worlds, used to run the workflows *)

Module Scenario.

Definition cfg_demo : ReAgentV2.Config := {|
  ReAgentV2.SLACK_TOKEN := Some "xoxb-demo";
  ReAgentV2.AZURE_DEVOPS_PAT := Some "pat";
  ReAgentV2.AZURE_DEVOPS_ORG := Some "org";
  ReAgentV2.AZURE_DEVOPS_PROJECT := Some "project";
  ReAgentV2.AZURE_DEVOPS_PIPELINE_ID := Some "7"
|}.

(** The worlds below exchange ASCII strings only, so the Unicode database
    is not consulted; its entries are placeholders. *)
Definition ascii_only : Unicode := {|
  u_lower := fun s => s;
  u_capitalize := fun s => s;
  u_int := fun _ => None;
  u_literal := fun s => s
|}.

Definition ok_response (body : pyval) : response :=
  {| status_code := 200; text := ""; json := Ret body |}.

Definition connection_error : exn :=
  Exn (OtherError "ConnectionError") "connection refused".

(** Every request fails in transit; the model answers "Approved". *)
Definition env_net_down : Env := {|
  http := fun _ _ => Raise connection_error;
  llm_content := fun _ _ => Ret (PStr "Approved");
  b64encode := fun s => s;
  repr := fun _ => "<object>";
  unicode := ascii_only
|}.

(** The language model is unreachable; every request is answered by an
    empty JSON object. *)
Definition env_llm_down : Env := {|
  http := fun _ _ => Ret (ok_response (PDict []));
  llm_content := fun _ _ => Raise (Exn (OtherError "ServiceUnavailable") "503");
  b64encode := fun s => s;
  repr := fun _ => "<object>";
  unicode := ascii_only
|}.

(** The pipeline run is in progress while fewer than [k] status checks have
    been entered and completed with result "succeeded" from the [k]-th
    check on. *)
Definition env_completes_at (k : nat) : Env := {|
  http := fun h _ =>
    if (calls "get_pipeline_status" h <? k)%nat
    then Ret (ok_response (PDict [("state", PStr "inProgress")]))
    else Ret (ok_response (PDict [("state", PStr "completed"); ("result", PStr "succeeded")]));
  llm_content := fun _ _ => Ret (PStr "Approved");
  b64encode := fun s => s;
  repr := fun _ => "<object>";
  unicode := ascii_only
|}.

(** The first two status checks fail in transit; from the third on the run
    is reported completed with result "succeeded". *)
Definition env_flaky : Env := {|
  http := fun h _ =>
    if (calls "get_pipeline_status" h <=? 2)%nat then Raise connection_error
    else Ret (ok_response (PDict [("state", PStr "completed"); ("result", PStr "succeeded")]));
  llm_content := fun _ _ => Ret (PStr "Approved");
  b64encode := fun s => s;
  repr := fun _ => "<object>";
  unicode := ascii_only
|}.

(** Every user is known, with a [profile] that is null. *)
Definition env_profile_null : Env := {|
  http := fun _ _ =>
    Ret (ok_response (PDict [ ("ok", PBool true);
                              ("user", PDict [ ("real_name", PStr "Albert H.");
                                               ("profile", PNone) ]) ]));
  llm_content := fun _ _ => Ret (PStr "Approved");
  b64encode := fun s => s;
  repr := fun _ => "<object>";
  unicode := ascii_only
|}.

Definition channels_reply : response :=
  ok_response (PDict [ ("ok", PBool true);
                       ("channels", PList [ PDict [ ("name", PStr "general");
                                                    ("id", PStr "C1") ] ]) ]).

(** The channel list is served; reading the channel's history fails in
    transit. *)
Definition env_history_down : Env := {|
  http := fun h _ =>
    if (calls "get_slack_messages" h =? 0)%nat then Ret channels_reply
    else Raise connection_error;
  llm_content := fun _ _ => Ret (PStr "Approved");
  b64encode := fun s => s;
  repr := fun _ => "<object>";
  unicode := ascii_only
|}.

(** The channel list is served; reading the channel's history is answered
    with status 503. *)
Definition env_history_unavailable : Env := {|
  http := fun h _ =>
    if (calls "get_slack_messages" h =? 0)%nat then Ret channels_reply
    else Ret {| status_code := 503; text := "Service Unavailable";
                json := Raise (Exn ValueError "Expecting value") |};
  llm_content := fun _ _ => Ret (PStr "Approved");
  b64encode := fun s => s;
  repr := fun _ => "<object>";
  unicode := ascii_only
|}.

(** The model writes a joke without punctuation marks first and then
    answers every other prompt with an exclamation. *)
Definition env_flat_joke : Env := {|
  http := fun _ _ => Raise connection_error;
  llm_content := fun h _ =>
    if (count is_llm h =? 0)%nat then Ret (PStr "Cats are great")
    else Ret (PStr "Cats are grreat!");
  b64encode := fun s => s;
  repr := fun _ => "<object>";
  unicode := ascii_only
|}.

(** A channel with one message, written by Albert H.; the model answers
    "Not Approved". *)
Definition env_not_approved : Env := {|
  http := fun h _ =>
    if (calls "get_slack_messages" h =? 0)%nat then Ret channels_reply
    else if (calls "check_albert_message" h =? 0)%nat then
      Ret (ok_response (PDict [ ("ok", PBool true);
                                ("messages", PList [ PDict [ ("user", PStr "U1");
                                                             ("text", PStr "ship it") ] ]) ]))
    else
      Ret (ok_response (PDict [ ("ok", PBool true);
                                ("user", PDict [ ("real_name", PStr "Albert H.") ]) ]));
  llm_content := fun _ _ => Ret (PStr "Not Approved");
  b64encode := fun s => s;
  repr := fun _ => "<object>";
  unicode := ascii_only
|}.

Definition st_one_message : State :=
  {[ "slack_messages" := PList [ PDict [ ("user", PStr "U1"); ("text", PStr "ship it") ] ] ]}.

Definition no_visit : visit := {| v_node := ""; v_update := ∅; v_state := ∅ |}.

Definition st_cats : State := {[ "topic" := PStr "cats" ]}.

Definition st_general : State := {[ "channel" := PStr "general" ]}.

Definition st_build : State := {[ "pipeline_id" := PInt 7; "build_id" := PInt 42 ]}.

End Scenario.

(** ** Vocabulary of the statements about the service *)

Module AppProps.
Import TeamsApp.

Definition has_post (post_id : string) (db : Db) : bool :=
  existsb (fun p => String.eqb (p_id p) post_id) (posts_db db).

Definition has_reply (reply_id : string) (db : Db) : bool :=
  existsb (fun r => String.eqb (r_id r) reply_id) (replies_db db).

(** Every reply belongs to a post of the table. *)
Definition integrity (db : Db) : bool :=
  forallb (fun r => has_post (r_post_id r) db) (replies_db db).

(** No two posts, respectively replies, share an id. *)
Definition unique_posts (db : Db) : Prop := NoDup (p_id <$> posts_db db).
Definition unique_replies (db : Db) : Prop := NoDup (r_id <$> replies_db db).

Definition sample_db : Db :=
  init_sample_data "post-1" "2024-01-01T09:00:00" "reply-1" "2024-01-01T09:05:00"
    {| posts_db := []; replies_db := [] |}.

End AppProps.

(** ** Vocabulary of the further statements about the approval workflow *)

Module AgentProps.

(** [adds_at_most p n m]: running [m] adds at most [n] events that pass
    [p] to the history. *)
Definition adds_at_most {A} (p : event -> bool) (n : nat) (m : M A) : Prop :=
  forall h, (count p (snd (m h)) <= count p h + n)%nat.

(** [returns P m]: whenever [m] returns, what it returns satisfies [P]. *)
Definition returns {A} (P : A -> Prop) (m : M A) : Prop :=
  forall h, match fst (m h) with Ret a => P a | Raise _ => True end.

(** The two shapes of the update of [trigger_pipeline]: an error without a
    build id, or the ids of a run in progress. *)
Definition trigger_update (update : State) : Prop :=
  (is_Some (update !! "error") /\ update !! "build_id" = None)
  \/ exists pipeline_id build_id : Z,
       update = {[ "pipeline_id" := PInt pipeline_id;
                   "build_id" := PInt build_id;
                   "build_status" := PStr "InProgress" ]}.

(** An update that ends [check_pipeline_status] carries an error or a build
    status. *)
Definition final_update (update : State) : Prop :=
  is_Some (update !! "error") \/ is_Some (update !! "build_status").

(** The shape of the update of [check_albert_message]: the message, and a
    verdict that is "Approved" only when there is no error. *)
Definition approval_update (update : State) : Prop :=
  is_Some (update !! "albert_message")
  /\ ((update !! "llm_approval" = Some (PStr "Approved") /\ update !! "error" = None)
      \/ (update !! "llm_approval" = Some (PStr "Rejected"))).

(** The request [get_slack_channel_id] sends. *)
Definition channels_request (cfg : ReAgentV2.Config) (env : Env) : request :=
  {| req_method := GET;
     req_url := ReAgentV2.SLACK_API_BASE +:+ "/conversations.list";
     req_headers := ReAgentV2.slack_headers cfg env;
     req_params := [("types", PStr "public_channel,private_channel")];
     req_json := None |}.

(** The test of the loop of [get_slack_channel_id] on a JSON object:
    [channel.get("name") == channel_name or channel.get("id") == channel_name]. *)
Definition channel_matches (channel_name : pyval) (channel : list (string * pyval)) : bool :=
  py_eq (default PNone (assoc "name" channel)) channel_name
  || py_eq (default PNone (assoc "id" channel)) channel_name.

(** The request [trigger_azure_pipeline] sends. *)
Definition run_request (cfg : ReAgentV2.Config) (env : Env) (pipeline_id : Z)
    (branch : string) : request :=
  {| req_method := POST;
     req_url := ReAgentV2.azure_base cfg env +:+ "_apis/pipelines/" +:+ pretty pipeline_id
                  +:+ "/runs?api-version=7.1";
     req_headers := ReAgentV2.azure_headers cfg env;
     req_params := [];
     req_json :=
       Some (PDict [ ("resources",
               PDict [ ("repositories",
                 PDict [ ("self",
                   PDict [ ("refName", PStr ("refs/heads/" +:+ branch)) ]) ]) ]) ]) |}.

(** The names an answer to [users.info] gives, when it is an OK answer whose
    [real_name] and [display_name] are strings (absent ones read as the
    empty string): the pair [check_albert_message] tests. *)
Definition who (o : outcome response) : option (string * string) :=
  match o with
  | Raise _ => None
  | Ret resp =>
      if status_code resp =? 200 then
        match json resp with
        | Ret (PDict d) =>
            if truthy (default PNone (assoc "ok" d)) then
              match default (PDict []) (assoc "user" d) with
              | PDict u =>
                  match default (PStr "") (assoc "real_name" u),
                        default (PDict []) (assoc "profile" u) with
                  | PStr real_name, PDict p =>
                      match default (PStr "") (assoc "display_name" p) with
                      | PStr display_name => Some (real_name, display_name)
                      | _ => None
                      end
                  | _, _ => None
                  end
              | _ => None
              end
            else None
        | _ => None
        end
      else None
  end.

Definition is_albert (o : outcome response) : bool :=
  match who o with
  | Some (real_name, display_name) =>
      contains "Albert H." real_name || contains "Albert H." display_name
  | None => false
  end.

Definition other_author (o : outcome response) : bool :=
  match who o with
  | Some (real_name, display_name) =>
      negb (contains "Albert H." real_name || contains "Albert H." display_name)
  | None => false
  end.

(** The author and the text of a message, as the loop reads them. *)
Definition author (message : list (string * pyval)) : pyval :=
  default (PStr "") (assoc "user" message).

Definition text_of (message : list (string * pyval)) : pyval :=
  default (PStr "") (assoc "text" message).

(** *** Further worlds *)

Definition cfg_no_token : ReAgentV2.Config := {|
  ReAgentV2.SLACK_TOKEN := Some "xoxb-demo";
  ReAgentV2.AZURE_DEVOPS_PAT := None;
  ReAgentV2.AZURE_DEVOPS_ORG := Some "org";
  ReAgentV2.AZURE_DEVOPS_PROJECT := Some "project";
  ReAgentV2.AZURE_DEVOPS_PIPELINE_ID := Some "7"
|}.

Definition cfg_no_pipeline : ReAgentV2.Config := {|
  ReAgentV2.SLACK_TOKEN := Some "xoxb-demo";
  ReAgentV2.AZURE_DEVOPS_PAT := Some "pat";
  ReAgentV2.AZURE_DEVOPS_ORG := Some "org";
  ReAgentV2.AZURE_DEVOPS_PROJECT := Some "project";
  ReAgentV2.AZURE_DEVOPS_PIPELINE_ID := None
|}.

Definition cfg_bad_pipeline : ReAgentV2.Config := {|
  ReAgentV2.SLACK_TOKEN := Some "xoxb-demo";
  ReAgentV2.AZURE_DEVOPS_PAT := Some "pat";
  ReAgentV2.AZURE_DEVOPS_ORG := Some "org";
  ReAgentV2.AZURE_DEVOPS_PROJECT := Some "project";
  ReAgentV2.AZURE_DEVOPS_PIPELINE_ID := Some "seven"
|}.

(** Every request is answered with the JSON object [body]. *)
Definition env_answers (body : pyval) : Env := {|
  http := fun _ _ => Ret (Scenario.ok_response body);
  llm_content := fun _ _ => Ret (PStr "Approved");
  b64encode := fun s => s;
  repr := fun _ => "<object>";
  unicode := Scenario.ascii_only
|}.

Definition run_started : pyval := PDict [ ("id", PInt 42); ("state", PStr "inProgress") ].

Definition run_linked (href : string) : pyval :=
  PDict [ ("_links", PDict [ ("self", PDict [ ("href", PStr href) ]) ]) ].

Definition href_demo : string :=
  "https://dev.azure.com/org/project/_apis/pipelines/7/runs/42".

Definition env_linked : Env := env_answers (run_linked href_demo).

Definition env_started : Env := env_answers run_started.

(** The user directory: U1 is Bob, U2 and U3 are Albert H. (U3 under the
    display name only); every other user is unknown. *)
Definition directory (user_id : option pyval) : response :=
  match user_id with
  | Some (PStr "U1") =>
      Scenario.ok_response
        (PDict [ ("ok", PBool true); ("user", PDict [ ("real_name", PStr "Bob B.") ]) ])
  | Some (PStr "U2") =>
      Scenario.ok_response
        (PDict [ ("ok", PBool true); ("user", PDict [ ("real_name", PStr "Albert H.") ]) ])
  | Some (PStr "U3") =>
      Scenario.ok_response
        (PDict [ ("ok", PBool true);
                 ("user", PDict [ ("real_name", PStr "Al");
                                  ("profile", PDict [ ("display_name", PStr "Albert H. (RE)") ]) ]) ])
  | _ => Scenario.ok_response (PDict [ ("ok", PBool false); ("error", PStr "user_not_found") ])
  end.

Definition env_directory : Env := {|
  http := fun _ r => Ret (directory (assoc "user" (req_params r)));
  llm_content := fun _ _ => Ret (PStr "Approved");
  b64encode := fun s => s;
  repr := fun _ => "<object>";
  unicode := Scenario.ascii_only
|}.

(** Slack refuses every request. *)
Definition env_refused : Env :=
  env_answers (PDict [ ("ok", PBool false); ("error", PStr "invalid_auth") ]).

Definition msg (user text : string) : list (string * pyval) :=
  [ ("user", PStr user); ("text", PStr text) ].

(** A channel in which Bob wrote last, Albert H. before him, and Albert H.
    under the display name before that. *)
Definition st_three_messages : State :=
  {[ "slack_messages" :=
       PList [ PDict (msg "U1" "hello"); PDict (msg "U2" "ship it"); PDict (msg "U3" "wait") ] ]}.

End AgentProps.
(** * Facts *)

(** ** Running a computation step by step *)

Lemma bind_ret_eq {A B} (m : M A) (k : A -> M B) h a h' :
  m h = (Ret a, h') -> bind m k h = k a h'.
Proof. intros H. unfold bind. rewrite H. reflexivity. Qed.

Lemma bind_raise_eq {A B} (m : M A) (k : A -> M B) h e h' :
  m h = (Raise e, h') -> bind m k h = (Raise e, h').
Proof. intros H. unfold bind. rewrite H. reflexivity. Qed.

Lemma bind_ret {A B} (a : A) (k : A -> M B) h : bind (ret a) k h = k a h.
Proof. reflexivity. Qed.

Lemma bind_lift_ret {A B} (a : A) (k : A -> M B) h : bind (lift (Ret a)) k h = k a h.
Proof. reflexivity. Qed.

Lemma bind_lift_raise {A B} (e : exn) (k : A -> M B) h :
  bind (lift (Raise e)) k h = (Raise e, h).
Proof. reflexivity. Qed.

Lemma bind_assoc {A B C} (m : M A) (f : A -> M B) (g : B -> M C) h :
  bind (bind m f) g h = bind m (fun a => bind (f a) g) h.
Proof. unfold bind. destruct (m h) as [[a|e] h']; reflexivity. Qed.

Lemma bind_emit {B} (ev : event) (k : unit -> M B) h : bind (emit ev) k h = k tt (ev :: h).
Proof. reflexivity. Qed.

Lemma bind_print {B} (line : string) (k : unit -> M B) h :
  bind (print line) k h = k tt (EvPrint line :: h).
Proof. reflexivity. Qed.

Lemma bind_sleep {B} (secs : Z) (k : unit -> M B) h :
  bind (sleep secs) k h = k tt (EvSleep secs :: h).
Proof. reflexivity. Qed.

Lemma ret_eq {A} (a : A) h : ret a h = (Ret a, h).
Proof. reflexivity. Qed.

Lemma try_ret_eq {A} (m : M A) (handler : exn -> M A) h a h' :
  m h = (Ret a, h') -> try_except m handler h = (Ret a, h').
Proof. intros H. unfold try_except. rewrite H. reflexivity. Qed.

Lemma try_raise_eq {A} (m : M A) (handler : exn -> M A) h e h' :
  m h = (Raise e, h') -> try_except m handler h = handler e h'.
Proof. intros H. unfold try_except. rewrite H. reflexivity. Qed.

Lemma call_eq {A} (fn : string) (body : M A) h : call fn body h = body (EvCall fn :: h).
Proof. reflexivity. Qed.

Create Rewrite HintDb run.
#[global] Hint Rewrite @bind_assoc @bind_ret @bind_lift_ret @bind_lift_raise @bind_emit @bind_print
  @bind_sleep @ret_eq @call_eq : run.

(** Rewrite with the equations above and reduce the Python operations whose
    argument is known. *)
Ltac run :=
  repeat (progress (autorewrite with run;
                    cbn [py_get py_lower py_strip py_split py_iter py_int from_option id])).


(** ** Strings: substring test and [strip] *)

Lemma starts_with_spec (n s : string) :
  starts_with n s = true <-> exists b, s = n +:+ b.
Proof.
  revert s. induction n as [|a n IH]; intros s; simpl.
  - split; [intros _; exists s; reflexivity|reflexivity].
  - destruct s as [|c s].
    + split; [discriminate|intros [b Hb]; discriminate Hb].
    + rewrite andb_true_iff, Ascii.eqb_eq, IH. split.
      * intros [-> [b ->]]. exists b. reflexivity.
      * intros [b Hb]. injection Hb as -> ->. split; [reflexivity|exists b; reflexivity].
Qed.

(** [contains n s] holds exactly when [n] occurs in [s]. *)
Lemma contains_spec (n s : string) :
  contains n s = true <-> exists a b, s = a +:+ n +:+ b.
Proof.
  induction s as [|c s IH]; cbn [contains].
  - destruct (starts_with n "") eqn:E.
    + split; [intros _|reflexivity]. apply starts_with_spec in E as [b Hb].
      exists "", b. exact Hb.
    + split; [discriminate|]. intros (a & b & H).
      destruct a as [|x a]; [|discriminate H].
      simpl in H. assert (starts_with n "" = true) as E' by (apply starts_with_spec; eauto).
      congruence.
  - destruct (starts_with n (String c s)) eqn:E.
    + split; [intros _|reflexivity]. apply starts_with_spec in E as [b Hb].
      exists "", b. exact Hb.
    + rewrite IH. split.
      * intros (a & b & H). exists (String c a), b. simpl. rewrite H. reflexivity.
      * intros (a & b & H). destruct a as [|x a].
        -- simpl in H. assert (starts_with n (String c s) = true) as E'
             by (apply starts_with_spec; eauto). congruence.
        -- simpl in H. injection H as _ H. eauto.
Qed.

Lemma contains_lstrip (n s : string) :
  starts_solid n = true -> contains n (lstrip s) = contains n s.
Proof.
  intros Hn. induction s as [|c s IH]; [reflexivity|].
  cbn [lstrip]. destruct (is_space c) eqn:Hc; [|reflexivity].
  rewrite IH. cbn [contains].
  destruct n as [|a n]; [discriminate Hn|]. cbn [starts_with].
  destruct (Ascii.eqb a c) eqn:Hac; [|reflexivity].
  apply Ascii.eqb_eq in Hac as ->. simpl in Hn. rewrite Hc in Hn. discriminate Hn.
Qed.

Lemma starts_with_rstrip (n s : string) :
  ends_solid n = true -> starts_with n (rstrip s) = starts_with n s.
Proof.
  revert n. induction s as [|c s IH]; intros n Hn; [reflexivity|].
  destruct n as [|a n]; [discriminate Hn|].
  cbn [rstrip]. destruct (is_space c && String.eqb (rstrip s) "") eqn:E.
  - apply andb_true_iff in E as [Hc Hr]. apply String.eqb_eq in Hr.
    cbn [starts_with]. destruct (Ascii.eqb a c) eqn:Hac; [|reflexivity].
    apply Ascii.eqb_eq in Hac as ->.
    destruct n as [|a' n].
    + simpl in Hn. rewrite Hc in Hn. discriminate Hn.
    + rewrite <- IH by exact Hn. rewrite Hr. reflexivity.
  - cbn [starts_with]. destruct (Ascii.eqb a c); [|reflexivity].
    destruct n as [|a' n]; [reflexivity|]. apply IH. exact Hn.
Qed.

Lemma contains_rstrip (n s : string) :
  ends_solid n = true -> contains n (rstrip s) = contains n s.
Proof.
  intros Hn. induction s as [|c s IH]; [reflexivity|].
  cbn [contains]. rewrite <- (starts_with_rstrip n (String c s) Hn), <- IH.
  cbn [rstrip]. destruct (is_space c && String.eqb (rstrip s) "") eqn:E.
  - apply andb_true_iff in E as [_ Hr]. apply String.eqb_eq in Hr. rewrite Hr.
    destruct n as [|a n]; [discriminate Hn|]. reflexivity.
  - reflexivity.
Qed.

(** Stripping a reply does not change whether "Approved" occurs in it. *)
Lemma contains_strip (n s : string) :
  starts_solid n = true -> ends_solid n = true ->
  contains n (strip s) = contains n s.
Proof.
  intros H1 H2. unfold strip. rewrite contains_rstrip, contains_lstrip by assumption.
  reflexivity.
Qed.

(** ** What a computation leaves alone *)

Section Frames.
Context {X : Type} (f : history -> X).

Lemma preserves_ret {A} (a : A) : preserves f (ret a).
Proof. intros h. reflexivity. Qed.

Lemma preserves_raise {A} (e : exn) : preserves f (@raise A e).
Proof. intros h. reflexivity. Qed.

Lemma preserves_lift {A} (o : outcome A) : preserves f (lift o).
Proof. intros h. reflexivity. Qed.

Lemma preserves_bind {A B} (m : M A) (k : A -> M B) :
  preserves f m -> (forall a, preserves f (k a)) -> preserves f (bind m k).
Proof.
  intros Hm Hk h. unfold bind. specialize (Hm h).
  destruct (m h) as [[a|e] h']; simpl in *.
  - rewrite Hk. exact Hm.
  - exact Hm.
Qed.

Lemma preserves_try {A} (m : M A) (handler : exn -> M A) :
  preserves f m -> (forall e, preserves f (handler e)) -> preserves f (try_except m handler).
Proof.
  intros Hm Hk h. unfold try_except. specialize (Hm h).
  destruct (m h) as [[a|e] h']; simpl in *.
  - exact Hm.
  - rewrite Hk. exact Hm.
Qed.

Lemma preserves_emit (ev : event) :
  (forall h, f (ev :: h) = f h) -> preserves f (emit ev).
Proof. intros Hp h. simpl. apply Hp. Qed.

Lemma preserves_call {A} (fn : string) (body : M A) :
  (forall h, f (EvCall fn :: h) = f h) -> preserves f body -> preserves f (call fn body).
Proof. intros Hp Hb h. unfold call. rewrite Hb. apply Hp. Qed.

Lemma preserves_send (env : Env) (r : request) :
  (forall h, f (EvHttp r :: h) = f h) -> preserves f (send env r).
Proof. intros Hp h. simpl. apply Hp. Qed.

Lemma preserves_llm (env : Env) (prompt : string) :
  (forall h, f (EvLlm prompt :: h) = f h) -> preserves f (llm_invoke env prompt).
Proof. intros Hp h. simpl. apply Hp. Qed.
End Frames.

Ltac preserves_step :=
  match goal with
  | |- preserves _ (bind _ _) => apply preserves_bind; [ | intros ? ]
  | |- preserves _ (try_except _ _) => apply preserves_try; [ | intros ? ]
  | |- preserves _ (ret _) => apply preserves_ret
  | |- preserves _ (raise _) => apply preserves_raise
  | |- preserves _ (lift _) => apply preserves_lift
  | |- preserves _ (call _ _) => apply preserves_call; [ intros; reflexivity | ]
  | |- preserves _ (print _) => apply preserves_emit; intros; reflexivity
  | |- preserves _ (sleep _) => apply preserves_emit; intros; reflexivity
  | |- preserves _ (requests_get _ _ _ _) => apply preserves_send; intros; reflexivity
  | |- preserves _ (requests_post _ _ _ _) => apply preserves_send; intros; reflexivity
  | |- preserves _ (llm_invoke _ _) => apply preserves_llm; intros; reflexivity
  | |- preserves _ (if ?b then _ else _) => destruct b
  | |- preserves _ (match ?x with _ => _ end) => destruct x
  end.

Ltac preserves_auto := repeat preserves_step.

(** ** Computations that always return *)

Lemma total_ret {A} (a : A) : total (ret a).
Proof. intros h. eexists _, _. reflexivity. Qed.

Lemma total_bind {A B} (m : M A) (k : A -> M B) :
  total m -> (forall a, total (k a)) -> total (bind m k).
Proof.
  intros Hm Hk h. destruct (Hm h) as (a & h' & E).
  rewrite (bind_ret_eq _ _ _ _ _ E). apply Hk.
Qed.

Lemma total_try {A} (m : M A) (handler : exn -> M A) :
  (forall e, total (handler e)) -> total (try_except m handler).
Proof.
  intros Hh h. unfold try_except.
  destruct (m h) as [[a|e] h']; [eexists _, _; reflexivity|apply Hh].
Qed.

Lemma total_call {A} (fn : string) (body : M A) : total body -> total (call fn body).
Proof. intros Hb h. apply Hb. Qed.

Lemma total_emit (ev : event) : total (emit ev).
Proof. intros h. eexists _, _. reflexivity. Qed.

Lemma total_lift_ret {A} (a : A) : total (lift (Ret a)).
Proof. intros h. eexists _, _. reflexivity. Qed.

Ltac total_step :=
  match goal with
  | |- total (try_except _ _) => apply total_try; intros ?
  | |- total (bind _ _) => apply total_bind; [ | intros ? ]
  | |- total (ret _) => apply total_ret
  | |- total (call _ _) => apply total_call
  | |- total (print _) => apply total_emit
  | |- total (sleep _) => apply total_emit
  | |- total (lift (Ret _)) => apply total_lift_ret
  | |- total (if ?b then _ else _) => destruct b
  | |- total (match ?x with _ => _ end) => destruct x
  end.

Ltac total_auto := repeat total_step.

Section ApprovalFrames.
Context (cfg : ReAgentV2.Config) (env : Env).
Import ReAgentV2.

Let f := count (is_call "trigger_pipeline").

Lemma consult_keeps_trigger state : preserves f (consult_slack_messages cfg env state).
Proof.
  unfold consult_slack_messages, get_slack_channel_id, get_slack_messages.
  preserves_auto.
Qed.

Lemma find_albert_keeps_trigger messages : preserves f (find_albert cfg env messages).
Proof.
  induction messages as [|message rest IH]; simpl.
  - apply preserves_ret.
  - unfold author_check. preserves_auto. exact IH.
Qed.

Lemma check_albert_keeps_trigger state : preserves f (check_albert_message cfg env state).
Proof.
  unfold check_albert_message.
  apply preserves_call; [intros; reflexivity|].
  apply preserves_bind; [apply preserves_lift|intros items].
  apply preserves_bind; [apply find_albert_keeps_trigger|intros am].
  preserves_auto.
Qed.
End ApprovalFrames.

(** ** The engine, one node at a time *)

Lemma walk_node (g : Graph) (steps : nat) (n : string) (st : State) work h u h' :
  table_get n (nodes g) = Some work ->
  work st h = (Ret u, h') ->
  walk g (S steps) (Node n) st h =
    (let st' := merge u st in
     let v := {| v_node := n; v_update := u; v_state := st' |} in
     match next g n st' with
     | Ret (inl t) =>
         match walk g steps t st' h' with
         | (Ret r, hf) => (Ret (record v r), hf)
         | (Raise e, hf) => (Raise e, hf)
         end
     | Ret (inr f) => (Ret (record v (stop st' (Some f))), h')
     | Raise e => (Raise e, h')
     end).
Proof.
  intros Hw Hr. cbn [walk]. rewrite Hw. unfold bind at 1. rewrite Hr.
  cbv zeta. unfold bind, lift, ret.
  destruct (next g n (merge u st)) as [[t|f]|e]; reflexivity.
Qed.

Lemma walk_node_raise (g : Graph) (steps : nat) (n : string) (st : State) work h e h' :
  table_get n (nodes g) = Some work ->
  work st h = (Raise e, h') ->
  walk g (S steps) (Node n) st h = (Raise e, h').
Proof.
  intros Hw Hr. cbn [walk]. rewrite Hw. unfold bind at 1. rewrite Hr. reflexivity.
Qed.

Lemma walk_end (g : Graph) (steps : nat) (st : State) h :
  walk g steps END st h = (Ret (stop st None), h).
Proof. destruct steps; reflexivity. Qed.

(** ** The gate of the approval workflow *)

Section Approval.
Context (cfg : ReAgentV2.Config) (env : Env).
Import ReAgentV2.

Lemma py_eq_str_true (v : pyval) (s : string) :
  py_eq v (PStr s) = true <-> v = PStr s.
Proof.
  destruct v; simpl; try (split; [discriminate | intros H; discriminate H]).
  rewrite String.eqb_eq. split; [intros ->; reflexivity | intros H; injection H; auto].
Qed.

Lemma validate_approval_rejected (state : State) :
  state !! "llm_approval" <> Some (PStr "Approved") ->
  validate_approval state = Ret "Rejected".
Proof.
  intros Hne. unfold validate_approval, get.
  destruct (py_eq _ _) eqn:E; [|reflexivity].
  apply py_eq_str_true in E.
  destruct (state !! "llm_approval") as [v|] eqn:Hl; simpl in E.
  - subst v. contradiction.
  - discriminate E.
Qed.

Lemma validate_approval_approved (state : State) :
  state !! "llm_approval" = Some (PStr "Approved") ->
  validate_approval state = Ret "Approved".
Proof. intros H. unfold validate_approval, get. rewrite H. reflexivity. Qed.

Lemma next_after_check_albert (state : State) (label : string) :
  validate_approval state = Ret label ->
  next (workflow cfg env) "check_albert_message" state =
    Ret (if String.eqb label "Approved" then inl (Node "trigger_pipeline")
         else if String.eqb label "Rejected" then inl END
         else inr (UnmappedLabel "check_albert_message" label)).
Proof.
  intros H. unfold next. simpl. rewrite H. simpl.
  destruct (String.eqb label "Approved"); [reflexivity|].
  destruct (String.eqb label "Rejected"); reflexivity.
Qed.

(** The run up to the gate. *)
Lemma invoke_to_gate (cap : nat) (st0 : State) (h0 : history) u1 h1 u2 h2 :
  consult_slack_messages cfg env st0 h0 = (Ret u1, h1) ->
  check_albert_message cfg env (merge u1 st0) h1 = (Ret u2, h2) ->
  invoke cfg env (S (S cap)) st0 h0 =
    (let st1 := merge u1 st0 in
     let st2 := merge u2 st1 in
     let v1 := {| v_node := "consult_slack_messages"; v_update := u1; v_state := st1 |} in
     let v2 := {| v_node := "check_albert_message"; v_update := u2; v_state := st2 |} in
     bind (lift (next (workflow cfg env) "check_albert_message" st2))
       (fun nxt =>
          match nxt with
          | inl t => bind (walk (workflow cfg env) cap t st2)
                       (fun r => ret (record v1 (record v2 r)))
          | inr f => ret (record v1 (record v2 (stop st2 (Some f))))
          end)) h2.
Proof.
  intros H1 H2. unfold invoke, run.
  change (next (workflow cfg env) START st0) with (@Ret (target + fault) (inl (Node "consult_slack_messages"))).
  unfold bind at 1. unfold lift at 1.
  rewrite (walk_node (workflow cfg env) _ "consult_slack_messages" _ (consult_slack_messages cfg env) _ _ _ eq_refl H1).
  cbv zeta.
  change (next (workflow cfg env) "consult_slack_messages" (merge u1 st0))
    with (@Ret (target + fault) (inl (Node "check_albert_message"))).
  cbv iota beta.
  rewrite (walk_node (workflow cfg env) _ "check_albert_message" _ (check_albert_message cfg env) _ _ _ eq_refl H2).
  cbv zeta. unfold bind, lift, ret.
  destruct (next _ _ _) as [[t|f]|e]; try reflexivity.
  destruct (walk _ _ _ _ _) as [[r|e] h']; reflexivity.
Qed.

(** C1. In every run of the approval workflow whose gate sees no approval
    field, or an approval other than "Approved", [validate_approval]
    answers "Rejected", the run goes from [check_albert_message] straight
    to END, and [trigger_pipeline] is entered zero times. *)
Theorem C1_rejected_run_never_triggers
    (cap : nat) (st0 : State) (h0 : history) u1 h1 u2 h2 :
  (2 <= cap)%nat ->
  consult_slack_messages cfg env st0 h0 = (Ret u1, h1) ->
  check_albert_message cfg env (merge u1 st0) h1 = (Ret u2, h2) ->
  merge u2 (merge u1 st0) !! "llm_approval" <> Some (PStr "Approved") ->
  validate_approval (merge u2 (merge u1 st0)) = Ret "Rejected"
  /\ next (workflow cfg env) "check_albert_message" (merge u2 (merge u1 st0)) = Ret (inl END)
  /\ (exists r,
        invoke cfg env cap st0 h0 = (Ret r, h2)
        /\ final_state r = merge u2 (merge u1 st0)
        /\ run_fault r = None
        /\ map v_node (visited r) = ["consult_slack_messages"; "check_albert_message"])
  /\ calls "trigger_pipeline" h2 = calls "trigger_pipeline" h0.
Proof.
  intros Hcap H1 H2 Hne.
  pose proof (validate_approval_rejected _ Hne) as Hgate.
  pose proof (next_after_check_albert _ _ Hgate) as Hnext. simpl in Hnext.
  split; [exact Hgate|]. split; [exact Hnext|]. split.
  - destruct cap as [|[|cap]]; try lia.
    rewrite (invoke_to_gate cap st0 h0 u1 h1 u2 h2 H1 H2). cbv zeta.
    rewrite Hnext. unfold bind, lift. cbv iota beta. rewrite walk_end.
    eexists. split; [reflexivity|]. simpl. auto.
  - unfold calls.
    pose proof (check_albert_keeps_trigger cfg env (merge u1 st0) h1) as K2.
    pose proof (consult_keeps_trigger cfg env st0 h0) as K1.
    rewrite H2 in K2. rewrite H1 in K1. simpl in *. congruence.
Qed.
End Approval.

(** ** The status check and the polling loop *)

Section Polling.
Context (cfg : ReAgentV2.Config) (env : Env).
Import ReAgentV2.

Lemma poll_loop_step (n : Z) (pid bid : pyval) (a : Z) (h : history) :
  poll_loop cfg env n pid bid a h =
    if a <? n then
      match poll_iteration cfg env n pid bid a h with
      | (Ret (Some update), h') => (Ret (Some update), h')
      | (Ret None, h') => poll_loop cfg env n pid bid (a + 1) h'
      | (Raise e, h') => (Raise e, h')
      end
    else (Ret None, h).
Proof.
  simp poll_loop.
  destruct (Z_lt_dec a n) as [Hlt|Hge]; simpl.
  - destruct (a <? n) eqn:E; [|lia].
    destruct (poll_iteration cfg env n pid bid a h) as [[[u|]|e] h']; reflexivity.
  - destruct (a <? n) eqn:E; [lia|reflexivity].
Qed.

(** The status check never raises, is entered once and does not sleep. *)
Lemma get_pipeline_status_total (pid bid : pyval) (h : history) :
  exists v h',
    get_pipeline_status cfg env pid bid h = (Ret v, h')
    /\ calls "get_pipeline_status" h' = S (calls "get_pipeline_status" h)
    /\ sleeps h' = sleeps h.
Proof.
  unfold get_pipeline_status, call, try_except, bind, requests_get, send, print, emit, ret, lift.
  destruct (negb (truthy (AZURE_DEVOPS_TOKEN cfg env))).
  - eexists _, _. split; [reflexivity|]. split; reflexivity.
  - destruct (http env _ _) as [resp|e].
    + destruct (status_code resp =? 200).
      * destruct (json resp) as [v|e]; eexists _, _; (split; [reflexivity|]); split; reflexivity.
      * eexists _, _. split; [reflexivity|]. split; reflexivity.
    + eexists _, _. split; [reflexivity|]. split; reflexivity.
Qed.

(** The status check hands on the JSON body of a 200 answer as it is. *)
Lemma get_pipeline_status_ok (pid bid : pyval) (h : history) resp v :
  truthy (AZURE_DEVOPS_TOKEN cfg env) = true ->
  http env (EvCall "get_pipeline_status" :: h) (status_request cfg env pid bid) = Ret resp ->
  status_code resp = 200 ->
  json resp = Ret v ->
  get_pipeline_status cfg env pid bid h
  = (Ret v, EvHttp (status_request cfg env pid bid) :: EvCall "get_pipeline_status" :: h).
Proof.
  intros Ht Hh Hs Hj. unfold get_pipeline_status. rewrite call_eq, Ht. cbn [negb].
  unfold try_except, requests_get, send, bind at 1.
  fold (status_request cfg env pid bid). rewrite Hh, Hs, Hj. reflexivity.
Qed.

(** One pass of the loop body, by the verdict on the status check. *)
Lemma poll_iteration_spec (n : Z) (pid bid : pyval) (a : Z) (h : history) v h1 :
  get_pipeline_status cfg env pid bid h = (Ret v, h1) ->
  match classify env v with
  | Pending =>
      exists line, poll_iteration cfg env n pid bid a h = (Ret None, EvSleep 3 :: EvPrint line :: h1)
  | Completed msg =>
      exists line,
        poll_iteration cfg env n pid bid a h =
          (Ret (Some {[ "build_status" := PStr msg ]}), EvPrint line :: h1)
  | Malformed e =>
      poll_iteration cfg env n pid bid a h =
        (Ret (Some {[ "error" := PStr ("Error checking pipeline status: " +:+ exn_msg e) ]}), h1)
  end.
Proof.
  intros Hg. unfold poll_iteration, try_except.
  rewrite (bind_ret_eq _ _ _ _ _ Hg).
  unfold classify. cbv zeta.
  destruct (truthy v) eqn:Ht; cbn [negb].
  2:{ eexists. run. reflexivity. }
  destruct v as [|b|z|s0|l|d]; try discriminate Ht; try reflexivity.
  run.
  destruct (default (PStr "") (assoc "state" d)) as [|b|z|s|l|d1] eqn:Hs; try reflexivity.
  run.
  destruct (assoc "result" d) as [res|] eqn:Hres; cbn [from_option id].
  2:{ cbn [truthy]. destruct (String.eqb (lower (unicode env) s) "completed");
        eexists; run; reflexivity. }
  destruct (truthy res) eqn:Hr.
  - destruct res as [|b|z|r|l|d1]; try discriminate Hr; try reflexivity.
    destruct (String.eqb (lower (unicode env) s) "completed");
      destruct (String.eqb (lower (unicode env) r) "") eqn:Hl;
      eexists; run; rewrite ?Hl; reflexivity.
  - destruct (String.eqb (lower (unicode env) s) "completed"); eexists; run; reflexivity.
Qed.

Lemma value_eq (pid bid : pyval) (h : history) v h1 :
  get_pipeline_status cfg env pid bid h = (Ret v, h1) ->
  value (get_pipeline_status cfg env pid bid h) = v.
Proof. intros H. unfold value. rewrite H. reflexivity. Qed.

Lemma calls_cons_other (fn : string) (ev : event) (h : history) :
  is_call fn ev = false -> calls fn (ev :: h) = calls fn h.
Proof. intros H. unfold calls. simpl. rewrite H. reflexivity. Qed.

(** A pending status check: the body sleeps once and falls through. *)
Lemma poll_iteration_pending (n : Z) (pid bid : pyval) (a : Z) (h : history) :
  classify env (value (get_pipeline_status cfg env pid bid h)) = Pending ->
  exists h',
    poll_iteration cfg env n pid bid a h = (Ret None, h')
    /\ calls "get_pipeline_status" h' = S (calls "get_pipeline_status" h)
    /\ sleeps h' = S (sleeps h).
Proof.
  intros Hc.
  destruct (get_pipeline_status_total pid bid h) as (v & h1 & Hg & Hcalls & Hsleeps).
  rewrite (value_eq _ _ _ _ _ Hg) in Hc.
  pose proof (poll_iteration_spec n pid bid a h v h1 Hg) as Hs. rewrite Hc in Hs.
  destruct Hs as [line Hs]. eexists. split; [exact Hs|].
  unfold calls, sleeps in *. simpl. lia.
Qed.

(** A completed status check: the body returns the build status after one
    print and without sleeping. *)
Lemma poll_iteration_completed (n : Z) (pid bid : pyval) (a : Z) (h : history) msg :
  classify env (value (get_pipeline_status cfg env pid bid h)) = Completed msg ->
  exists v hc line,
    get_pipeline_status cfg env pid bid h = (Ret v, hc)
    /\ classify env v = Completed msg
    /\ poll_iteration cfg env n pid bid a h =
         (Ret (Some {[ "build_status" := PStr msg ]}), EvPrint line :: hc)
    /\ calls "get_pipeline_status" (EvPrint line :: hc) = S (calls "get_pipeline_status" h)
    /\ sleeps (EvPrint line :: hc) = sleeps h.
Proof.
  intros Hc.
  destruct (get_pipeline_status_total pid bid h) as (v & h1 & Hg & Hcalls & Hsleeps).
  rewrite (value_eq _ _ _ _ _ Hg) in Hc.
  pose proof (poll_iteration_spec n pid bid a h v h1 Hg) as Hs. rewrite Hc in Hs.
  destruct Hs as [line Hs]. exists v, h1, line.
  repeat split; try assumption.
Qed.

(** The loop over a status check that is pending at every history. *)
Lemma poll_loop_pending (pid bid : pyval) :
  (forall h, classify env (value (get_pipeline_status cfg env pid bid h)) = Pending) ->
  forall (k : nat) (n a : Z) (h : history),
    Z.to_nat (n - a) = k ->
    exists h',
      poll_loop cfg env n pid bid a h = (Ret None, h')
      /\ calls "get_pipeline_status" h' = (calls "get_pipeline_status" h + k)%nat
      /\ sleeps h' = (sleeps h + k)%nat.
Proof.
  intros Hp k. induction k as [|k IH]; intros n a h Hk;
    pose proof (poll_loop_step n pid bid a h) as Hu.
  - destruct (a <? n) eqn:E; [lia|]. exists h. repeat split; [exact Hu|lia|lia].
  - destruct (a <? n) eqn:E; [|lia].
    destruct (poll_iteration_pending n pid bid a h (Hp h)) as (h1 & Hi & Hc1 & Hs1).
    rewrite Hi in Hu.
    destruct (IH n (a + 1) h1 ltac:(lia)) as (h2 & Hl & Hc2 & Hs2).
    exists h2. split; [rewrite Hu; exact Hl|]. split; lia.
Qed.

(** The loop over a status check that is pending for [j] more checks and
    completed at the next one. *)
Lemma poll_loop_completed (n : Z) (pid bid : pyval) (msg : string) :
  forall (j : nat) (a : Z) (h : history),
    a + Z.of_nat j < n ->
    (forall h', (calls "get_pipeline_status" h <= calls "get_pipeline_status" h' < calls "get_pipeline_status" h + j)%nat ->
                classify env (value (get_pipeline_status cfg env pid bid h')) = Pending) ->
    (forall h', calls "get_pipeline_status" h' = (calls "get_pipeline_status" h + j)%nat ->
                classify env (value (get_pipeline_status cfg env pid bid h')) = Completed msg) ->
    exists hk v hc line,
      get_pipeline_status cfg env pid bid hk = (Ret v, hc)
      /\ classify env v = Completed msg
      /\ poll_loop cfg env n pid bid a h =
           (Ret (Some {[ "build_status" := PStr msg ]}), EvPrint line :: hc)
      /\ calls "get_pipeline_status" (EvPrint line :: hc) = (calls "get_pipeline_status" h + S j)%nat
      /\ sleeps (EvPrint line :: hc) = (sleeps h + j)%nat.
Proof.
  induction j as [|j IH]; intros a h Ha Hpend Hdone;
    pose proof (poll_loop_step n pid bid a h) as Hu.
  - destruct (a <? n) eqn:E; [|lia].
    destruct (poll_iteration_completed n pid bid a h msg (Hdone h ltac:(lia)))
      as (v & hc & line & Hg & Hv & Hi & Hc1 & Hs1).
    rewrite Hi in Hu. exists h, v, hc, line. repeat split; try assumption; lia.
  - destruct (a <? n) eqn:E; [|lia].
    destruct (poll_iteration_pending n pid bid a h (Hpend h ltac:(lia))) as (h1 & Hi & Hc1 & Hs1).
    rewrite Hi in Hu.
    destruct (IH (a + 1) h1 ltac:(lia)) as (hk & v & hc & line & Hg & Hv & Hl & Hc2 & Hs2).
    + intros h' Hh'. apply Hpend. lia.
    + intros h' Hh'. apply Hdone. lia.
    + exists hk, v, hc, line. repeat split; try assumption; [congruence|lia|lia].
Qed.

(** The node up to the loop. *)
Lemma check_pipeline_status_unfold (state : State) (pid bid : pyval) (h : history) :
  state !! "pipeline_id" = Some pid -> truthy pid = true ->
  state !! "build_id" = Some bid -> truthy bid = true ->
  exists l1 l2,
    check_pipeline_status cfg env state h =
      match poll_loop cfg env max_attempts pid bid 0
              (EvPrint l2 :: EvSleep 3 :: EvPrint l1 :: EvCall "check_pipeline_status" :: h) with
      | (Ret (Some update), h') => (Ret update, h')
      | (Ret None, h') =>
          (Ret timed_out,
           EvPrint ("Pipeline status check timed out after " +:+ pretty max_attempts +:+ " attempts") :: h')
      | (Raise e, h') => (Raise e, h')
      end.
Proof.
  intros Hp Htp Hb Htb. unfold check_pipeline_status, get.
  rewrite Hp, Hb. cbn [from_option id]. rewrite Htp, Htb. cbn [negb orb].
  exists "Waiting 3 seconds before first status check...",
    ("Starting status polling for pipeline " +:+ py_str env pid
       +:+ ", run " +:+ py_str env bid +:+ "...").
  run. unfold bind at 1.
  destruct (poll_loop _ _ _ _ _ _ _) as [[[u|]|e] h']; reflexivity.
Qed.

(** C2. When the status check reports a pending outcome at every moment,
    the polling loop of [check_pipeline_status] enters it exactly
    [max_attempts] times (for any attempt budget, and 100 times in the
    node), sleeping after each, and the node returns the time-out update,
    which sets both [build_status] and [error]. *)
Theorem C2_poll_timeout (state : State) (pid bid : pyval) (h : history) :
  state !! "pipeline_id" = Some pid -> truthy pid = true ->
  state !! "build_id" = Some bid -> truthy bid = true ->
  (forall h', classify env (value (get_pipeline_status cfg env pid bid h')) = Pending) ->
  (forall (n : Z) (h1 : history),
      exists h2,
        poll_loop cfg env n pid bid 0 h1 = (Ret None, h2)
        /\ calls "get_pipeline_status" h2 = (calls "get_pipeline_status" h1 + Z.to_nat n)%nat)
  /\ exists update h',
       check_pipeline_status cfg env state h = (Ret update, h')
       /\ calls "get_pipeline_status" h' = (calls "get_pipeline_status" h + Z.to_nat max_attempts)%nat
       /\ update !! "build_status" = Some (PStr "Timeout - Status check exceeded maximum attempts")
       /\ update !! "error" = Some (PStr "Pipeline status check timed out").
Proof.
  intros Hp Htp Hb Htb Hpend. split.
  - intros n h1.
    destruct (poll_loop_pending pid bid Hpend (Z.to_nat n) n 0 h1 ltac:(f_equal; lia))
      as (h2 & Hl & Hc & _).
    exists h2. split; assumption.
  - destruct (check_pipeline_status_unfold state pid bid h Hp Htp Hb Htb) as (l1 & l2 & Hu).
    destruct (poll_loop_pending pid bid Hpend (Z.to_nat max_attempts) max_attempts 0
                (EvPrint l2 :: EvSleep 3 :: EvPrint l1 :: EvCall "check_pipeline_status" :: h)
                ltac:(f_equal; lia)) as (h2 & Hl & Hc & _).
    rewrite Hl in Hu. eexists _, _. split; [exact Hu|].
    split; [|split; reflexivity].
    unfold calls in *. simpl in *. lia.
Qed.

(** The node around the loop: it sleeps once before the first check, so a
    run that completes at the k-th check has slept k times in all. *)
Lemma check_pipeline_status_completes
    (state : State) (k : nat) (pid bid : pyval) (h : history) (msg : string) :
  state !! "pipeline_id" = Some pid -> truthy pid = true ->
  state !! "build_id" = Some bid -> truthy bid = true ->
  (1 <= k <= 100)%nat ->
  (forall h', (calls "get_pipeline_status" h <= calls "get_pipeline_status" h' < calls "get_pipeline_status" h + (k - 1))%nat ->
              classify env (value (get_pipeline_status cfg env pid bid h')) = Pending) ->
  (forall h', calls "get_pipeline_status" h' = (calls "get_pipeline_status" h + (k - 1))%nat ->
              classify env (value (get_pipeline_status cfg env pid bid h')) = Completed msg) ->
  exists hk v hc line,
    get_pipeline_status cfg env pid bid hk = (Ret v, hc)
    /\ classify env v = Completed msg
    /\ check_pipeline_status cfg env state h
       = (Ret {[ "build_status" := PStr msg ]}, EvPrint line :: hc)
    /\ calls "get_pipeline_status" (EvPrint line :: hc) = (calls "get_pipeline_status" h + k)%nat
    /\ sleeps (EvPrint line :: hc) = (sleeps h + k)%nat.
Proof.
  intros Hp Htp Hb Htb Hk Hpend Hdone.
  destruct (check_pipeline_status_unfold state pid bid h Hp Htp Hb Htb) as (l1 & l2 & Hu).
  set (hs := EvPrint l2 :: EvSleep 3 :: EvPrint l1 :: EvCall "check_pipeline_status" :: h) in *.
  assert (Hcs : calls "get_pipeline_status" hs = calls "get_pipeline_status" h) by reflexivity.
  assert (Hss : sleeps hs = S (sleeps h)) by reflexivity.
  destruct (poll_loop_completed max_attempts pid bid msg (k - 1) 0 hs)
    as (hk & v & hc & line & Hg & Hv & Hl & Hc & Hs).
  - unfold max_attempts. lia.
  - intros h' Hh'. apply Hpend. lia.
  - intros h' Hh'. apply Hdone. lia.
  - rewrite Hl in Hu. exists hk, v, hc, line.
    split; [exact Hg|]. split; [exact Hv|]. split; [exact Hu|]. split; lia.
Qed.


(** A status check whose request fails in transit, or is answered with a
    status other than 200 or a body that is not JSON, yields [None]: the
    loop reads it as pending. *)
Lemma io_failure_pending (pid bid : pyval) (h : history) :
  check_fails cfg env pid bid h = true ->
  classify env (value (get_pipeline_status cfg env pid bid h)) = Pending.
Proof.
  unfold check_fails, status_request. intros Hio.
  unfold value, get_pipeline_status, call, try_except, bind, requests_get, send.
  destruct (negb (truthy (AZURE_DEVOPS_TOKEN cfg env))); [reflexivity|].
  match goal with |- context [http env ?hh ?r] => destruct (http env hh r) as [resp|e] end.
  - simpl in Hio. destruct (status_code resp =? 200); simpl in *.
    + unfold lift. destruct (json resp) as [v|e]; [discriminate Hio|reflexivity].
    + reflexivity.
  - reflexivity.
Qed.

Lemma io_failure_times_out (state : State) (pid bid : pyval) (h : history) :
  state !! "pipeline_id" = Some pid -> truthy pid = true ->
  state !! "build_id" = Some bid -> truthy bid = true ->
  (forall h', check_fails cfg env pid bid h' = true) ->
  exists h',
    check_pipeline_status cfg env state h = (Ret timed_out, h')
    /\ calls "get_pipeline_status" h' = (calls "get_pipeline_status" h + 100)%nat.
Proof.
  intros Hp Htp Hb Htb Hio.
  assert (Hpend : forall h', classify env (value (get_pipeline_status cfg env pid bid h'))
                             = Pending).
  { intros h'. apply io_failure_pending, Hio. }
  destruct (check_pipeline_status_unfold state pid bid h Hp Htp Hb Htb) as (l1 & l2 & Hu).
  destruct (poll_loop_pending pid bid Hpend (Z.to_nat max_attempts) max_attempts 0
              (EvPrint l2 :: EvSleep 3 :: EvPrint l1 :: EvCall "check_pipeline_status" :: h)
              ltac:(f_equal; lia)) as (h2 & Hl & Hc & _).
  rewrite Hl in Hu. eexists. split; [exact Hu|].
  change (Z.to_nat max_attempts) with 100%nat in Hc.
  unfold calls in *. simpl in *. lia.
Qed.

(** C7, as the code has it.  A status check that meets an I/O failure (the
    request raises, the status is not 200, or the body is not JSON) is
    read as pending: that pass of the loop sleeps and goes on to the next
    attempt, whatever the other checks do.  The failed checks count
    against the same budget: when k-1 checks fail and the k-th reports a
    completed run, the node returns its build status after k checks, and
    when every check fails the node returns the time-out update after 100
    checks.  The node takes the StateRecord only; nothing in it or in the
    configuration changes this. *)
Theorem C7_io_failure_is_retried (state : State) (pid bid : pyval) (h : history) :
  state !! "pipeline_id" = Some pid -> truthy pid = true ->
  state !! "build_id" = Some bid -> truthy bid = true ->
  (forall (n a : Z) (h1 : history),
      check_fails cfg env pid bid h1 = true ->
      exists h2,
        poll_iteration cfg env n pid bid a h1 = (Ret None, h2)
        /\ calls "get_pipeline_status" h2 = S (calls "get_pipeline_status" h1)
        /\ sleeps h2 = S (sleeps h1))
  /\ (forall (k : nat) (msg : string),
        (1 <= k <= 100)%nat ->
        (forall h', (calls "get_pipeline_status" h <= calls "get_pipeline_status" h' < calls "get_pipeline_status" h + (k - 1))%nat ->
                    check_fails cfg env pid bid h' = true) ->
        (forall h', calls "get_pipeline_status" h' = (calls "get_pipeline_status" h + (k - 1))%nat ->
                    classify env (value (get_pipeline_status cfg env pid bid h'))
                    = Completed msg) ->
        exists h',
          check_pipeline_status cfg env state h = (Ret {[ "build_status" := PStr msg ]}, h')
          /\ calls "get_pipeline_status" h' = (calls "get_pipeline_status" h + k)%nat)
  /\ ((forall h', check_fails cfg env pid bid h' = true) ->
      exists h',
        check_pipeline_status cfg env state h = (Ret timed_out, h')
        /\ calls "get_pipeline_status" h' = (calls "get_pipeline_status" h + 100)%nat).
Proof.
  intros Hp Htp Hb Htb. split; [|split].
  - intros n a h1 Hio. apply poll_iteration_pending, io_failure_pending, Hio.
  - intros k msg Hk Hfail Hdone.
    destruct (check_pipeline_status_completes state k pid bid h msg Hp Htp Hb Htb Hk)
      as (hk & v & hc & line & _ & _ & Hr & Hc & _).
    + intros h' Hh'. apply io_failure_pending, Hfail, Hh'.
    + exact Hdone.
    + eexists. split; [exact Hr|exact Hc].
  - apply (io_failure_times_out state pid bid h); assumption.
Qed.
End Polling.

(** ** Looking for the message of Albert H. *)

Section FindAlbert.
Context (cfg : ReAgentV2.Config) (env : Env).
Import ReAgentV2.

(** The lookup of one author, wrapped in its [try]: it sends one request
    and never raises. *)
Lemma author_check_total (message user_id : pyval) (h : history) :
  exists found,
    try_except (author_check cfg env message user_id) (fun _ => ret None) h
      = (Ret found, EvHttp (users_info cfg env user_id) :: h).
Proof.
  assert (Hh : snd (try_except (author_check cfg env message user_id) (fun _ => ret None) h)
               = EvHttp (users_info cfg env user_id) :: h).
  { unfold author_check, try_except, requests_get, send, bind at 1.
    fold (users_info cfg env user_id).
    destruct (http env h _) as [resp|e]; [|reflexivity].
    match goal with
    | |- context [let (_, _) := ?m ?hh in _] =>
        assert (Hs : effect_free m) by (unfold effect_free; preserves_auto);
        specialize (Hs hh); destruct (m hh) as [[found|e] h']
    end; exact Hs. }
  destruct (total_try (author_check cfg env message user_id) (fun _ => ret None)
              (fun _ => total_ret None) h) as (found & h' & E).
  rewrite E in Hh. simpl in Hh. subst h'. exists found. exact E.
Qed.

(** When the lookup fails, the message is skipped. *)
Lemma author_check_failure (message user_id : pyval) (h : history) :
  lookup_failure (http env h (users_info cfg env user_id)) = true ->
  try_except (author_check cfg env message user_id) (fun _ => ret None) h
    = (Ret None, EvHttp (users_info cfg env user_id) :: h).
Proof.
  intros Hf. unfold author_check, try_except, requests_get, send, bind at 1.
  fold (users_info cfg env user_id).
  destruct (http env h _) as [resp|e]; [|reflexivity].
  simpl in Hf. destruct (status_code resp =? 200); [|reflexivity]. simpl in Hf.
  destruct (json resp) as [data|e]; [|reflexivity].
  run. destruct (py_get data "ok" PNone) as [ok|e]; [|reflexivity].
  run. destruct (truthy ok); [discriminate Hf|reflexivity].
Qed.

Lemma find_albert_skip (message : pyval) (rest : list pyval) (h : history) :
  is_dict message = true ->
  (forall r, lookup_failure (http env h r) = true) ->
  exists r, find_albert cfg env (message :: rest) h = find_albert cfg env rest (EvHttp r :: h).
Proof.
  intros Hd Hf. destruct message as [|b|z|s|l|d]; try discriminate Hd.
  cbn [find_albert]. run.
  eexists. rewrite (bind_ret_eq _ _ _ _ _ (author_check_failure _ _ _ (Hf _))).
  reflexivity.
Qed.

(** When every lookup fails, the loop ends with [albert_message] still
    [None], after one request per message and no call of the model. *)
Lemma find_albert_all_fail (messages : list pyval) :
  forallb is_dict messages = true ->
  (forall h r, lookup_failure (http env h r) = true) ->
  forall h, exists h',
    find_albert cfg env messages h = (Ret PNone, h')
    /\ requests h' = (requests h + length messages)%nat
    /\ count is_llm h' = count is_llm h.
Proof.
  intros Hd Hf. induction messages as [|message rest IH]; intros h.
  - exists h. split; [reflexivity|]. split; [unfold requests; simpl; lia|reflexivity].
  - simpl in Hd. apply andb_true_iff in Hd as [Hm Hrest].
    destruct (find_albert_skip message rest h Hm (Hf h)) as [r Hskip].
    destruct (IH Hrest (EvHttp r :: h)) as (h' & E & Hreq & Hllm).
    exists h'. rewrite Hskip. split; [exact E|].
    unfold requests in *. simpl in *. split; lia.
Qed.

(** The loop never raises on a list of JSON objects. *)
Lemma find_albert_total (messages : list pyval) :
  forallb is_dict messages = true -> total (find_albert cfg env messages).
Proof.
  induction messages as [|message rest IH]; intros Hd h.
  - eexists _, _. reflexivity.
  - simpl in Hd. apply andb_true_iff in Hd as [Hm Hrest].
    destruct message as [|b|z|s|l|d]; try discriminate Hm.
    cbn [find_albert]. run.
    destruct (author_check_total (PDict d) (default (PStr "") (assoc "user" d)) h) as [found E].
    rewrite (bind_ret_eq _ _ _ _ _ E).
    destruct found as [text|]; [eexists _, _; reflexivity|apply (IH Hrest)].
Qed.

(** The node after the loop, when no message was found. *)
Lemma check_albert_not_found (state : State) (items : list pyval) (h h1 : history) am :
  py_iter (get state "slack_messages" (PList [])) = Ret items ->
  find_albert cfg env items (EvCall "check_albert_message" :: h) = (Ret am, h1) ->
  truthy am = false ->
  check_albert_message cfg env state h = (Ret not_found, h1).
Proof.
  intros Hi Hf Ht. unfold check_albert_message. rewrite call_eq, Hi. run.
  rewrite (bind_ret_eq _ _ _ _ _ Hf). rewrite Ht. reflexivity.
Qed.

(** The node after the loop, when a message was found and the model
    answered with a string. *)
Lemma check_albert_reply (state : State) (items : list pyval) (h h1 : history) am reply :
  py_iter (get state "slack_messages" (PList [])) = Ret items ->
  find_albert cfg env items (EvCall "check_albert_message" :: h) = (Ret am, h1) ->
  truthy am = true ->
  llm_content env h1 (approval_prompt env am) = Ret (PStr reply) ->
  check_albert_message cfg env state h =
    (Ret {[ "albert_message" := am;
            "llm_approval" := PStr (if contains "Approved" (strip reply)
                                    then "Approved" else "Rejected") ]},
     EvLlm (approval_prompt env am) :: h1).
Proof.
  intros Hi Hf Ht Hl. unfold check_albert_message. rewrite call_eq, Hi. run.
  rewrite (bind_ret_eq _ _ _ _ _ Hf). rewrite Ht. cbn [negb].
  unfold try_except, llm_invoke, bind at 1. rewrite Hl. run. reflexivity.
Qed.

(** An OK answer on which the body of the [try] raises: the bare [except]
    swallows the exception and the message is skipped. *)
Lemma author_check_breaks (message user_id : pyval) (h : history) :
  lookup_breaks (http env h (users_info cfg env user_id)) = true ->
  try_except (author_check cfg env message user_id) (fun _ => ret None) h
    = (Ret None, EvHttp (users_info cfg env user_id) :: h).
Proof.
  intros Hb. unfold author_check, try_except, requests_get, send, bind at 1.
  fold (users_info cfg env user_id).
  destruct (http env h _) as [resp|e]; [|discriminate Hb].
  cbn [lookup_breaks] in Hb. destruct (status_code resp =? 200); [|discriminate Hb].
  cbn [andb] in Hb.
  destruct (json resp) as [data|e]; [|discriminate Hb].
  destruct data as [|b|z|s|l|d]; try discriminate Hb.
  run. destruct (truthy (default PNone (assoc "ok" d))); [|discriminate Hb].
  cbn [andb] in Hb. run.
  destruct (default (PDict []) (assoc "user" d)) as [|b|z|s|l|u]; try reflexivity.
  run.
  destruct (default (PDict []) (assoc "profile" u)) as [|b|z|s|l|p]; try reflexivity.
  run.
  destruct (py_in "Albert H." (default (PStr "") (assoc "real_name" u))) as [[|]|e];
    [discriminate Hb| |reflexivity].
  run.
  destruct (py_in "Albert H." (default (PStr "") (assoc "display_name" p))) as [hit|e];
    [discriminate Hb|reflexivity].
Qed.

(** A message whose lookup fails is skipped: the loop goes on with the
    rest, whatever the lookups of the other messages do. *)
Lemma find_albert_skips_failure (message : pyval) (rest : list pyval) (h : history) :
  is_dict message = true ->
  lookup_fails cfg env h message = true ->
  find_albert cfg env (message :: rest) h
  = find_albert cfg env rest (EvHttp (users_info cfg env (author_of message)) :: h).
Proof.
  intros Hd Hf. destruct message as [|b|z|s|l|d]; try discriminate Hd.
  cbn [find_albert]. run. unfold lookup_fails in Hf. cbn [author_of] in *.
  apply orb_true_iff in Hf as [Hf|Hf].
  - rewrite (bind_ret_eq _ _ _ _ _ (author_check_failure _ _ _ Hf)). reflexivity.
  - rewrite (bind_ret_eq _ _ _ _ _ (author_check_breaks _ _ _ Hf)). reflexivity.
Qed.

Lemma find_albert_all_skipped (messages : list pyval) :
  forallb is_dict messages = true ->
  (forall h message, In message messages -> lookup_fails cfg env h message = true) ->
  forall h, exists h',
    find_albert cfg env messages h = (Ret PNone, h')
    /\ requests h' = (requests h + length messages)%nat
    /\ count is_llm h' = count is_llm h.
Proof.
  induction messages as [|message rest IH]; intros Hd Hf h.
  - exists h. split; [reflexivity|]. split; [unfold requests; simpl; lia|reflexivity].
  - simpl in Hd. apply andb_true_iff in Hd as [Hm Hrest].
    rewrite (find_albert_skips_failure message rest h Hm (Hf h message (or_introl eq_refl))).
    destruct (IH Hrest (fun h' m Hin => Hf h' m (or_intror Hin))
                (EvHttp (users_info cfg env (author_of message)) :: h)) as (h' & E & Hreq & Hllm).
    exists h'. split; [exact E|].
    unfold requests in *. simpl in *. split; lia.
Qed.

(** C8. A lookup of a message's author that fails (the request raises,
    the answer is not an OK one, or the body of the [try] raises on an OK
    answer) makes the loop skip that message and go on with the rest,
    whatever the other lookups do; when the lookup fails for every message
    the node returns the "not found" update, the one it returns for a
    channel without messages, after one request per message and without
    asking the model. *)
Theorem C8_failed_lookups_read_as_absence
    (state : State) (messages : list pyval) (h : history) :
  state !! "slack_messages" = Some (PList messages) ->
  forallb is_dict messages = true ->
  (forall message rest h1,
      is_dict message = true ->
      lookup_fails cfg env h1 message = true ->
      find_albert cfg env (message :: rest) h1
      = find_albert cfg env rest (EvHttp (users_info cfg env (author_of message)) :: h1))
  /\ ((forall h' message, In message messages -> lookup_fails cfg env h' message = true) ->
      exists h',
        check_albert_message cfg env state h = (Ret not_found, h')
        /\ requests h' = (requests h + length messages)%nat
        /\ count is_llm h' = count is_llm h)
  /\ fst (check_albert_message cfg env (<[ "slack_messages" := PList [] ]> state) h)
     = Ret not_found
  /\ not_found !! "llm_approval" = Some (PStr "Rejected")
  /\ not_found !! "error" = Some (PStr "No message from Albert H. found in channel").
Proof.
  intros Hs Hd. split; [|split; [|split; [|split; reflexivity]]].
  - intros message rest h1. apply find_albert_skips_failure.
  - intros Hf.
    destruct (find_albert_all_skipped messages Hd Hf (EvCall "check_albert_message" :: h))
      as (h' & E & Hreq & Hllm).
    exists h'. split; [|split; assumption].
    apply (check_albert_not_found state messages h h' PNone); [|exact E|reflexivity].
    unfold get. rewrite Hs. reflexivity.
  - erewrite (check_albert_not_found _ [] h _ PNone); [reflexivity| |reflexivity|reflexivity].
    unfold get. rewrite lookup_insert_eq. reflexivity.
Qed.
End FindAlbert.

(** ** The nodes of the approval workflow always return *)

Section ApprovalTotal.
Context (cfg : ReAgentV2.Config) (env : Env).
Import ReAgentV2.

Lemma consult_total (state : State) :
  is_Some (state !! "channel") -> total (consult_slack_messages cfg env state).
Proof.
  intros [channel Hc]. unfold consult_slack_messages, getitem. rewrite Hc.
  total_auto.
Qed.

Lemma messages_iter (state : State) :
  messages_are_records state ->
  exists items,
    py_iter (get state "slack_messages" (PList [])) = Ret items
    /\ forallb is_dict items = true.
Proof.
  intros Hm. unfold get.
  destruct (state !! "slack_messages") as [v|] eqn:Hs; cbn [from_option id].
  - destruct (Hm v Hs) as (l & -> & Hl). exists l. split; [reflexivity|exact Hl].
  - exists []. split; reflexivity.
Qed.

Lemma check_albert_total (state : State) :
  messages_are_records state -> total (check_albert_message cfg env state).
Proof.
  intros Hm h. destruct (messages_iter state Hm) as (items & Hi & Hd).
  unfold check_albert_message. rewrite call_eq, Hi, bind_lift_ret.
  destruct (find_albert_total cfg env items Hd (EvCall "check_albert_message" :: h))
    as (am & h1 & Hf).
  rewrite (bind_ret_eq _ _ _ _ _ Hf). clear Hf. revert h1.
  match goal with |- forall h1, exists a h', ?m h1 = _ => change (total m) end.
  total_auto.
Qed.

Lemma trigger_pipeline_total (state : State) : total (trigger_pipeline cfg env state).
Proof. unfold trigger_pipeline. total_auto. Qed.

Lemma poll_iteration_total (n : Z) (pid bid : pyval) (a : Z) :
  total (poll_iteration cfg env n pid bid a).
Proof. unfold poll_iteration. total_auto. Qed.

Lemma poll_loop_total (n : Z) (pid bid : pyval) :
  forall (k : nat) (a : Z), Z.to_nat (n - a) = k -> total (poll_loop cfg env n pid bid a).
Proof.
  induction k as [|k IH]; intros a Hk h; rewrite poll_loop_step.
  - destruct (a <? n) eqn:E; [lia|]. eexists _, _. reflexivity.
  - destruct (a <? n) eqn:E; [|lia].
    destruct (poll_iteration_total n pid bid a h) as (o & h1 & Hi). rewrite Hi.
    destruct o as [u|]; [eexists _, _; reflexivity|].
    apply (IH (a + 1)). lia.
Qed.

Lemma check_pipeline_status_total (state : State) :
  total (check_pipeline_status cfg env state).
Proof.
  unfold check_pipeline_status.
  apply total_call.
  destruct (negb _ || negb _); [apply total_ret|].
  apply total_bind; [apply total_emit|intros _].
  apply total_bind; [apply total_emit|intros _].
  apply total_bind; [apply total_emit|intros _].
  apply total_bind; [apply (poll_loop_total _ _ _ _ _ eq_refl)|intros exit].
  total_auto.
Qed.
End ApprovalTotal.

(** ** The verdict on the model's reply *)

Section Verdict.
Context (cfg : ReAgentV2.Config) (env : Env).
Import ReAgentV2.

(** The run from the gate on, when the gate answers "Approved". *)
Lemma walk_from_trigger (cap : nat) (state : State) (h : history) :
  exists r h',
    walk (workflow cfg env) (S (S cap)) (Node "trigger_pipeline") state h = (Ret r, h')
    /\ run_fault r = None
    /\ map v_node (visited r) = ["trigger_pipeline"; "check_pipeline_status"].
Proof.
  destruct (trigger_pipeline_total cfg env state h) as (u3 & h3 & H3).
  rewrite (walk_node (workflow cfg env) _ "trigger_pipeline" _ (trigger_pipeline cfg env)
             _ _ _ eq_refl H3).
  cbv zeta.
  change (next (workflow cfg env) "trigger_pipeline" (merge u3 state))
    with (@Ret (target + fault) (inl (Node "check_pipeline_status"))).
  cbv iota beta.
  destruct (check_pipeline_status_total cfg env (merge u3 state) h3) as (u4 & h4 & H4).
  rewrite (walk_node (workflow cfg env) _ "check_pipeline_status" _
             (check_pipeline_status cfg env) _ _ _ eq_refl H4).
  cbv zeta.
  change (next (workflow cfg env) "check_pipeline_status" (merge u4 (merge u3 state)))
    with (@Ret (target + fault) (inl END)).
  cbv iota beta. rewrite walk_end.
  eexists _, _. split; [reflexivity|]. split; reflexivity.
Qed.

(** The node after the loop, when a message was found: whatever the model
    call does, the node returns, and [llm_approval] is "Approved" exactly
    for an approving reply. *)
Lemma check_albert_verdict (state : State) (items : list pyval) (h h1 : history) am :
  py_iter (get state "slack_messages" (PList [])) = Ret items ->
  find_albert cfg env items (EvCall "check_albert_message" :: h) = (Ret am, h1) ->
  truthy am = true ->
  exists update,
    check_albert_message cfg env state h =
      (Ret update, EvLlm (approval_prompt env am) :: h1)
    /\ update !! "llm_approval" =
         Some (PStr (if reply_approves (llm_content env h1 (approval_prompt env am))
                     then "Approved" else "Rejected")).
Proof.
  intros Hi Hf Ht.
  destruct (llm_content env h1 (approval_prompt env am)) as [c|e] eqn:Hl.
  - destruct c as [|b|z|reply|l|d];
      (eexists; split;
       [unfold check_albert_message; rewrite call_eq, Hi; run;
        rewrite (bind_ret_eq _ _ _ _ _ Hf), Ht; cbn [negb];
        unfold try_except, llm_invoke, bind at 1; rewrite Hl; reflexivity
       |reflexivity]).
  - eexists. split.
    + unfold check_albert_message. rewrite call_eq, Hi. run.
      rewrite (bind_ret_eq _ _ _ _ _ Hf), Ht. cbn [negb].
      unfold try_except, llm_invoke, bind at 1. rewrite Hl. reflexivity.
    + reflexivity.
Qed.

Lemma reply_approves_spec (o : outcome pyval) :
  reply_approves o = true <->
  exists reply, o = Ret (PStr reply) /\ exists a b, reply = a +:+ "Approved" +:+ b.
Proof.
  destruct o as [c|e]; [destruct c as [|b|z|reply|l|d]|]; cbn [reply_approves];
    try (split; [discriminate|intros (reply & H & _); discriminate H]).
  rewrite contains_strip by reflexivity. rewrite contains_spec. split.
  - intros H. exists reply. split; [reflexivity|exact H].
  - intros (reply' & H & H'). injection H as ->. exact H'.
Qed.

(** C9. The answer of the model counts as an approval exactly when it is
    a string in which "Approved" occurs once it is stripped, which is
    when "Approved" occurs in the reply itself ("Not Approved" included):
    the node then sets [llm_approval] to "Approved", the gate answers
    "Approved" and the run goes on to [trigger_pipeline]; every other
    answer gives "Rejected" and the run ends. *)
Theorem C9_approval_is_a_substring_test
    (cap : nat) (st0 : State) (h0 : history) u1 hc items am h1 :
  (4 <= cap)%nat ->
  consult_slack_messages cfg env st0 h0 = (Ret u1, hc) ->
  py_iter (get (merge u1 st0) "slack_messages" (PList [])) = Ret items ->
  find_albert cfg env items (EvCall "check_albert_message" :: hc) = (Ret am, h1) ->
  truthy am = true ->
  let answer := llm_content env h1 (approval_prompt env am) in
  let approved := reply_approves answer in
  let verdict := if approved then "Approved" else "Rejected" in
  (approved = true <->
   exists reply, answer = Ret (PStr reply)
                 /\ exists a b, strip reply = a +:+ "Approved" +:+ b)
  /\ (approved = true <->
      exists reply, answer = Ret (PStr reply)
                    /\ exists a b, reply = a +:+ "Approved" +:+ b)
  /\ (exists update h2,
        check_albert_message cfg env (merge u1 st0) hc = (Ret update, h2)
        /\ update !! "llm_approval" = Some (PStr verdict)
        /\ validate_approval (merge update (merge u1 st0)) = Ret verdict
        /\ next (workflow cfg env) "check_albert_message" (merge update (merge u1 st0))
           = Ret (inl (if approved then Node "trigger_pipeline" else END)))
  /\ (exists r hf,
        invoke cfg env cap st0 h0 = (Ret r, hf)
        /\ run_fault r = None
        /\ map v_node (visited r) =
             if approved
             then ["consult_slack_messages"; "check_albert_message";
                   "trigger_pipeline"; "check_pipeline_status"]
             else ["consult_slack_messages"; "check_albert_message"]).
Proof.
  intros Hcap H1 Hi Hf Ht answer approved verdict.
  destruct (check_albert_verdict _ _ _ _ _ Hi Hf Ht) as (u2 & H2 & Hu2).
  fold answer in Hu2. fold approved in Hu2. fold verdict in Hu2.
  assert (Hm : merge u2 (merge u1 st0) !! "llm_approval" = Some (PStr verdict)).
  { unfold merge at 1. apply lookup_union_Some_l. exact Hu2. }
  assert (Hgate : validate_approval (merge u2 (merge u1 st0)) = Ret verdict).
  { unfold verdict in *. destruct approved.
    - apply validate_approval_approved. exact Hm.
    - apply validate_approval_rejected. rewrite Hm. discriminate. }
  assert (Hnext : next (workflow cfg env) "check_albert_message" (merge u2 (merge u1 st0))
                  = Ret (inl (if approved then Node "trigger_pipeline" else END))).
  { rewrite (next_after_check_albert cfg env _ _ Hgate). unfold verdict.
    destruct approved; reflexivity. }
  split.
  { unfold approved. destruct answer as [c|e]; [destruct c as [|b|z|reply|l|d]|];
      cbn [reply_approves];
      try (split; [discriminate|intros (reply & H & _); discriminate H]).
    rewrite contains_spec. split.
    - intros H. exists reply. split; [reflexivity|exact H].
    - intros (reply' & H & H'). injection H as ->. exact H'. }
  split; [apply reply_approves_spec|].
  split; [exists u2; eexists; repeat split; eassumption|].
  destruct cap as [|[|[|[|cap]]]]; try lia.
  rewrite (invoke_to_gate cfg env _ st0 h0 u1 hc u2 _ H1 H2). cbv zeta.
  rewrite Hnext, bind_lift_ret.
  destruct approved.
  - destruct (walk_from_trigger cap (merge u2 (merge u1 st0))
                (EvLlm (approval_prompt env am) :: h1)) as (r & hf & Hw & Hfault & Hv).
    rewrite (bind_ret_eq _ _ _ _ _ Hw).
    eexists _, _. split; [reflexivity|]. split; [exact Hfault|].
    cbn [record visited map v_node]. rewrite Hv. reflexivity.
  - rewrite (bind_ret_eq _ _ _ _ _ (walk_end _ _ _ _)).
    eexists _, _. split; [reflexivity|]. split; reflexivity.
Qed.
End Verdict.

(** ** Reading the channel *)

Section Retrieval.
Context (cfg : ReAgentV2.Config) (env : Env).
Import ReAgentV2.


(** A failed retrieval and an empty channel give the same result. *)
Lemma get_slack_messages_empty (channel_id : pyval) (h : history) :
  retrieval_failed (http env (EvCall "get_slack_messages" :: h) (history_request cfg env channel_id 100))
  || empty_channel (http env (EvCall "get_slack_messages" :: h) (history_request cfg env channel_id 100)) = true ->
  get_slack_messages cfg env channel_id 100 h =
    (Ret (PList []), EvHttp (history_request cfg env channel_id 100) :: EvCall "get_slack_messages" :: h).
Proof.
  intros Hr. unfold get_slack_messages, requests_get, send. rewrite call_eq.
  fold (history_request cfg env channel_id 100). unfold bind at 1.
  destruct (http env _ _) as [resp|e]; [|discriminate Hr].
  simpl in Hr. destruct (status_code resp =? 200); [|reflexivity]. simpl in Hr.
  destruct (json resp) as [data|e]; [|discriminate Hr].
  destruct data as [|b|z|s|l|d]; try discriminate Hr.
  run. destruct (truthy (default PNone (assoc "ok" d))); [|reflexivity].
  simpl in Hr. run.
  destruct (default (PList []) (assoc "messages" d)) as [|b|z|s|l|d']; try discriminate Hr.
  destruct l; [reflexivity|discriminate Hr].
Qed.

Lemma consult_no_messages (st0 : State) (h0 : history) channel cid h1 :
  st0 !! "channel" = Some channel ->
  get_slack_channel_id cfg env channel (EvCall "consult_slack_messages" :: h0) = (Ret cid, h1) ->
  truthy cid = true ->
  retrieval_failed (http env (EvCall "get_slack_messages" :: h1) (history_request cfg env cid 100))
  || empty_channel (http env (EvCall "get_slack_messages" :: h1) (history_request cfg env cid 100)) = true ->
  consult_slack_messages cfg env st0 h0 =
    (Ret no_messages, EvHttp (history_request cfg env cid 100) :: EvCall "get_slack_messages" :: h1).
Proof.
  intros Hc Hid Ht Hr. unfold consult_slack_messages, getitem. rewrite call_eq, Hc. run.
  unfold try_except. rewrite (bind_ret_eq _ _ _ _ _ Hid). rewrite Ht. cbn [negb].
  rewrite (bind_ret_eq _ _ _ _ _ (get_slack_messages_empty cid h1 Hr)). reflexivity.
Qed.

Lemma check_albert_no_messages (st : State) (h : history) :
  st !! "slack_messages" = Some (PList []) ->
  check_albert_message cfg env st h = (Ret not_found, EvCall "check_albert_message" :: h).
Proof.
  intros Hs. apply (check_albert_not_found cfg env st [] h _ PNone); try reflexivity.
  unfold get. rewrite Hs. reflexivity.
Qed.

(** The helper catches nothing: an exception of the request, of decoding
    the body or of reading a body that is no JSON object leaves it. *)
Lemma get_slack_messages_raises (channel_id : pyval) (h : history) (e : exn) :
  retrieval_error (http env (EvCall "get_slack_messages" :: h) (history_request cfg env channel_id 100)) = Some e ->
  get_slack_messages cfg env channel_id 100 h =
    (Raise e, EvHttp (history_request cfg env channel_id 100) :: EvCall "get_slack_messages" :: h).
Proof.
  intros Hr. unfold get_slack_messages, requests_get, send. rewrite call_eq.
  fold (history_request cfg env channel_id 100). unfold bind at 1.
  destruct (http env _ _) as [resp|e']; [|injection Hr as ->; reflexivity].
  cbn [retrieval_error] in Hr. destruct (status_code resp =? 200); [|discriminate Hr].
  destruct (json resp) as [data|e']; [|injection Hr as ->; reflexivity].
  destruct data as [|b|z|s|l|d]; try discriminate Hr; injection Hr as <-; reflexivity.
Qed.

Lemma consult_retrieval_error (st0 : State) (h0 : history) channel cid h1 e :
  st0 !! "channel" = Some channel ->
  get_slack_channel_id cfg env channel (EvCall "consult_slack_messages" :: h0) = (Ret cid, h1) ->
  truthy cid = true ->
  retrieval_error (http env (EvCall "get_slack_messages" :: h1) (history_request cfg env cid 100)) = Some e ->
  consult_slack_messages cfg env st0 h0 =
    (Ret {[ "error" := PStr ("Error fetching Slack messages: " +:+ exn_msg e) ]},
     EvHttp (history_request cfg env cid 100) :: EvCall "get_slack_messages" :: h1).
Proof.
  intros Hc Hid Ht Hr. unfold consult_slack_messages, getitem. rewrite call_eq, Hc. run.
  unfold try_except. rewrite (bind_ret_eq _ _ _ _ _ Hid). rewrite Ht. cbn [negb].
  rewrite (bind_raise_eq _ _ _ _ _ (get_slack_messages_raises cid h1 e Hr)). reflexivity.
Qed.

(** C10, as the code has it.  On a status other than 200 and on a JSON
    object whose [ok] flag is false, [get_slack_messages] returns the
    empty list, neither raising nor returning a failure value.  When the
    channel lookup has succeeded and the retrieval fails in one of these
    ways, [consult_slack_messages] returns [{slack_messages: []}] without
    an error field, and the run ends in the same final StateRecord as over
    a channel without messages, with [llm_approval] "Rejected".  When the
    request raises, or a 200 body is not JSON or no JSON object,
    [get_slack_messages] raises, and [consult_slack_messages] returns the
    error field with the message of the exception. *)
Theorem C10_failed_retrieval_reads_as_empty_channel
    (cap : nat) (st0 : State) (h0 : history) channel cid h1 :
  (2 <= cap)%nat ->
  st0 !! "channel" = Some channel ->
  get_slack_channel_id cfg env channel (EvCall "consult_slack_messages" :: h0) = (Ret cid, h1) ->
  truthy cid = true ->
  let h2 := EvHttp (history_request cfg env cid 100) :: EvCall "get_slack_messages" :: h1 in
  (retrieval_failed (http env (EvCall "get_slack_messages" :: h1) (history_request cfg env cid 100))
   || empty_channel (http env (EvCall "get_slack_messages" :: h1) (history_request cfg env cid 100)) = true ->
   get_slack_messages cfg env cid 100 h1 = (Ret (PList []), h2)
   /\ consult_slack_messages cfg env st0 h0 = (Ret no_messages, h2)
   /\ no_messages !! "error" = None
   /\ exists r,
        invoke cfg env cap st0 h0 = (Ret r, EvCall "check_albert_message" :: h2)
        /\ run_fault r = None
        /\ final_state r = merge not_found (merge no_messages st0)
        /\ final_state r !! "slack_messages" = Some (PList [])
        /\ final_state r !! "llm_approval" = Some (PStr "Rejected"))
  /\ (forall e,
        retrieval_error (http env (EvCall "get_slack_messages" :: h1) (history_request cfg env cid 100)) = Some e ->
        get_slack_messages cfg env cid 100 h1 = (Raise e, h2)
        /\ consult_slack_messages cfg env st0 h0
           = (Ret {[ "error" := PStr ("Error fetching Slack messages: " +:+ exn_msg e) ]}, h2)).
Proof.
  intros Hcap Hc Hid Ht h2. split.
  2:{ intros e Hr. split; [apply get_slack_messages_raises, Hr|].
      apply (consult_retrieval_error st0 h0 channel cid h1 e); assumption. }
  intros Hr.
  pose proof (consult_no_messages st0 h0 channel cid h1 Hc Hid Ht Hr) as H1. fold h2 in H1.
  assert (Hs : merge no_messages st0 !! "slack_messages" = Some (PList [])).
  { unfold merge. apply lookup_union_Some_l. reflexivity. }
  pose proof (check_albert_no_messages (merge no_messages st0) h2 Hs) as H2.
  assert (Hl : merge not_found (merge no_messages st0) !! "llm_approval" = Some (PStr "Rejected")).
  { unfold merge at 1. apply lookup_union_Some_l. reflexivity. }
  split; [apply get_slack_messages_empty; exact Hr|].
  split; [exact H1|]. split; [reflexivity|].
  destruct cap as [|[|cap]]; try lia.
  rewrite (invoke_to_gate cfg env cap st0 h0 _ _ _ _ H1 H2). cbv zeta.
  assert (Hg : validate_approval (merge not_found (merge no_messages st0)) = Ret "Rejected").
  { apply validate_approval_rejected. rewrite Hl. discriminate. }
  rewrite (next_after_check_albert cfg env _ _ Hg). cbn [String.eqb Ascii.eqb Bool.eqb].
  rewrite bind_lift_ret, (bind_ret_eq _ _ _ _ _ (walk_end _ _ _ _)).
  eexists. split; [reflexivity|]. split; [reflexivity|]. split; [reflexivity|].
  split; [|exact Hl].
  cbn [final_state record stop]. unfold merge at 1.
  rewrite lookup_union_r by reflexivity. exact Hs.
Qed.
End Retrieval.

(** ** Merging: the last writer wins and no field is lost *)

Section Merge.
Lemma merge_written (update st : State) (f : string) (v : pyval) :
  update !! f = Some v -> merge update st !! f = Some v.
Proof. intros H. unfold merge. apply lookup_union_Some_l. exact H. Qed.

Lemma merge_untouched (update st : State) (f : string) :
  update !! f = None -> merge update st !! f = st !! f.
Proof. intros H. unfold merge. apply lookup_union_r. exact H. Qed.

Lemma merge_keeps (update st : State) (f : string) :
  is_Some (st !! f) -> is_Some (merge update st !! f).
Proof.
  intros [v Hv]. destruct (update !! f) as [w|] eqn:E.
  - exists w. apply merge_written. exact E.
  - exists v. rewrite merge_untouched by exact E. exact Hv.
Qed.

Lemma replay_keeps (vs : list visit) :
  forall (st : State) (f : string), is_Some (st !! f) -> is_Some (replay st vs !! f).
Proof.
  induction vs as [|v vs IH]; intros st f H; [exact H|].
  apply (IH (merge (v_update v) st)), merge_keeps, H.
Qed.

Lemma replay_untouched (vs : list visit) (f : string) :
  Forall (fun c => v_update c !! f = None) vs ->
  forall st, replay st vs !! f = st !! f.
Proof.
  induction 1 as [|v vs Hv _ IH]; intros st; [reflexivity|].
  cbn [replay fold_left]. change (replay (merge (v_update v) st) vs !! f = st !! f).
  rewrite IH. apply merge_untouched, Hv.
Qed.

Lemma replay_app (st : State) (vs ws : list visit) :
  replay st (vs ++ ws) = replay (replay st vs) ws.
Proof. unfold replay. apply fold_left_app. Qed.

Lemma replay_last_writer (st : State) (pre post : list visit) (b : visit) f vb :
  v_update b !! f = Some vb ->
  Forall (fun c => v_update c !! f = None) post ->
  replay st (pre ++ b :: post) !! f = Some vb.
Proof.
  intros Hb Hpost. rewrite replay_app.
  change (replay (replay st pre) (b :: post))
    with (replay (merge (v_update b) (replay st pre)) post).
  rewrite (replay_untouched post f Hpost). apply merge_written, Hb.
Qed.

Lemma coherent_state (pre post : list visit) (v : visit) :
  forall st, coherent st (pre ++ v :: post) -> v_state v = replay st (pre ++ [v]).
Proof.
  induction pre as [|p pre IH]; intros st H.
  - destruct H as [H _]. exact H.
  - destruct H as [Hp H]. cbn [app]. 
    change (replay st (p :: pre ++ [v])) with (replay (merge (v_update p) st) (pre ++ [v])).
    rewrite <- Hp. apply IH. exact H.
Qed.

(** The walk records coherent visits and ends in their replay. *)
Lemma walk_replay (g : Graph) :
  forall (steps : nat) (cur : target) (st : State) (h : history) r h',
    walk g steps cur st h = (Ret r, h') ->
    coherent st (visited r) /\ final_state r = replay st (visited r).
Proof.
  induction steps as [|steps IH]; intros cur st h r h' Hw.
  - destruct cur as [n|]; simpl in Hw; injection Hw as <- _; split; constructor.
  - destruct cur as [n|]; [|simpl in Hw; injection Hw as <- _; split; constructor].
    cbn [walk] in Hw.
    destruct (table_get n (nodes g)) as [work|];
      [|injection Hw as <- _; split; constructor].
    unfold bind at 1 in Hw. destruct (work st h) as [[u|e] h1]; [|discriminate Hw].
    cbv zeta in Hw. unfold bind at 1, lift in Hw.
    destruct (next g n (merge u st)) as [[t|f]|e]; [| |discriminate Hw].
    + unfold bind in Hw.
      destruct (walk g steps t (merge u st) h1) as [[r1|e] h2] eqn:E; [|discriminate Hw].
      injection Hw as <- _. destruct (IH _ _ _ _ _ E) as [Hc Hf].
      cbn [record visited final_state coherent v_state v_update].
      split; [split; [reflexivity|exact Hc]|exact Hf].
    + injection Hw as <- _.
      cbn [record visited final_state coherent v_state v_update stop].
      split; [split; [reflexivity|exact I]|reflexivity].
Qed.

Lemma run_replay (g : Graph) (cap : nat) (st0 : State) (h0 : history) r h' :
  run g cap st0 h0 = (Ret r, h') ->
  coherent st0 (visited r) /\ final_state r = replay st0 (visited r).
Proof.
  unfold run, bind at 1, lift. intros Hr.
  destruct (next g START st0) as [[t|f]|e]; [| |discriminate Hr].
  - apply (walk_replay g cap t st0 h0 r h' Hr).
  - injection Hr as <- _. split; constructor.
Qed.

(** C5. In a run, when node A and later node B both write field [f], the
    StateRecord after B holds B's value whatever A wrote, and so does the
    final StateRecord when B is the last node that writes [f]; a field
    that the StateRecord holds at the start or after any node is still
    held at the end of the run. *)
Theorem C5_last_writer_wins_and_no_field_is_lost
    (g : Graph) (cap : nat) (st0 : State) (h0 : history) r h' :
  run g cap st0 h0 = (Ret r, h') ->
  (forall (pre : list visit) a mid b post f va vb,
      visited r = (pre ++ a :: mid ++ b :: post)%list ->
      v_update a !! f = Some va ->
      v_update b !! f = Some vb ->
      v_state b !! f = Some vb
      /\ (Forall (fun c => v_update c !! f = None) post -> final_state r !! f = Some vb))
  /\ (forall f, is_Some (st0 !! f) -> is_Some (final_state r !! f))
  /\ (forall (pre : list visit) v post f,
        visited r = (pre ++ v :: post)%list ->
        is_Some (v_state v !! f) -> is_Some (final_state r !! f)).
Proof.
  intros Hr. destruct (run_replay g cap st0 h0 r h' Hr) as [Hc Hf].
  split; [|split].
  - intros pre a mid b post f va vb Hv _ Hb.
    assert (Hv' : visited r = ((pre ++ a :: mid) ++ b :: post)%list)
      by (rewrite Hv, <- app_assoc; reflexivity).
    split.
    + rewrite Hv' in Hc. rewrite (coherent_state _ _ _ _ Hc).
      apply (replay_last_writer st0 (pre ++ a :: mid)%list [] b f vb Hb). constructor.
    + intros Hpost. rewrite Hf, Hv'. apply replay_last_writer; assumption.
  - intros f H. rewrite Hf. apply replay_keeps, H.
  - intros pre v post f Hv H. rewrite Hf, Hv.
    rewrite Hv in Hc. rewrite (coherent_state _ _ _ _ Hc) in H.
    change (pre ++ v :: post)%list with (pre ++ [v] ++ post)%list.
    rewrite app_assoc, replay_app. apply replay_keeps, H.
Qed.
End Merge.

(** ** The joke workflow *)

Lemma contains_char (c : ascii) (s : string) :
  contains (String c EmptyString) s = true <-> In c (list_ascii_of_string s).
Proof.
  induction s as [|x s IH]; cbn [contains starts_with list_ascii_of_string In].
  - split; [discriminate|intros []].
  - rewrite andb_true_r. destruct (Ascii.eqb c x) eqn:E.
    + apply Ascii.eqb_eq in E as ->. split; [left; reflexivity|reflexivity].
    + rewrite IH. split; [right; assumption|].
      intros [->|H]; [|exact H]. rewrite Ascii.eqb_refl in E. discriminate E.
Qed.

Section Joke.
Context (env : Env).
Import ReAgent.

Lemma check_punchline_str (state : State) (j : string) :
  state !! "joke" = Some (PStr j) ->
  check_punchline state = Ret (if contains "?" j || contains "!" j then "Pass" else "Fail").
Proof.
  intros Hj. unfold check_punchline, getitem. rewrite Hj. cbn [obind py_in].
  destruct (contains "?" j); [reflexivity|]. cbn [obind orb].
  destruct (contains "!" j); reflexivity.
Qed.

(** A node of the joke workflow: read a field, ask the model, write a
    field.  It returns when the field is there and the model answers. *)
Lemma generate_joke_eq (state : State) (h : history) topic c :
  state !! "topic" = Some topic ->
  llm_content env (EvCall "generate_joke" :: h)
    ("Write a short joke about " +:+ py_str env topic) = Ret c ->
  exists h', generate_joke env state h = (Ret {[ "joke" := c ]}, h').
Proof.
  intros Ht Hl. unfold generate_joke, getitem, llm_invoke. rewrite call_eq, Ht. run.
  unfold bind. rewrite Hl. eexists. reflexivity.
Qed.

Lemma improve_joke_eq (state : State) (h : history) joke c :
  state !! "joke" = Some joke ->
  llm_content env (EvCall "improve_joke" :: h)
    ("Make this joke funnier by adding wordplay: " +:+ py_str env joke) = Ret c ->
  exists h', improve_joke env state h = (Ret {[ "improved_joke" := c ]}, h').
Proof.
  intros Ht Hl. unfold improve_joke, getitem, llm_invoke. rewrite call_eq, Ht. run.
  unfold bind. rewrite Hl. eexists. reflexivity.
Qed.

Lemma polish_joke_eq (state : State) (h : history) improved c :
  state !! "improved_joke" = Some improved ->
  llm_content env (EvCall "polish_joke" :: h)
    ("Add a surprising twist to this joke: " +:+ py_str env improved) = Ret c ->
  exists h', polish_joke env state h = (Ret {[ "final_joke" := c ]}, h').
Proof.
  intros Ht Hl. unfold polish_joke, getitem, llm_invoke. rewrite call_eq, Ht. run.
  unfold bind. rewrite Hl. eexists. reflexivity.
Qed.

Lemma ask_for_applause_eq (state : State) (h : history) joke c :
  state !! "joke" = Some joke ->
  llm_content env (EvCall "ask_for_applause" :: h)
    ("Ask for applause for the joke: " +:+ py_str env joke) = Ret c ->
  exists h', ask_for_applause env state h = (Ret {[ "ask_for_applause" := c ]}, h').
Proof.
  intros Ht Hl. unfold ask_for_applause, getitem, llm_invoke. rewrite call_eq, Ht. run.
  unfold bind. rewrite Hl. eexists. reflexivity.
Qed.

(** When the model fails, so does the node: the exception is not caught. *)
Lemma generate_joke_raises (state : State) (h : history) topic e :
  state !! "topic" = Some topic ->
  llm_content env (EvCall "generate_joke" :: h)
    ("Write a short joke about " +:+ py_str env topic) = Raise e ->
  fst (generate_joke env state h) = Raise e.
Proof.
  intros Ht Hl. unfold generate_joke, getitem, llm_invoke. rewrite call_eq, Ht. run.
  unfold bind. rewrite Hl. reflexivity.
Qed.

Lemma next_after_generate (state : State) (label : string) :
  check_punchline state = Ret label ->
  next (workflow env) "generate_joke" state =
    Ret (if String.eqb label "Fail" then inl (Node "improve_joke")
         else if String.eqb label "Pass" then inl (Node "ask_for_applause")
         else inr (UnmappedLabel "generate_joke" label)).
Proof.
  intros H. unfold next. simpl. rewrite H. simpl.
  destruct (String.eqb label "Fail"); [reflexivity|].
  destruct (String.eqb label "Pass"); reflexivity.
Qed.

(** The tail of every run: the applause node, then END. *)
Lemma walk_applause (steps : nat) (state : State) (h : history) (j : string) :
  llm_answers env ->
  state !! "joke" = Some (PStr j) ->
  exists r h',
    walk (workflow env) (S steps) (Node "ask_for_applause") state h = (Ret r, h')
    /\ run_fault r = None
    /\ map v_node (visited r) = ["ask_for_applause"]
    /\ (forall f, f <> "ask_for_applause" -> final_state r !! f = state !! f).
Proof.
  intros Hl Hj.
  destruct (Hl (EvCall "ask_for_applause" :: h)
              ("Ask for applause for the joke: " +:+ py_str env (PStr j))) as [c Hc].
  destruct (ask_for_applause_eq state h (PStr j) (PStr c) Hj Hc) as [h1 H1].
  rewrite (walk_node (workflow env) _ "ask_for_applause" _ (ask_for_applause env)
             _ _ _ eq_refl H1).
  cbv zeta.
  change (next (workflow env) "ask_for_applause" (merge {[ "ask_for_applause" := PStr c ]} state))
    with (@Ret (target + fault) (inl END)).
  cbv iota beta. rewrite walk_end.
  eexists _, _. split; [reflexivity|]. split; [reflexivity|]. split; [reflexivity|].
  intros f Hf. cbn [record stop final_state]. apply merge_untouched.
  apply lookup_singleton_ne. congruence.
Qed.

(** C6. The gate [check_punchline] answers "Pass" exactly when the joke
    holds the character "?" or the character "!".  On "Pass" the run goes
    from [generate_joke] straight to [ask_for_applause] and the final
    StateRecord has no [improved_joke]; on "Fail" it visits
    [improve_joke], [polish_joke] and [ask_for_applause] in that order. *)
Theorem C6_punchline_gate_routes
    (cap : nat) (st0 : State) (h0 : history) (topic : pyval) :
  (4 <= cap)%nat ->
  st0 !! "topic" = Some topic ->
  st0 !! "improved_joke" = None ->
  llm_answers env ->
  (forall (state : State) (j : string),
      state !! "joke" = Some (PStr j) ->
      (check_punchline state = Ret "Pass"
       <-> In "?"%char (list_ascii_of_string j) \/ In "!"%char (list_ascii_of_string j))
      /\ (check_punchline state = Ret "Pass" \/ check_punchline state = Ret "Fail"))
  /\ exists r hf j,
       invoke env cap st0 h0 = (Ret r, hf)
       /\ run_fault r = None
       /\ final_state r !! "joke" = Some (PStr j)
       /\ ((check_punchline (merge {[ "joke" := PStr j ]} st0) = Ret "Pass"
            /\ map v_node (visited r) = ["generate_joke"; "ask_for_applause"]
            /\ final_state r !! "improved_joke" = None)
           \/ (check_punchline (merge {[ "joke" := PStr j ]} st0) = Ret "Fail"
               /\ map v_node (visited r) =
                    ["generate_joke"; "improve_joke"; "polish_joke"; "ask_for_applause"]
               /\ is_Some (final_state r !! "improved_joke"))).
Proof.
  intros Hcap Ht Hi Hl. split.
  - intros state j Hj. rewrite (check_punchline_str state j Hj).
    rewrite <- !contains_char.
    destruct (contains "?" j), (contains "!" j); cbn [orb];
      (split;
       [split;
        [intros H; first [left; reflexivity|right; reflexivity|discriminate H]
        |intros [H|H]; first [reflexivity|discriminate H]]
       |first [left; reflexivity|right; reflexivity]]).
  - destruct cap as [|[|[|[|cap]]]]; try lia.
    destruct (Hl (EvCall "generate_joke" :: h0)
                ("Write a short joke about " +:+ py_str env topic)) as [j Hj].
    destruct (generate_joke_eq st0 h0 topic (PStr j) Ht Hj) as [h1 H1].
    set (st1 := merge {[ "joke" := PStr j ]} st0).
    assert (Hj1 : st1 !! "joke" = Some (PStr j)) by (apply merge_written, lookup_singleton_eq).
    assert (Hi1 : st1 !! "improved_joke" = None).
    { unfold st1. rewrite merge_untouched by (apply lookup_singleton_ne; discriminate).
      exact Hi. }
    pose proof (check_punchline_str st1 j Hj1) as Hg.
    unfold invoke, run.
    change (next (workflow env) START st0) with (@Ret (target + fault) (inl (Node "generate_joke"))).
    rewrite bind_lift_ret.
    rewrite (walk_node (workflow env) _ "generate_joke" _ (generate_joke env) _ _ _ eq_refl H1).
    cbv zeta. fold st1. rewrite (next_after_generate st1 _ Hg).
    destruct (contains "?" j || contains "!" j) eqn:Hp.
    + cbn [String.eqb Ascii.eqb Bool.eqb]. cbv iota beta.
      destruct (walk_applause (S (S cap)) st1 h1 j Hl Hj1) as (r & hf & Hw & Hf & Hv & Hk).
      rewrite Hw. eexists _, _, j. split; [reflexivity|].
      cbn [record run_fault final_state visited map v_node].
      split; [exact Hf|]. split; [rewrite Hk by discriminate; exact Hj1|].
      left. split; [exact Hg|]. split; [rewrite Hv; reflexivity|].
      rewrite Hk by discriminate. exact Hi1.
    + cbn [String.eqb Ascii.eqb Bool.eqb]. cbv iota beta.
      destruct (Hl (EvCall "improve_joke" :: h1)
                  ("Make this joke funnier by adding wordplay: " +:+ py_str env (PStr j)))
        as [c2 Hc2].
      destruct (improve_joke_eq st1 h1 (PStr j) (PStr c2) Hj1 Hc2) as [h2 H2].
      rewrite (walk_node (workflow env) _ "improve_joke" _ (improve_joke env) _ _ _ eq_refl H2).
      cbv zeta. set (st2 := merge {[ "improved_joke" := PStr c2 ]} st1).
      change (next (workflow env) "improve_joke" st2)
        with (@Ret (target + fault) (inl (Node "polish_joke"))).
      cbv iota beta.
      assert (Hi2 : st2 !! "improved_joke" = Some (PStr c2))
        by (apply merge_written, lookup_singleton_eq).
      assert (Hj2 : st2 !! "joke" = Some (PStr j)).
      { unfold st2. rewrite merge_untouched by (apply lookup_singleton_ne; discriminate).
        exact Hj1. }
      destruct (Hl (EvCall "polish_joke" :: h2)
                  ("Add a surprising twist to this joke: " +:+ py_str env (PStr c2)))
        as [c3 Hc3].
      destruct (polish_joke_eq st2 h2 (PStr c2) (PStr c3) Hi2 Hc3) as [h3 H3].
      rewrite (walk_node (workflow env) _ "polish_joke" _ (polish_joke env) _ _ _ eq_refl H3).
      cbv zeta. set (st3 := merge {[ "final_joke" := PStr c3 ]} st2).
      change (next (workflow env) "polish_joke" st3)
        with (@Ret (target + fault) (inl (Node "ask_for_applause"))).
      cbv iota beta.
      assert (Hi3 : st3 !! "improved_joke" = Some (PStr c2)).
      { unfold st3. rewrite merge_untouched by (apply lookup_singleton_ne; discriminate).
        exact Hi2. }
      assert (Hj3 : st3 !! "joke" = Some (PStr j)).
      { unfold st3. rewrite merge_untouched by (apply lookup_singleton_ne; discriminate).
        exact Hj2. }
      destruct (walk_applause cap st3 h3 j Hl Hj3) as (r & hf & Hw & Hf & Hv & Hk).
      rewrite Hw. eexists _, _, j. split; [reflexivity|].
      cbn [record run_fault final_state visited map v_node].
      split; [exact Hf|]. split; [rewrite Hk by discriminate; exact Hj3|].
      right. split; [exact Hg|]. split; [rewrite Hv; reflexivity|].
      rewrite Hk by discriminate. rewrite Hi3. eauto.
Qed.
End Joke.

(** * The posts and replies service *)

Section Service.
Import TeamsApp AppProps.

Lemma has_post_spec (post_id : string) (db : Db) :
  has_post post_id db = true <-> In post_id (map p_id (posts_db db)).
Proof.
  unfold has_post. rewrite existsb_exists, in_map_iff. split.
  - intros (p & Hp & He). apply String.eqb_eq in He. exists p. auto.
  - intros (p & He & Hp). exists p. split; [exact Hp|]. apply String.eqb_eq. exact He.
Qed.

Lemma integrity_spec (db : Db) :
  integrity db = true <->
  forall x, In x (map r_post_id (replies_db db)) -> In x (map p_id (posts_db db)).
Proof.
  unfold integrity. rewrite forallb_forall. split.
  - intros H x Hx. apply in_map_iff in Hx as (r & <- & Hr). apply has_post_spec, H, Hr.
  - intros H r Hr. apply has_post_spec, H, in_map, Hr.
Qed.

Lemma find_post_none (post_id : string) (db : Db) :
  has_post post_id db = false <-> find_post post_id (posts_db db) = None.
Proof.
  unfold has_post, find_post. induction (posts_db db) as [|p l IH]; simpl; [tauto|].
  destruct (String.eqb (p_id p) post_id); simpl; [split; discriminate|exact IH].
Qed.

Lemma find_reply_none (reply_id : string) (db : Db) :
  has_reply reply_id db = false <-> find_reply reply_id (replies_db db) = None.
Proof.
  unfold has_reply, find_reply. induction (replies_db db) as [|r l IH]; simpl; [tauto|].
  destruct (String.eqb (r_id r) reply_id); simpl; [split; discriminate|exact IH].
Qed.

Lemma find_post_some (post_id : string) (db : Db) :
  has_post post_id db = true -> exists post, find_post post_id (posts_db db) = Some post.
Proof.
  intros H. destruct (find_post post_id (posts_db db)) as [post|] eqn:E; [eauto|].
  apply find_post_none in E. congruence.
Qed.

(** [remove] takes out the row that [next] found: the first one with the
    id. *)
Lemma list_remove_found {A} `{EqDecision A} (key : A -> string) (id : string)
    (l : list A) (x : A) :
  List.find (fun y => String.eqb (key y) id) l = Some x ->
  exists l1 l2,
    l = (l1 ++ x :: l2)%list
    /\ key x = id
    /\ Forall (fun y => key y <> id) l1
    /\ list_remove x l = Some (l1 ++ l2)%list.
Proof.
  induction l as [|y l IH]; simpl; [discriminate|].
  destruct (String.eqb (key y) id) eqn:E.
  - intros [= ->]. apply String.eqb_eq in E. exists [], l.
    rewrite decide_True by reflexivity. repeat split; auto.
  - intros Hf. destruct (IH Hf) as (l1 & l2 & -> & Hk & Hl1 & Hr).
    apply String.eqb_neq in E. exists (y :: l1), l2.
    rewrite decide_False by (intros ->; contradiction). rewrite Hr.
    repeat split; auto.
Qed.

Lemma update_first_keys {A} (key : A -> string) (test : A -> bool) (f : A -> A) (l : list A) :
  (forall y, key (f y) = key y) -> map key (update_first test f l) = map key l.
Proof.
  intros Hf. induction l as [|y l IH]; simpl; [reflexivity|].
  destruct (test y); simpl; [rewrite Hf|rewrite IH]; reflexivity.
Qed.

Lemma update_first_length {A} (test : A -> bool) (f : A -> A) (l : list A) :
  length (update_first test f l) = length l.
Proof.
  induction l as [|y l IH]; simpl; [reflexivity|].
  destruct (test y); simpl; [|rewrite IH]; reflexivity.
Qed.

(** X1. Every reply belongs to a post: a table in which this holds keeps
    it under each of the handlers that write, whatever their arguments
    and whether they answer with a value or with 404. *)
Theorem integrity_is_kept (db : Db) :
  integrity db = true ->
  (forall uid now body, integrity (snd (create_post uid now body db)) = true)
  /\ (forall now post_id body, integrity (snd (update_post now post_id body db)) = true)
  /\ (forall post_id, integrity (snd (delete_post post_id db)) = true)
  /\ (forall uid now body, integrity (snd (create_reply uid now body db)) = true)
  /\ (forall uid now post_id body,
        integrity (snd (create_reply_simple uid now post_id body db)) = true)
  /\ (forall now reply_id body, integrity (snd (update_reply now reply_id body db)) = true)
  /\ (forall reply_id, integrity (snd (delete_reply reply_id db)) = true)
  /\ (forall uid1 now1 uid2 now2,
        integrity (init_sample_data uid1 now1 uid2 now2 db) = true).
Proof.
  intros Hi. pose proof (proj1 (integrity_spec db) Hi) as H.
  repeat split.
  - intros uid now body. apply integrity_spec. simpl. intros x Hx.
    rewrite map_app, in_app_iff. left. apply H, Hx.
  - intros now post_id body. unfold update_post.
    destruct (find_post post_id (posts_db db)); [|exact Hi].
    apply integrity_spec. simpl. rewrite update_first_keys; [exact H|].
    intros y. unfold apply_post_update.
    destruct (pu_title body), (pu_message body); reflexivity.
  - intros post_id. unfold delete_post.
    destruct (find_post post_id (posts_db db)) as [post|] eqn:Ef; [|exact Hi].
    destruct (list_remove_found p_id post_id _ _ Ef) as (l1 & l2 & Hl & Hk & _ & Hr).
    rewrite Hr. apply integrity_spec. simpl. intros x Hx.
    apply in_map_iff in Hx as (r & <- & Hin). apply filter_In in Hin as [Hin Hne].
    apply negb_true_iff, String.eqb_neq in Hne.
    specialize (H (r_post_id r) (in_map _ _ _ Hin)). rewrite Hl in H.
    rewrite map_app, in_app_iff in *. simpl in H.
    destruct H as [H|[H|H]]; [left; exact H|congruence|right; exact H].
  - intros uid now body. unfold create_reply.
    destruct (find_post (rc_post_id body) (posts_db db)) as [post|] eqn:Ef; [|exact Hi].
    apply integrity_spec. simpl. intros x Hx.
    rewrite map_app, in_app_iff in Hx. destruct Hx as [Hx|[<-|[]]]; [apply H, Hx|].
    apply has_post_spec. cbn [r_post_id].
    destruct (has_post (rc_post_id body) db) eqn:E; [reflexivity|].
    apply find_post_none in E. congruence.
  - intros uid now post_id body. unfold create_reply_simple.
    destruct (find_post post_id (posts_db db)) as [post|] eqn:Ef; [|exact Hi].
    apply integrity_spec. simpl. intros x Hx.
    rewrite map_app, in_app_iff in Hx. destruct Hx as [Hx|[<-|[]]]; [apply H, Hx|].
    apply has_post_spec. cbn [r_post_id].
    destruct (has_post post_id db) eqn:E; [reflexivity|].
    apply find_post_none in E. congruence.
  - intros now reply_id body. unfold update_reply.
    destruct (find_reply reply_id (replies_db db)); [|exact Hi].
    apply integrity_spec. simpl. rewrite update_first_keys; [exact H|].
    intros y. reflexivity.
  - intros reply_id. unfold delete_reply.
    destruct (find_reply reply_id (replies_db db)) as [reply|] eqn:Ef; [|exact Hi].
    destruct (list_remove_found r_id reply_id _ _ Ef) as (l1 & l2 & Hl & _ & _ & Hr).
    rewrite Hr. apply integrity_spec. simpl. intros x Hx. apply H.
    rewrite Hl. rewrite map_app, in_app_iff in *. simpl. tauto.
  - intros uid1 now1 uid2 now2. unfold init_sample_data.
    destruct (posts_db db) as [|p l] eqn:Ep; [|exact Hi].
    apply integrity_spec. simpl. intros x Hx.
    rewrite map_app, in_app_iff in Hx. destruct Hx as [Hx|[<-|[]]]; [|left; reflexivity].
    apply H in Hx. destruct Hx.
Qed.

Lemma filter_none {A} (test : A -> bool) (l : list A) :
  Forall (fun y => test y = false) l -> List.filter test l = [].
Proof.
  induction 1 as [|y l Hy _ IH]; simpl; [reflexivity|]. rewrite Hy. exact IH.
Qed.

Lemma filter_filter_other (post_id other : string) (l : list reply_row) :
  other <> post_id ->
  List.filter (fun r => String.eqb (r_post_id r) other)
    (List.filter (fun r => negb (String.eqb (r_post_id r) post_id)) l)
  = List.filter (fun r => String.eqb (r_post_id r) other) l.
Proof.
  intros Hne. induction l as [|r l IH]; simpl; [reflexivity|].
  destruct (String.eqb (r_post_id r) post_id) eqn:E; simpl.
  - apply String.eqb_eq in E. rewrite E.
    destruct (String.eqb post_id other) eqn:E'; [|exact IH].
    apply String.eqb_eq in E'. congruence.
  - destruct (String.eqb (r_post_id r) other); [rewrite IH|]; auto.
Qed.

Lemma find_post_unique (db : Db) (post : post_row) :
  unique_posts db -> In post (posts_db db) ->
  find_post (p_id post) (posts_db db) = Some post.
Proof.
  unfold unique_posts, find_post. induction (posts_db db) as [|p l IH]; simpl; [tauto|].
  intros Hn [->|Hin].
  - rewrite String.eqb_refl. reflexivity.
  - apply NoDup_cons in Hn as [Hp Hn].
    destruct (String.eqb (p_id p) (p_id post)) eqn:E; [|apply IH; assumption].
    apply String.eqb_eq in E. exfalso. apply Hp. rewrite E.
    apply list_elem_of_In, in_map, Hin.
Qed.

(** X2. Deleting a post that exists answers with the success message,
    takes exactly one row out of the posts and every reply of that post
    out of the replies, and leaves the replies of all other posts as they
    were; when no two posts share an id the post can no longer be read.
    The [ValueError] of [list.remove] does not occur. *)
Theorem delete_post_cascades (post_id : string) (db : Db) :
  has_post post_id db = true ->
  exists db',
    delete_post post_id db = (Ok "Post deleted successfully", db')
    /\ length (posts_db db) = S (length (posts_db db'))
    /\ get_replies post_id db' = []
    /\ (forall other, other <> post_id -> get_replies other db' = get_replies other db)
    /\ (unique_posts db ->
        get_post post_id db' = HTTPException 404 "Post not found").
Proof.
  intros Hp. destruct (find_post_some post_id db Hp) as [post Ef].
  destruct (list_remove_found p_id post_id _ _ Ef) as (l1 & l2 & Hl & Hk & Hl1 & Hr).
  unfold delete_post. rewrite Ef, Hr. eexists. split; [reflexivity|].
  cbn [posts_db replies_db]. split; [|split; [|split]].
  - rewrite Hl, !length_app. simpl. lia.
  - unfold get_replies. cbn [replies_db]. apply filter_none, List.Forall_forall.
    intros r Hin. apply filter_In in Hin as [_ Hne].
    apply negb_true_iff in Hne. exact Hne.
  - intros other Hne. unfold get_replies. cbn [replies_db].
    apply filter_filter_other, Hne.
  - intros Hu. unfold get_post. cbn [posts_db].
    replace (find_post post_id (l1 ++ l2)%list) with (@None post_row); [reflexivity|].
    symmetry. apply (find_post_none post_id {| posts_db := (l1 ++ l2)%list; replies_db := [] |}).
    destruct (has_post post_id {| posts_db := (l1 ++ l2)%list; replies_db := [] |}) eqn:E;
      [|reflexivity].
    apply has_post_spec in E. cbn [posts_db] in E.
    unfold unique_posts in Hu. rewrite Hl in Hu.
    change (NoDup (map p_id (l1 ++ post :: l2)%list)) in Hu.
    rewrite map_app in Hu. simpl in Hu. apply NoDup_app in Hu as (_ & Hd & Hn2).
    apply NoDup_cons in Hn2 as [Hn2 _].
    rewrite map_app, in_app_iff in E. destruct E as [E|E].
    + apply in_map_iff in E as (y & Hy & Hin).
      rewrite List.Forall_forall in Hl1. exfalso. apply (Hl1 y Hin Hy).
    + exfalso. apply Hn2. rewrite Hk. apply list_elem_of_In, E.
Qed.

(** X3. A handler that is given the id of a post, or of a reply, that is
    not in the table answers 404 with the detail "Post not found",
    respectively "Reply not found", and leaves both tables as they
    were. *)
Theorem absent_id_is_404 (db : Db) (post_id reply_id : string) :
  (has_post post_id db = false ->
   get_post post_id db = HTTPException 404 "Post not found"
   /\ (forall now body,
         update_post now post_id body db = (HTTPException 404 "Post not found", db))
   /\ delete_post post_id db = (HTTPException 404 "Post not found", db)
   /\ (forall uid now body,
         rc_post_id body = post_id ->
         create_reply uid now body db = (HTTPException 404 "Post not found", db))
   /\ (forall uid now body,
         create_reply_simple uid now post_id body db
         = (HTTPException 404 "Post not found", db)))
  /\ (has_reply reply_id db = false ->
      (forall now body,
         update_reply now reply_id body db = (HTTPException 404 "Reply not found", db))
      /\ delete_reply reply_id db = (HTTPException 404 "Reply not found", db)).
Proof.
  split.
  - intros Hp. apply find_post_none in Hp.
    unfold get_post, update_post, delete_post, create_reply, create_reply_simple.
    rewrite Hp. repeat split; try reflexivity.
    intros uid now body ->. rewrite Hp. reflexivity.
  - intros Hr. apply find_reply_none in Hr.
    unfold update_reply, delete_reply. rewrite Hr. split; reflexivity.
Qed.

(** X4. A post created under an id that no post has yet can be read back
    under that id, with the fields of the request, the given timestamp
    and no replies; it is the last entry of the list of posts, and ids
    that were unique stay unique. *)
Theorem create_post_then_get (uid now : string) (body : PostCreate) (db : Db) :
  has_post uid db = false ->
  integrity db = true ->
  let db' := snd (create_post uid now body db) in
  get_post uid db' =
    Ok {| f_id := uid; f_title := pc_title body; f_user := pc_user body;
          f_role := pc_role body; f_message := pc_message body;
          f_timestamp := now; f_replies := [] |}
  /\ get_posts db' =
       (get_posts db ++ [ {| s_id := uid; s_title := pc_title body;
                             s_message := pc_message body |} ])%list
  /\ replies_db db' = replies_db db
  /\ (unique_posts db -> unique_posts db').
Proof.
  intros Hp Hi db'. pose proof (proj1 (integrity_spec db) Hi) as H.
  assert (Hnot : ~ In uid (map p_id (posts_db db))).
  { intros Hin. apply has_post_spec in Hin. congruence. }
  split; [|split; [|split]].
  - unfold get_post, db'. cbn [create_post snd posts_db replies_db].
    assert (Hf : find_post uid (posts_db db ++
                   [ {| p_id := uid; p_title := pc_title body; p_user := pc_user body;
                        p_role := pc_role body; p_message := pc_message body;
                        p_timestamp := now |} ])%list
                 = Some {| p_id := uid; p_title := pc_title body; p_user := pc_user body;
                           p_role := pc_role body; p_message := pc_message body;
                           p_timestamp := now |}).
    { apply find_post_none in Hp. unfold find_post in *. clear H Hnot Hi db'.
      induction (posts_db db) as [|p l IH]; simpl in *.
      - rewrite (String.eqb_refl uid). reflexivity.
      - destruct (String.eqb (p_id p) uid); [discriminate Hp|]. apply IH. exact Hp. }
    rewrite Hf. cbn [p_id p_title p_user p_role p_message p_timestamp].
    rewrite filter_none; [reflexivity|]. apply List.Forall_forall. intros r Hr.
    apply String.eqb_neq. intros He. apply Hnot. rewrite <- He.
    apply H, in_map, Hr.
  - unfold get_posts, db'. cbn [create_post snd posts_db].
    rewrite fmap_app. reflexivity.
  - reflexivity.
  - unfold unique_posts, db'. cbn [create_post snd posts_db]. intros Hu.
    rewrite fmap_app. apply NoDup_app. split; [exact Hu|]. split.
    + intros x Hx [<-|[]]%list_elem_of_In. apply Hnot, list_elem_of_In, Hx.
    + apply NoDup_singleton.
Qed.

Lemma find_post_in (post_id : string) (db : Db) (post : post_row) :
  find_post post_id (posts_db db) = Some post -> has_post post_id db = true.
Proof.
  intros H. destruct (has_post post_id db) eqn:E; [reflexivity|].
  apply find_post_none in E. congruence.
Qed.

(** X5. A reply created for a post that exists is appended to the replies
    of that post and changes neither the replies of any other post nor
    the posts; the endpoint that takes the post id from the URL stores
    the same row. *)
Theorem create_reply_appends (uid now : string) (body : ReplyCreate) (db : Db) :
  has_post (rc_post_id body) db = true ->
  let new_reply :=
    {| r_id := uid; r_post_id := rc_post_id body; r_user := rc_user body;
       r_role := rc_role body; r_message := rc_message body; r_timestamp := now |} in
  exists db',
    create_reply uid now body db = (Ok new_reply, db')
    /\ get_replies (rc_post_id body) db'
       = (get_replies (rc_post_id body) db ++ [new_reply])%list
    /\ (forall other, other <> rc_post_id body ->
                      get_replies other db' = get_replies other db)
    /\ get_posts db' = get_posts db
    /\ create_reply_simple uid now (rc_post_id body)
         {| rs_user := rc_user body; rs_role := rc_role body;
            rs_message := rc_message body |} db
       = (Ok new_reply, db').
Proof.
  intros Hp new_reply. destruct (find_post_some _ db Hp) as [post Ef].
  unfold create_reply, create_reply_simple. rewrite Ef. eexists. split; [reflexivity|].
  unfold get_replies, get_posts. cbn [replies_db posts_db r_post_id].
  split; [|split; [|split; reflexivity]].
  - rewrite List.filter_app. simpl. rewrite String.eqb_refl. reflexivity.
  - intros other Hne. rewrite List.filter_app. simpl.
    destruct (String.eqb (rc_post_id body) other) eqn:E.
    + apply String.eqb_eq in E. congruence.
    + apply app_nil_r.
Qed.

Lemma find_update_first (post_id other : string) (f : post_row -> post_row)
    (l : list post_row) :
  (forall y, p_id (f y) = p_id y) ->
  find_post other (update_first (fun p => String.eqb (p_id p) post_id) f l)
  = if String.eqb post_id other then f <$> find_post other l else find_post other l.
Proof.
  intros Hf. unfold find_post. induction l as [|y l IH]; simpl.
  - destruct (String.eqb post_id other); reflexivity.
  - destruct (String.eqb (p_id y) post_id) eqn:E; simpl.
    + apply String.eqb_eq in E. rewrite Hf, E.
      destruct (String.eqb post_id other); reflexivity.
    + rewrite IH. destruct (String.eqb post_id other) eqn:E'.
      * apply String.eqb_eq in E'. subst other. rewrite E. reflexivity.
      * destruct (String.eqb (p_id y) other); reflexivity.
Qed.

Lemma apply_post_update_id (now : string) (body : PostUpdate) (post : post_row) :
  p_id (apply_post_update now body post) = p_id post.
Proof. unfold apply_post_update. destruct (pu_title body), (pu_message body); reflexivity. Qed.

(** X6. Updating a post that exists writes the title and the message that
    the request carries (an absent one keeps the old value) and the new
    timestamp, and keeps id, user and role; the updated row is what the
    id reads back, every other id reads back what it did, and the order
    of the posts and the replies are unchanged. *)
Theorem update_post_in_place
    (now post_id : string) (body : PostUpdate) (db : Db) (post : post_row) :
  find_post post_id (posts_db db) = Some post ->
  exists post' db',
    update_post now post_id body db = (Ok post', db')
    /\ p_id post' = post_id
    /\ p_user post' = p_user post
    /\ p_role post' = p_role post
    /\ p_title post' = match pu_title body with Some t => Some t | None => p_title post end
    /\ p_message post' = default (p_message post) (pu_message body)
    /\ p_timestamp post' = now
    /\ find_post post_id (posts_db db') = Some post'
    /\ (forall other, other <> post_id ->
                      find_post other (posts_db db') = find_post other (posts_db db))
    /\ map p_id (posts_db db') = map p_id (posts_db db)
    /\ replies_db db' = replies_db db.
Proof.
  intros Ef. unfold update_post. rewrite Ef. eexists _, _. split; [reflexivity|].
  assert (Hid : p_id post = post_id).
  { apply find_some in Ef as [_ He]. apply String.eqb_eq in He. exact He. }
  cbn [posts_db replies_db].
  split; [rewrite apply_post_update_id; exact Hid|].
  split; [unfold apply_post_update; destruct (pu_title body), (pu_message body); reflexivity|].
  split; [unfold apply_post_update; destruct (pu_title body), (pu_message body); reflexivity|].
  split; [unfold apply_post_update; destruct (pu_title body), (pu_message body); reflexivity|].
  split; [unfold apply_post_update; destruct (pu_title body), (pu_message body); reflexivity|].
  split; [unfold apply_post_update; destruct (pu_title body), (pu_message body); reflexivity|].
  split; [|split; [|split; [|reflexivity]]].
  - rewrite find_update_first by apply apply_post_update_id.
    rewrite String.eqb_refl, Ef. reflexivity.
  - intros other Hne. rewrite find_update_first by apply apply_post_update_id.
    destruct (String.eqb post_id other) eqn:E; [|reflexivity].
    apply String.eqb_eq in E. congruence.
  - apply update_first_keys, apply_post_update_id.
Qed.

(** X7. When no two posts share an id, the list of all posts with their
    replies has one entry per post and each entry is what reading the
    post by its id answers. *)
Theorem full_list_agrees_with_get_post (db : Db) :
  unique_posts db ->
  exists entries,
    get_posts_full db = Ok entries
    /\ length entries = length (posts_db db)
    /\ Forall (fun entry => get_post (f_id entry) db = Ok entry) entries.
Proof.
  intros Hu. unfold get_posts_full. eexists. split; [reflexivity|].
  split; [apply length_fmap|].
  apply List.Forall_forall. intros entry Hin.
  apply in_map_iff in Hin as (post & <- & Hin). cbn [f_id].
  unfold get_post. rewrite (find_post_unique db post Hu Hin). reflexivity.
Qed.

(** X8. Deleting a reply that exists takes exactly one row out of the
    replies and leaves the posts alone; when no two replies share an id,
    what remains are the replies with another id, in their order. *)
Theorem delete_reply_removes_one (reply_id : string) (db : Db) :
  has_reply reply_id db = true ->
  exists db',
    delete_reply reply_id db = (Ok "Reply deleted successfully", db')
    /\ posts_db db' = posts_db db
    /\ length (replies_db db) = S (length (replies_db db'))
    /\ (unique_replies db ->
        replies_db db'
        = List.filter (fun r => negb (String.eqb (r_id r) reply_id)) (replies_db db)).
Proof.
  intros Hr. destruct (find_reply reply_id (replies_db db)) as [reply|] eqn:Ef.
  2:{ apply find_reply_none in Ef. congruence. }
  destruct (list_remove_found r_id reply_id _ _ Ef) as (l1 & l2 & Hl & Hk & Hl1 & Hrm).
  unfold delete_reply. rewrite Ef, Hrm. eexists. split; [reflexivity|].
  cbn [posts_db replies_db]. split; [reflexivity|]. split.
  - rewrite Hl, !length_app. simpl. lia.
  - intros Hu. unfold unique_replies in Hu. rewrite Hl in *.
    change (NoDup (map r_id (l1 ++ reply :: l2)%list)) in Hu.
    rewrite map_app in Hu. simpl in Hu. apply NoDup_app in Hu as (_ & _ & Hn2).
    apply NoDup_cons in Hn2 as [Hn2 _].
    rewrite List.filter_app. simpl. rewrite Hk, String.eqb_refl. simpl.
    assert (Hkeep : forall l : list reply_row,
               Forall (fun y => r_id y <> reply_id) l ->
               List.filter (fun r => negb (String.eqb (r_id r) reply_id)) l = l).
    { induction 1 as [|y l Hy _ IH]; simpl; [reflexivity|].
      apply String.eqb_neq in Hy. rewrite Hy. simpl. rewrite IH. reflexivity. }
    rewrite !Hkeep; [reflexivity| |exact Hl1].
    apply List.Forall_forall. intros y Hy He. apply Hn2. rewrite Hk, <- He.
    apply list_elem_of_In, in_map, Hy.
Qed.

(** X9. Seeding happens once: [init_sample_data] changes nothing when the
    posts are not empty, so a second call after the first is without
    effect; on empty tables it stores one post and one reply, and the
    reply is read back with the post. *)
Theorem init_sample_data_seeds_once
    (uid1 now1 uid2 now2 uid3 now3 uid4 now4 : string) (db : Db) :
  init_sample_data uid3 now3 uid4 now4 (init_sample_data uid1 now1 uid2 now2 db)
    = init_sample_data uid1 now1 uid2 now2 db
  /\ (posts_db db <> [] -> init_sample_data uid1 now1 uid2 now2 db = db)
  /\ (posts_db db = [] -> replies_db db = [] ->
      exists post reply,
        init_sample_data uid1 now1 uid2 now2 db
          = {| posts_db := [post]; replies_db := [reply] |}
        /\ p_id post = uid1 /\ r_id reply = uid2 /\ r_post_id reply = uid1
        /\ get_replies uid1 (init_sample_data uid1 now1 uid2 now2 db) = [reply]).
Proof.
  split; [|split].
  - unfold init_sample_data. destruct (posts_db db) as [|p l] eqn:E.
    + cbn [posts_db app]. reflexivity.
    + rewrite E. reflexivity.
  - intros Hne. unfold init_sample_data. destruct (posts_db db); [contradiction|reflexivity].
  - intros Hp Hr. unfold init_sample_data, get_replies. rewrite Hp, Hr.
    eexists _, _. split; [reflexivity|]. cbn [p_id r_id r_post_id replies_db app].
    repeat split. simpl. rewrite String.eqb_refl. reflexivity.
Qed.

Lemma filter_update_first {A} (key : A -> string) (keep test : A -> bool) (f : A -> A)
    (l : list A) :
  (forall y, key (f y) = key y) -> (forall y, keep (f y) = keep y) ->
  map key (List.filter keep (update_first test f l)) = map key (List.filter keep l).
Proof.
  intros Hk Hg. induction l as [|y l IH]; simpl; [reflexivity|].
  destruct (test y); simpl.
  - rewrite Hg. destruct (keep y); simpl; [rewrite Hk|]; reflexivity.
  - destruct (keep y); simpl; rewrite IH; reflexivity.
Qed.

Lemma update_first_in {A} (test : A -> bool) (f : A -> A) (l : list A) (x : A) :
  List.find test l = Some x -> In (f x) (update_first test f l).
Proof.
  induction l as [|y l IH]; simpl; [discriminate|].
  destruct (test y); [intros [= ->]; left; reflexivity|].
  intros H. right. apply IH, H.
Qed.

(** X10. Updating a reply that exists replaces its message and timestamp
    and nothing else: the reply keeps its id, post, user and role, it is
    still among the replies of its post, every post keeps its replies in
    their order, and the posts are untouched. *)
Theorem update_reply_stays_with_its_post
    (now reply_id : string) (body : ReplyUpdate) (db : Db) (reply : reply_row) :
  find_reply reply_id (replies_db db) = Some reply ->
  exists reply' db',
    update_reply now reply_id body db = (Ok reply', db')
    /\ reply' = {| r_id := reply_id; r_post_id := r_post_id reply;
                   r_user := r_user reply; r_role := r_role reply;
                   r_message := ru_message body; r_timestamp := now |}
    /\ In reply' (get_replies (r_post_id reply) db')
    /\ (forall post_id, map r_id (get_replies post_id db')
                        = map r_id (get_replies post_id db))
    /\ posts_db db' = posts_db db.
Proof.
  intros Ef. unfold update_reply. rewrite Ef. eexists _, _. split; [reflexivity|].
  assert (Hid : r_id reply = reply_id).
  { apply find_some in Ef as [_ He]. apply String.eqb_eq in He. exact He. }
  split; [unfold apply_reply_update; rewrite Hid; reflexivity|].
  unfold get_replies. cbn [replies_db posts_db]. split; [|split; [|reflexivity]].
  - apply filter_In. split.
    + apply update_first_in, Ef.
    + cbn [apply_reply_update r_post_id]. apply String.eqb_refl.
  - intros post_id. apply filter_update_first; reflexivity.
Qed.
End Service.

(** Instances of the statements above on the seeded tables. *)
Section ServiceWitnesses.
Import TeamsApp AppProps.

Lemma integrity_is_kept_witness :
  integrity sample_db = true
  /\ integrity (snd (delete_post "post-1" sample_db)) = true.
Proof.
  split; [reflexivity|].
  apply (integrity_is_kept sample_db); reflexivity.
Defined.

Lemma delete_post_cascades_witness :
  has_post "post-1" sample_db = true
  /\ exists db',
       delete_post "post-1" sample_db = (Ok "Post deleted successfully", db')
       /\ get_replies "post-1" db' = [].
Proof.
  split; [reflexivity|].
  destruct (delete_post_cascades "post-1" sample_db eq_refl) as (db' & H1 & _ & H2 & _).
  exists db'. split; assumption.
Defined.

Lemma absent_id_is_404_witness :
  has_post "post-9" sample_db = false
  /\ has_reply "reply-9" sample_db = false
  /\ get_post "post-9" sample_db = HTTPException 404 "Post not found"
  /\ delete_reply "reply-9" sample_db = (HTTPException 404 "Reply not found", sample_db).
Proof.
  split; [reflexivity|]. split; [reflexivity|].
  destruct (absent_id_is_404 sample_db "post-9" "reply-9") as [Hp Hr].
  split; [apply Hp; reflexivity|apply Hr; reflexivity].
Defined.

Lemma create_post_then_get_witness :
  has_post "post-2" sample_db = false
  /\ integrity sample_db = true
  /\ get_post "post-2"
       (snd (create_post "post-2" "2024-01-02T10:00:00"
               {| pc_title := None; pc_user := "Dana"; pc_role := "Engineer";
                  pc_message := "Ready" |} sample_db))
     = Ok {| f_id := "post-2"; f_title := None; f_user := "Dana"; f_role := "Engineer";
             f_message := "Ready"; f_timestamp := "2024-01-02T10:00:00";
             f_replies := [] |}.
Proof.
  split; [reflexivity|]. split; [reflexivity|].
  apply (create_post_then_get "post-2" "2024-01-02T10:00:00"
           {| pc_title := None; pc_user := "Dana"; pc_role := "Engineer";
              pc_message := "Ready" |} sample_db); reflexivity.
Defined.

Lemma create_reply_appends_witness :
  has_post "post-1" sample_db = true
  /\ exists new_reply db',
       create_reply "reply-2" "2024-01-02T10:00:00"
         {| rc_post_id := "post-1"; rc_user := "Dana"; rc_role := "Engineer";
            rc_message := "Starting" |} sample_db = (Ok new_reply, db')
       /\ get_replies "post-1" db' = (get_replies "post-1" sample_db ++ [new_reply])%list.
Proof.
  split; [reflexivity|].
  destruct (create_reply_appends "reply-2" "2024-01-02T10:00:00"
              {| rc_post_id := "post-1"; rc_user := "Dana"; rc_role := "Engineer";
                 rc_message := "Starting" |} sample_db eq_refl)
    as (db' & H1 & H2 & _).
  eexists _, db'. split; [exact H1|exact H2].
Defined.

Lemma update_post_in_place_witness :
  exists post post' db',
    find_post "post-1" (posts_db sample_db) = Some post
    /\ update_post "2024-01-02T10:00:00" "post-1"
         {| pu_title := None; pu_message := Some "Postponed" |} sample_db = (Ok post', db')
    /\ p_title post' = p_title post
    /\ p_message post' = "Postponed"
    /\ find_post "post-1" (posts_db db') = Some post'.
Proof.
  eexists. 
  destruct (update_post_in_place "2024-01-02T10:00:00" "post-1"
              {| pu_title := None; pu_message := Some "Postponed" |} sample_db _ eq_refl)
    as (post' & db' & H1 & _ & _ & _ & H2 & H3 & _ & H4 & _).
  exists post', db'. split; [reflexivity|]. split; [exact H1|].
  split; [exact H2|]. split; [exact H3|exact H4].
Defined.

Lemma full_list_agrees_with_get_post_witness :
  unique_posts sample_db
  /\ exists entries,
       get_posts_full sample_db = Ok entries
       /\ Forall (fun entry => get_post (f_id entry) sample_db = Ok entry) entries.
Proof.
  assert (Hu : unique_posts sample_db).
  { apply NoDup_cons. split; [apply not_elem_of_nil|apply NoDup_nil_2]. }
  split; [exact Hu|].
  destruct (full_list_agrees_with_get_post sample_db Hu) as (entries & H1 & _ & H2).
  exists entries. split; assumption.
Defined.

Lemma delete_reply_removes_one_witness :
  has_reply "reply-1" sample_db = true
  /\ exists db',
       delete_reply "reply-1" sample_db = (Ok "Reply deleted successfully", db')
       /\ posts_db db' = posts_db sample_db
       /\ length (replies_db sample_db) = S (length (replies_db db')).
Proof.
  split; [reflexivity|].
  destruct (delete_reply_removes_one "reply-1" sample_db eq_refl) as (db' & H1 & H2 & H3 & _).
  exists db'. repeat split; assumption.
Defined.

Lemma update_reply_stays_with_its_post_witness :
  exists reply reply' db',
    find_reply "reply-1" (replies_db sample_db) = Some reply
    /\ update_reply "2024-01-02T10:00:00" "reply-1" {| ru_message := "On hold" |} sample_db
       = (Ok reply', db')
    /\ In reply' (get_replies (r_post_id reply) db').
Proof.
  eexists.
  destruct (update_reply_stays_with_its_post "2024-01-02T10:00:00" "reply-1"
              {| ru_message := "On hold" |} sample_db _ eq_refl)
    as (reply' & db' & H1 & _ & H2 & _).
  exists reply', db'. split; [reflexivity|]. split; [exact H1|exact H2].
Defined.
End ServiceWitnesses.

(** ** The helpers and nodes of the approval workflow, further facts *)

Lemma adds_weaken {A} (p : event -> bool) (n n' : nat) (m : M A) :
  (n <= n')%nat -> AgentProps.adds_at_most p n m -> AgentProps.adds_at_most p n' m.
Proof. intros Hle Hm h. specialize (Hm h). lia. Qed.

Lemma adds_preserves {A} (p : event -> bool) (n : nat) (m : M A) :
  preserves (count p) m -> AgentProps.adds_at_most p n m.
Proof. intros Hm h. rewrite Hm. lia. Qed.

Section Bounds.
Import AgentProps.
Context {A B : Type} (p : event -> bool).

Lemma adds_bind (n1 n2 : nat) (m : M A) (k : A -> M B) :
  adds_at_most p n1 m -> (forall a, adds_at_most p n2 (k a)) ->
  adds_at_most p (n1 + n2) (bind m k).
Proof.
  intros Hm Hk h. unfold bind. specialize (Hm h).
  destruct (m h) as [[a|e] h']; simpl in *.
  - specialize (Hk a h'). lia.
  - lia.
Qed.

Lemma adds_try (n1 n2 : nat) (m : M A) (handler : exn -> M A) :
  adds_at_most p n1 m -> (forall e, adds_at_most p n2 (handler e)) ->
  adds_at_most p (n1 + n2) (try_except m handler).
Proof.
  intros Hm Hk h. unfold try_except. specialize (Hm h).
  destruct (m h) as [[a|e] h']; simpl in *.
  - lia.
  - specialize (Hk e h'). lia.
Qed.

Lemma adds_bind_l (n : nat) (m : M A) (k : A -> M B) :
  preserves (count p) m -> (forall a, adds_at_most p n (k a)) ->
  adds_at_most p n (bind m k).
Proof. intros Hm Hk. apply (adds_bind 0 n); [apply adds_preserves, Hm|exact Hk]. Qed.

Lemma adds_bind_r (n : nat) (m : M A) (k : A -> M B) :
  adds_at_most p n m -> (forall a, preserves (count p) (k a)) ->
  adds_at_most p n (bind m k).
Proof.
  intros Hm Hk. apply (adds_weaken p (n + 0) n); [lia|].
  apply adds_bind; [exact Hm|intros a; apply adds_preserves, Hk].
Qed.

Lemma adds_try_r (n : nat) (m : M A) (handler : exn -> M A) :
  adds_at_most p n m -> (forall e, preserves (count p) (handler e)) ->
  adds_at_most p n (try_except m handler).
Proof.
  intros Hm Hk. apply (adds_weaken p (n + 0) n); [lia|].
  apply adds_try; [exact Hm|intros e; apply adds_preserves, Hk].
Qed.

Lemma returns_ret (P : A -> Prop) (a : A) : P a -> returns P (ret a).
Proof. intros H h. exact H. Qed.

Lemma returns_lift_raise (P : A -> Prop) (e : exn) : returns P (lift (Raise e)).
Proof. intros h. exact I. Qed.

Lemma returns_bind (P : B -> Prop) (m : M A) (k : A -> M B) :
  (forall a, returns P (k a)) -> returns P (bind m k).
Proof.
  intros Hk h. unfold bind. destruct (m h) as [[a|e] h']; [apply Hk|exact I].
Qed.

Lemma returns_try (P : A -> Prop) (m : M A) (handler : exn -> M A) :
  returns P m -> (forall e, returns P (handler e)) -> returns P (try_except m handler).
Proof.
  intros Hm Hk h. unfold try_except. specialize (Hm h).
  destruct (m h) as [[a|e] h']; [exact Hm|apply Hk].
Qed.

Lemma returns_call (P : A -> Prop) (fn : string) (m : M A) :
  returns P m -> returns P (call fn m).
Proof. intros Hm h. apply Hm. Qed.

Lemma adds_call (n : nat) (fn : string) (m : M A) :
  p (EvCall fn) = false -> adds_at_most p n m -> adds_at_most p n (call fn m).
Proof. intros Hp Hm h. unfold call. specialize (Hm (EvCall fn :: h)). simpl in Hm. rewrite Hp in Hm. exact Hm. Qed.
End Bounds.

Lemma adds_send (p : event -> bool) (env : Env) (r : request) :
  AgentProps.adds_at_most p 1 (send env r).
Proof. intros h. simpl. destruct (p (EvHttp r)); lia. Qed.

Ltac returns_step :=
  match goal with
  | |- AgentProps.returns _ (try_except _ _) => apply returns_try; [ | intros ? ]
  | |- AgentProps.returns _ (bind _ _) => apply returns_bind; intros ?
  | |- AgentProps.returns _ (call _ _) => apply returns_call
  | |- AgentProps.returns _ (ret _) => apply returns_ret
  | |- AgentProps.returns _ (if ?b then _ else _) => destruct b
  | |- AgentProps.returns _ (match ?x with _ => _ end) => destruct x
  end.

Ltac returns_auto := repeat returns_step.

Lemma int_of_string_nonempty (U : Unicode) (s : string) (z : Z) :
  int_of_string U s = Some z -> s <> "".
Proof. intros H ->. discriminate H. Qed.

Section Azure.
Context (cfg : ReAgentV2.Config) (env : Env).
Import ReAgentV2 AgentProps.

Lemma no_token :
  truthy (getenv (AZURE_DEVOPS_PAT cfg)) = false -> truthy (AZURE_DEVOPS_TOKEN cfg env) = false.
Proof. intros H. unfold AZURE_DEVOPS_TOKEN. rewrite H. reflexivity. Qed.



(** The helper sends at most one request, does not sleep and does not ask
    the model. *)
Lemma trigger_azure_pipeline_effects (pipeline_id : Z) (branch : string) :
  adds_at_most is_http 1 (trigger_azure_pipeline cfg env pipeline_id branch)
  /\ preserves sleeps (trigger_azure_pipeline cfg env pipeline_id branch)
  /\ preserves (count is_llm) (trigger_azure_pipeline cfg env pipeline_id branch).
Proof.
  unfold trigger_azure_pipeline. split; [|split].
  - apply adds_call; [reflexivity|].
    destruct (negb _); [apply adds_preserves; preserves_auto|].
    apply adds_try_r; [|intros e; preserves_auto].
    apply adds_bind_r; [apply adds_send|intros resp; preserves_auto].
  - unfold sleeps. preserves_auto.
  - preserves_auto.
Qed.

Lemma error_update (v : pyval) : trigger_update {[ "error" := v ]}.
Proof.
  left. split; [exists v; apply lookup_singleton_eq|].
  apply lookup_singleton_ne. discriminate.
Qed.

(** X13. Whatever Azure DevOps answers, [trigger_pipeline] returns: it
    raises nothing, sends at most one request, neither sleeps nor asks
    the model, and its update is either an error without a build id or
    the pipeline id, an integer build id and the status "InProgress". *)
Theorem trigger_pipeline_sends_at_most_one_request (state : State) (h : history) :
  exists update h',
    trigger_pipeline cfg env state h = (Ret update, h')
    /\ (requests h' <= requests h + 1)%nat
    /\ sleeps h' = sleeps h
    /\ count is_llm h' = count is_llm h
    /\ trigger_update update.
Proof.
  destruct (trigger_pipeline_total cfg env state h) as (update & h' & E).
  exists update, h'. split; [exact E|].
  assert (Hreq : adds_at_most is_http 1 (trigger_pipeline cfg env state)).
  { unfold trigger_pipeline. apply adds_call; [reflexivity|].
    apply adds_try_r; [|intros e; preserves_auto].
    destruct (negb _); [apply adds_preserves; preserves_auto|].
    apply adds_bind_l; [preserves_auto|intros p].
    apply adds_bind_r; [apply trigger_azure_pipeline_effects|intros r; preserves_auto]. }
  assert (Hsl : preserves sleeps (trigger_pipeline cfg env state)).
  { unfold trigger_pipeline, sleeps. preserves_auto.
    apply (proj1 (proj2 (trigger_azure_pipeline_effects _ _))). }
  assert (Hllm : preserves (count is_llm) (trigger_pipeline cfg env state)).
  { unfold trigger_pipeline. preserves_auto.
    apply (proj2 (proj2 (trigger_azure_pipeline_effects _ _))). }
  assert (Hsh : returns trigger_update (trigger_pipeline cfg env state)).
  { unfold trigger_pipeline. returns_auto; try apply error_update; try exact I.
    all: try (apply returns_bind; intros ?; returns_auto).
    all: try apply error_update.
    all: try (right; eexists _, _; reflexivity).
    all: left; split; [eexists; apply lookup_insert_eq|reflexivity]. }
  specialize (Hreq h). specialize (Hsl h). specialize (Hllm h). specialize (Hsh h).
  rewrite E in *. simpl in *. repeat split; assumption.
Qed.

(** The loop over the parts of the link: the part after the first "runs"
    that is not the last part. *)
Lemma find_run_id_first (pre : list string) (x : string) (post : list string) :
  ~ In "runs" pre -> find_run_id (pre ++ "runs" :: x :: post)%list = Some x.
Proof.
  induction pre as [|y pre IH]; intros Hn; simpl.
  - reflexivity.
  - destruct (String.eqb y "runs") eqn:E.
    + apply String.eqb_eq in E. subst y. exfalso. apply Hn. left. reflexivity.
    + apply IH. intros Hin. apply Hn. right. exact Hin.
Qed.

Lemma find_run_id_none (parts : list string) :
  find_run_id parts = None <-> ~ In "runs" (removelast parts).
Proof.
  induction parts as [|y rest IH]; [simpl; tauto|].
  cbn [find_run_id]. destruct (String.eqb y "runs") eqn:E.
  - apply String.eqb_eq in E. subst y. destruct rest as [|z rest].
    + simpl. tauto.
    + split; [discriminate|]. intros Hn. exfalso. apply Hn. left. reflexivity.
  - apply String.eqb_neq in E. destruct rest as [|z rest].
    + simpl. tauto.
    + rewrite IH. change (removelast (y :: z :: rest)) with (y :: removelast (z :: rest)).
      simpl. intuition congruence.
Qed.

(** X14. The run id that [trigger_pipeline] takes from the link of the
    trigger response is the part that follows the first "runs" among the
    parts between the slashes, provided a part follows it; there is none
    exactly when "runs" occurs at most as the last part. *)
Theorem find_run_id_is_the_part_after_runs :
  (forall pre x post,
      ~ In "runs" pre -> find_run_id (pre ++ "runs" :: x :: post)%list = Some x)
  /\ (forall parts, find_run_id parts = None <-> ~ In "runs" (removelast parts)).
Proof.
  split; [exact find_run_id_first|exact find_run_id_none].
Qed.

(** The helper hands on the JSON body of a 200 answer as it is. *)
Lemma trigger_azure_pipeline_ok (pipeline_id : Z) (branch : string) (h : history) resp v :
  truthy (AZURE_DEVOPS_TOKEN cfg env) = true ->
  http env (EvCall "trigger_azure_pipeline" :: h) (run_request cfg env pipeline_id branch)
    = Ret resp ->
  status_code resp = 200 ->
  json resp = Ret v ->
  trigger_azure_pipeline cfg env pipeline_id branch h
  = (Ret v, EvHttp (run_request cfg env pipeline_id branch)
              :: EvCall "trigger_azure_pipeline" :: h).
Proof.
  intros Ht Hh Hs Hj. unfold trigger_azure_pipeline. rewrite call_eq, Ht. cbn [negb].
  unfold try_except, requests_post, send, bind at 1.
  fold (run_request cfg env pipeline_id branch). rewrite Hh, Hs, Hj. reflexivity.
Qed.

(** The helper catches an exception of its request, prints and returns
    [None]; the node then reports that the trigger failed. *)
Lemma trigger_pipeline_request_raises (state : State) (h : history) s p e :
  truthy (AZURE_DEVOPS_TOKEN cfg env) = true ->
  AZURE_DEVOPS_PIPELINE_ID cfg = Some s ->
  int_of_string (unicode env) s = Some p ->
  http env (EvCall "trigger_azure_pipeline" :: EvCall "trigger_pipeline" :: h)
    (run_request cfg env p "main") = Raise e ->
  fst (trigger_pipeline cfg env state h)
  = Ret {[ "error" := PStr "Failed to trigger Azure DevOps pipeline - check logs for details" ]}.
Proof.
  intros Ht Hs Hz Hh. pose proof (int_of_string_nonempty _ s p Hz) as Hne.
  unfold trigger_pipeline. rewrite call_eq, Hs. cbn [getenv truthy].
  apply String.eqb_neq in Hne. rewrite Hne. cbn [negb py_int]. rewrite Hz.
  unfold try_except. rewrite bind_lift_ret.
  unfold trigger_azure_pipeline at 1. unfold bind at 1. rewrite call_eq, Ht. cbn [negb].
  unfold try_except, requests_post, send, bind at 1.
  fold (run_request cfg env p "main"). rewrite Hh. reflexivity.
Qed.

Lemma trigger_pipeline_unfold (state : State) (h : history) s p resp d :
  truthy (AZURE_DEVOPS_TOKEN cfg env) = true ->
  AZURE_DEVOPS_PIPELINE_ID cfg = Some s ->
  int_of_string (unicode env) s = Some p ->
  http env (EvCall "trigger_azure_pipeline" :: EvCall "trigger_pipeline" :: h)
    (run_request cfg env p "main") = Ret resp ->
  status_code resp = 200 ->
  json resp = Ret (PDict d) ->
  d <> [] ->
  trigger_pipeline cfg env state h
  = try_except
      (let id := default PNone (assoc "id" d) in
       let! build_id :=
         (if negb (truthy id) then
            let! links := lift (py_get (PDict d) "_links" (PDict [])) in
            let! self := lift (py_get links "self" (PDict [])) in
            let! href := lift (py_get self "href" (PStr "")) in
            if truthy href then
              let! parts := lift (py_split href "/") in
              ret (match find_run_id parts with
                   | Some part => PStr part
                   | None => id
                   end)
            else ret id
          else ret id) in
       if truthy build_id then
         let! build :=
           (if is_str_or_int build_id then lift (py_int (unicode env) build_id) else ret p) in
         ret {[ "pipeline_id" := PInt p;
                "build_id" := PInt build;
                "build_status" := PStr "InProgress" ]}
       else
         ret {[ "error" := PStr "Failed to extract build ID from pipeline trigger response";
                "pipeline_id" := PInt p ]})
      (fun e =>
         if is_ValueError e then
           ret {[ "error" := PStr ("Invalid pipeline ID format: " +:+ exn_msg e) ]}
         else
           ret {[ "error" := PStr ("Error triggering pipeline: " +:+ exn_msg e) ]})
      (EvHttp (run_request cfg env p "main")
         :: EvCall "trigger_azure_pipeline" :: EvCall "trigger_pipeline" :: h).
Proof.
  intros Ht Hs Hz Hh Hst Hj Hd. pose proof (int_of_string_nonempty _ s p Hz) as Hne.
  unfold trigger_pipeline. rewrite call_eq, Hs. cbn [getenv truthy].
  apply String.eqb_neq in Hne. rewrite Hne. cbn [negb py_int]. rewrite Hz.
  unfold try_except. rewrite bind_lift_ret.
  rewrite (bind_ret_eq _ _ _ _ _ (trigger_azure_pipeline_ok p "main" _ resp _ Ht Hh Hst Hj)).
  destruct d as [|kv d]; [contradiction|]. reflexivity.
Qed.


End Azure.

Section PollingBounds.
Context (cfg : ReAgentV2.Config) (env : Env).
Import ReAgentV2 AgentProps.

(** One status check: one entry, at most one request, no sleep, no call
    of the model, and no exception. *)
Lemma get_pipeline_status_effects (pid bid : pyval) (h : history) :
  exists v h',
    get_pipeline_status cfg env pid bid h = (Ret v, h')
    /\ calls "get_pipeline_status" h' = S (calls "get_pipeline_status" h)
    /\ sleeps h' = sleeps h
    /\ (requests h' <= S (requests h))%nat
    /\ count is_llm h' = count is_llm h.
Proof.
  unfold get_pipeline_status, call, try_except, bind, requests_get, send, print, emit, ret, lift.
  destruct (negb (truthy (AZURE_DEVOPS_TOKEN cfg env))).
  - eexists _, _. split; [reflexivity|]. unfold requests. simpl. repeat split; lia.
  - destruct (http env _ _) as [resp|e].
    + destruct (status_code resp =? 200).
      * destruct (json resp) as [v|e]; eexists _, _; (split; [reflexivity|]);
          unfold requests; simpl; repeat split; lia.
      * eexists _, _. split; [reflexivity|]. unfold requests. simpl. repeat split; lia.
    + eexists _, _. split; [reflexivity|]. unfold requests. simpl. repeat split; lia.
Qed.

(** One pass of the loop body. *)
Lemma poll_iteration_effects (n : Z) (pid bid : pyval) (a : Z) (h : history) :
  exists o h',
    poll_iteration cfg env n pid bid a h = (Ret o, h')
    /\ calls "get_pipeline_status" h' = S (calls "get_pipeline_status" h)
    /\ (sleeps h' <= S (sleeps h))%nat
    /\ (requests h' <= S (requests h))%nat
    /\ count is_llm h' = count is_llm h
    /\ match o with Some update => final_update update | None => True end.
Proof.
  destruct (get_pipeline_status_effects pid bid h) as (v & h1 & Hg & Hc & Hs & Hr & Hl).
  pose proof (poll_iteration_spec cfg env n pid bid a h v h1 Hg) as Hspec.
  destruct (classify env v) as [|status_msg|e].
  - destruct Hspec as [line E]. eexists _, _. split; [exact E|].
    unfold calls, sleeps, requests in *. simpl. repeat split; lia.
  - destruct Hspec as [line E]. eexists _, _. split; [exact E|].
    unfold calls, sleeps, requests in *. simpl. repeat split; try lia.
    right. eexists. apply lookup_singleton_eq.
  - eexists _, _. split; [exact Hspec|].
    unfold calls, sleeps, requests in *. repeat split; try lia.
    left. eexists. apply lookup_singleton_eq.
Qed.

(** The loop with [k] attempts left. *)
Lemma poll_loop_effects (n : Z) (pid bid : pyval) :
  forall (k : nat) (a : Z) (h : history),
    Z.to_nat (n - a) = k ->
    exists o h',
      poll_loop cfg env n pid bid a h = (Ret o, h')
      /\ (calls "get_pipeline_status" h' <= calls "get_pipeline_status" h + k)%nat
      /\ (sleeps h' <= sleeps h + k)%nat
      /\ (requests h' <= requests h + k)%nat
      /\ count is_llm h' = count is_llm h
      /\ match o with Some update => final_update update | None => True end.
Proof.
  induction k as [|k IH]; intros a h Hk; rewrite poll_loop_step.
  - destruct (a <? n) eqn:E; [lia|]. exists None, h. repeat split; lia.
  - destruct (a <? n) eqn:E; [|lia].
    destruct (poll_iteration_effects n pid bid a h) as (o & h1 & Hi & Hc & Hs & Hr & Hl & Hf).
    rewrite Hi. destruct o as [update|].
    + exists (Some update), h1. repeat split; try lia. exact Hf.
    + destruct (IH (a + 1) h1 ltac:(lia)) as (o & h2 & Hp & Hc2 & Hs2 & Hr2 & Hl2 & Hf2).
      exists o, h2. split; [exact Hp|]. repeat split; try lia. exact Hf2.
Qed.

(** X17. [check_pipeline_status] always returns, and within bounds: at
    most 100 status checks, each with at most one request, at most 101
    sleeps, no call of the model; its update carries an error or a build
    status.  When the StateRecord has no truthy [pipeline_id] or no truthy
    [build_id] (absent, [None] or 0) the node returns the error "No
    pipeline ID or build ID available" at once: no print, no sleep, no
    status check. *)
Theorem polling_is_bounded (state : State) (h : history) :
  (exists update h',
      check_pipeline_status cfg env state h = (Ret update, h')
      /\ (calls "get_pipeline_status" h' <= calls "get_pipeline_status" h + 100)%nat
      /\ (sleeps h' <= sleeps h + 101)%nat
      /\ (requests h' <= requests h + 100)%nat
      /\ count is_llm h' = count is_llm h
      /\ final_update update)
  /\ (truthy (get state "pipeline_id" PNone) = false
      \/ truthy (get state "build_id" PNone) = false ->
      check_pipeline_status cfg env state h
      = (Ret {[ "error" := PStr "No pipeline ID or build ID available" ]},
         EvCall "check_pipeline_status" :: h)).
Proof.
  assert (Hguard : truthy (get state "pipeline_id" PNone) = false
                   \/ truthy (get state "build_id" PNone) = false ->
                   check_pipeline_status cfg env state h
                   = (Ret {[ "error" := PStr "No pipeline ID or build ID available" ]},
                      EvCall "check_pipeline_status" :: h)).
  { intros Hm. unfold check_pipeline_status. rewrite call_eq. cbv zeta.
    destruct Hm as [Hm|Hm]; rewrite Hm; cbn [negb orb]; [reflexivity|].
    rewrite orb_true_r. reflexivity. }
  split; [|exact Hguard].
  destruct (truthy (get state "pipeline_id" PNone)) eqn:Hp.
  2:{ eexists _, _. split; [apply Hguard; left; reflexivity|].
      unfold calls, sleeps, requests. simpl. repeat split; try lia.
      left. eexists. apply lookup_singleton_eq. }
  destruct (truthy (get state "build_id" PNone)) eqn:Hb.
  2:{ eexists _, _. split; [apply Hguard; right; reflexivity|].
      unfold calls, sleeps, requests. simpl. repeat split; try lia.
      left. eexists. apply lookup_singleton_eq. }
  unfold get in Hp, Hb.
  destruct (state !! "pipeline_id") as [pid|] eqn:Ep; [|discriminate Hp].
  destruct (state !! "build_id") as [bid|] eqn:Eb; [|discriminate Hb].
  cbn [from_option id] in Hp, Hb.
  destruct (check_pipeline_status_unfold cfg env state pid bid h Ep Hp Eb Hb) as (l1 & l2 & Hu).
  destruct (poll_loop_effects max_attempts pid bid 100 0
              (EvPrint l2 :: EvSleep 3 :: EvPrint l1 :: EvCall "check_pipeline_status" :: h)
              eq_refl) as (o & h1 & Hl & Hc & Hs & Hr & Hm & Hf).
  rewrite Hl in Hu. destruct o as [update|].
  - exists update, h1. split; [exact Hu|].
    unfold calls, sleeps, requests in *. simpl in *. repeat split; try lia. exact Hf.
  - eexists _, _. split; [exact Hu|].
    unfold calls, sleeps, requests in *. simpl in *. repeat split; try lia.
    left. eexists. unfold timed_out. rewrite lookup_insert_ne by discriminate.
    apply lookup_singleton_eq.
Qed.
End PollingBounds.

Section Channel.
Context (cfg : ReAgentV2.Config) (env : Env).
Import ReAgentV2 AgentProps.

(** The loop of [get_slack_channel_id] over JSON objects returns the [id]
    of the first channel that passes the test. *)
Lemma find_channel_first_match (channel_name : pyval) (cs : list (list (string * pyval))) :
  find_channel channel_name (PDict <$> cs)
  = Ret match List.find (channel_matches channel_name) cs with
        | Some c => default PNone (assoc "id" c)
        | None => PNone
        end.
Proof.
  induction cs as [|c cs IH]; [reflexivity|].
  cbn [fmap list_fmap find_channel py_get obind List.find]. unfold channel_matches at 1.
  destruct (py_eq (default PNone (assoc "name" c)) channel_name); cbn [orb obind].
  - reflexivity.
  - destruct (py_eq (default PNone (assoc "id" c)) channel_name); [reflexivity|].
    exact IH.
Qed.

Lemma get_slack_channel_id_failed (channel_name : pyval) (h : history) :
  retrieval_failed (http env (EvCall "get_slack_channel_id" :: h) (channels_request cfg env))
    = true ->
  get_slack_channel_id cfg env channel_name h
  = (Ret PNone, EvHttp (channels_request cfg env) :: EvCall "get_slack_channel_id" :: h).
Proof.
  intros Hr. unfold get_slack_channel_id, requests_get, send. rewrite call_eq.
  fold (channels_request cfg env). unfold bind at 1.
  destruct (http env _ _) as [resp|e]; [|discriminate Hr].
  simpl in Hr. destruct (status_code resp =? 200); [|reflexivity]. simpl in Hr.
  destruct (json resp) as [data|e]; [|discriminate Hr].
  destruct data as [|b|z|s|l|d]; try discriminate Hr.
  run. destruct (truthy (default PNone (assoc "ok" d))); [discriminate Hr|reflexivity].
Qed.

Lemma get_slack_channel_id_ok (channel_name : pyval) (h : history) resp d cs :
  http env (EvCall "get_slack_channel_id" :: h) (channels_request cfg env) = Ret resp ->
  status_code resp = 200 ->
  json resp = Ret (PDict d) ->
  truthy (default PNone (assoc "ok" d)) = true ->
  assoc "channels" d = Some (PList (PDict <$> cs)) ->
  get_slack_channel_id cfg env channel_name h
  = (Ret match List.find (channel_matches channel_name) cs with
         | Some c => default PNone (assoc "id" c)
         | None => PNone
         end,
     EvHttp (channels_request cfg env) :: EvCall "get_slack_channel_id" :: h).
Proof.
  intros Hh Hs Hj Hok Hc.
  unfold get_slack_channel_id, requests_get, send. rewrite call_eq.
  fold (channels_request cfg env). unfold bind at 1.
  rewrite Hh, Hs, Z.eqb_refl, Hj. run. rewrite Hok, Hc. run.
  unfold lift. rewrite find_channel_first_match. reflexivity.
Qed.

(** X18. [get_slack_channel_id] sends one request.  On an answer with a
    status other than 200, or whose [ok] flag is false, it returns
    [None]; on an OK answer whose channels are JSON objects it returns
    the [id] of the first channel whose [name] or whose [id] equals the
    argument, [None] when there is none or that channel has no [id]. *)
Theorem channel_lookup_returns_first_match (channel_name : pyval) (h : history) :
  let h1 := EvCall "get_slack_channel_id" :: h in
  (retrieval_failed (http env h1 (channels_request cfg env)) = true ->
   get_slack_channel_id cfg env channel_name h
   = (Ret PNone, EvHttp (channels_request cfg env) :: h1))
  /\ (forall resp d cs,
        http env h1 (channels_request cfg env) = Ret resp ->
        status_code resp = 200 ->
        json resp = Ret (PDict d) ->
        truthy (default PNone (assoc "ok" d)) = true ->
        assoc "channels" d = Some (PList (PDict <$> cs)) ->
        get_slack_channel_id cfg env channel_name h
        = (Ret match List.find (channel_matches channel_name) cs with
               | Some c => default PNone (assoc "id" c)
               | None => PNone
               end,
           EvHttp (channels_request cfg env) :: h1)).
Proof.
  intros h1. split.
  - apply get_slack_channel_id_failed.
  - apply get_slack_channel_id_ok.
Qed.

(** The request for the channel list raises: the node's handler turns
    the exception into the error field. *)
Lemma consult_list_raises (state : State) (h : history) channel (e : exn) :
  state !! "channel" = Some channel ->
  http env (EvCall "get_slack_channel_id" :: EvCall "consult_slack_messages" :: h)
    (channels_request cfg env) = Raise e ->
  consult_slack_messages cfg env state h
  = (Ret {[ "error" := PStr ("Error fetching Slack messages: " +:+ exn_msg e) ]},
     EvHttp (channels_request cfg env)
       :: EvCall "get_slack_channel_id" :: EvCall "consult_slack_messages" :: h).
Proof.
  intros Hc He. unfold consult_slack_messages, getitem. rewrite call_eq, Hc. run.
  unfold try_except, get_slack_channel_id, requests_get, send.
  fold (channels_request cfg env).
  unfold bind at 1. rewrite call_eq. unfold bind at 1. rewrite He. reflexivity.
Qed.

Lemma consult_not_found (state : State) (h h1 : history) channel cid :
  state !! "channel" = Some channel ->
  get_slack_channel_id cfg env channel (EvCall "consult_slack_messages" :: h) = (Ret cid, h1) ->
  truthy cid = false ->
  consult_slack_messages cfg env state h
  = (Ret {[ "error" := PStr ("Channel '" +:+ py_str env channel
                               +:+ "' not found or not accessible") ]}, h1).
Proof.
  intros Hc Hid Ht. unfold consult_slack_messages, getitem. rewrite call_eq, Hc. run.
  unfold try_except. rewrite (bind_ret_eq _ _ _ _ _ Hid). rewrite Ht. reflexivity.
Qed.

(** X19. When the channel list is answered with a status other than 200
    or with an [ok] flag that is false, or lists no channel with the
    wanted name or id, [consult_slack_messages] returns the error that
    names the channel, after that one request: the history of the channel
    is not asked for.  When the request for the list raises, the node
    returns the error "Error fetching Slack messages: " followed by the
    message of the exception instead. *)
Theorem unknown_channel_is_reported (state : State) (h : history) channel :
  let h1 := EvCall "get_slack_channel_id" :: EvCall "consult_slack_messages" :: h in
  state !! "channel" = Some channel ->
  ((retrieval_failed (http env h1 (channels_request cfg env)) = true
    \/ exists resp d cs,
         http env h1 (channels_request cfg env) = Ret resp
         /\ status_code resp = 200
         /\ json resp = Ret (PDict d)
         /\ truthy (default PNone (assoc "ok" d)) = true
         /\ assoc "channels" d = Some (PList (PDict <$> cs))
         /\ List.find (channel_matches channel) cs = None) ->
   consult_slack_messages cfg env state h
   = (Ret {[ "error" := PStr ("Channel '" +:+ py_str env channel
                                +:+ "' not found or not accessible") ]},
      EvHttp (channels_request cfg env) :: h1)
   /\ calls "get_slack_messages" (snd (consult_slack_messages cfg env state h))
      = calls "get_slack_messages" h)
  /\ (forall e,
        http env h1 (channels_request cfg env) = Raise e ->
        consult_slack_messages cfg env state h
        = (Ret {[ "error" := PStr ("Error fetching Slack messages: " +:+ exn_msg e) ]},
           EvHttp (channels_request cfg env) :: h1)).
Proof.
  intros h1 Hc. split.
  - intros Hlist.
    assert (E : get_slack_channel_id cfg env channel (EvCall "consult_slack_messages" :: h)
                = (Ret PNone, EvHttp (channels_request cfg env) :: h1)).
    { destruct Hlist as [Hr|(resp & d & cs & Hh & Hs & Hj & Hk & Hch & Hf)].
      - apply get_slack_channel_id_failed, Hr.
      - rewrite (get_slack_channel_id_ok channel _ resp d cs Hh Hs Hj Hk Hch), Hf.
        reflexivity. }
    rewrite (consult_not_found state h _ channel PNone Hc E eq_refl).
    split; reflexivity.
  - intros e He. apply (consult_list_raises state h channel e Hc He).
Qed.

(** The helper hands on the [messages] of an OK answer as they are. *)
Lemma get_slack_messages_ok (channel_id : pyval) (limit : Z) (h : history) resp d :
  http env (EvCall "get_slack_messages" :: h) (history_request cfg env channel_id limit)
    = Ret resp ->
  status_code resp = 200 ->
  json resp = Ret (PDict d) ->
  truthy (default PNone (assoc "ok" d)) = true ->
  get_slack_messages cfg env channel_id limit h
  = (Ret (default (PList []) (assoc "messages" d)),
     EvHttp (history_request cfg env channel_id limit) :: EvCall "get_slack_messages" :: h).
Proof.
  intros Hh Hs Hj Hok. unfold get_slack_messages, requests_get, send. rewrite call_eq.
  fold (history_request cfg env channel_id limit). unfold bind at 1.
  rewrite Hh, Hs, Z.eqb_refl, Hj. run. rewrite Hok. reflexivity.
Qed.

(** X20. When the channel list names the channel, with a truthy id, and
    the history of that id is answered with an OK answer,
    [consult_slack_messages] returns the [messages] of that answer
    unchanged, after two requests: the list, then the history of the id
    found, with limit 100. *)
Theorem consult_reads_the_channel_found
    (state : State) (h : history) channel resp d cs c cid resp' d' :
  let h1 := EvCall "get_slack_channel_id" :: EvCall "consult_slack_messages" :: h in
  let h2 := EvCall "get_slack_messages" :: EvHttp (channels_request cfg env) :: h1 in
  state !! "channel" = Some channel ->
  http env h1 (channels_request cfg env) = Ret resp ->
  status_code resp = 200 ->
  json resp = Ret (PDict d) ->
  truthy (default PNone (assoc "ok" d)) = true ->
  assoc "channels" d = Some (PList (PDict <$> cs)) ->
  List.find (channel_matches channel) cs = Some c ->
  assoc "id" c = Some cid ->
  truthy cid = true ->
  http env h2 (history_request cfg env cid 100) = Ret resp' ->
  status_code resp' = 200 ->
  json resp' = Ret (PDict d') ->
  truthy (default PNone (assoc "ok" d')) = true ->
  consult_slack_messages cfg env state h
  = (Ret {[ "slack_messages" := default (PList []) (assoc "messages" d') ]},
     EvHttp (history_request cfg env cid 100) :: h2).
Proof.
  intros h1 h2 Hc Hh Hs Hj Hok Hch Hf Hid Ht Hh' Hs' Hj' Hok'.
  pose proof (get_slack_channel_id_ok channel (EvCall "consult_slack_messages" :: h)
                resp d cs Hh Hs Hj Hok Hch) as Hlist.
  rewrite Hf, Hid in Hlist.
  cbn [from_option id] in Hlist.
  unfold consult_slack_messages, getitem. rewrite call_eq, Hc. run.
  unfold try_except. rewrite (bind_ret_eq _ _ _ _ _ Hlist). rewrite Ht. cbn [negb].
  rewrite (bind_ret_eq _ _ _ _ _ (get_slack_messages_ok cid 100 _ resp' d' Hh' Hs' Hj' Hok')).
  reflexivity.
Qed.
End Channel.

Section Albert.
Context (cfg : ReAgentV2.Config) (env : Env).
Import ReAgentV2 AgentProps.

(** The lookup of an author whose names are resolved. *)
Lemma author_check_resolved (message : list (string * pyval)) (user_id : pyval) (h : history)
    real_name display_name :
  who (http env h (users_info cfg env user_id)) = Some (real_name, display_name) ->
  try_except (author_check cfg env (PDict message) user_id) (fun _ => ret None) h
  = (Ret (if contains "Albert H." real_name || contains "Albert H." display_name
          then Some (text_of message) else None),
     EvHttp (users_info cfg env user_id) :: h).
Proof.
  intros Hw. unfold author_check, try_except, requests_get, send, bind at 1.
  fold (users_info cfg env user_id).
  destruct (http env h _) as [resp|e]; [|discriminate Hw].
  cbn [who] in Hw. destruct (status_code resp =? 200); [|discriminate Hw].
  destruct (json resp) as [data|e]; [|discriminate Hw].
  destruct data as [|b|z|s|l|d]; try discriminate Hw.
  run. destruct (truthy (default PNone (assoc "ok" d))); [|discriminate Hw].
  run. destruct (default (PDict []) (assoc "user" d)) as [|b|z|s|l|u]; try discriminate Hw.
  run. destruct (default (PStr "") (assoc "real_name" u)) as [|b|z|rn|l|x]; try discriminate Hw.
  destruct (default (PDict []) (assoc "profile" u)) as [|b|z|s|l|p]; try discriminate Hw.
  run. destruct (default (PStr "") (assoc "display_name" p)) as [|b|z|dn|l|x];
    try discriminate Hw.
  injection Hw as <- <-. cbn [py_in]. run.
  destruct (contains "Albert H." rn); cbn [orb]; run.
  - reflexivity.
  - cbn [py_in]. run. destruct (contains "Albert H." dn); reflexivity.
Qed.

Lemma skip_is_no_hit (o : outcome response) :
  lookup_failure o || other_author o = true -> is_albert o = false.
Proof.
  unfold other_author, is_albert. destruct (who o) as [[rn dn]|] eqn:Hw; [|reflexivity].
  intros H. apply orb_true_iff in H as [H|H].
  - exfalso. destruct o as [resp|e]; [|discriminate Hw]. cbn [who lookup_failure] in *.
    destruct (status_code resp =? 200); [|discriminate Hw]. cbn [negb orb] in H.
    destruct (json resp) as [[|b|z|s|l|d]|e]; try discriminate Hw.
    cbn [py_get] in H. destruct (truthy (default PNone (assoc "ok" d))); discriminate.
  - apply negb_true_iff in H. exact H.
Qed.

Lemma author_check_skips (message : list (string * pyval)) (user_id : pyval) (h : history) :
  lookup_failure (http env h (users_info cfg env user_id))
  || other_author (http env h (users_info cfg env user_id)) = true ->
  try_except (author_check cfg env (PDict message) user_id) (fun _ => ret None) h
  = (Ret None, EvHttp (users_info cfg env user_id) :: h).
Proof.
  intros H. destruct (lookup_failure (http env h (users_info cfg env user_id))) eqn:Hf.
  - apply author_check_failure, Hf.
  - cbn [orb] in H. unfold other_author in H.
    destruct (who _) as [[rn dn]|] eqn:Hw; [|discriminate H].
    rewrite (author_check_resolved message user_id h rn dn Hw).
    apply negb_true_iff in H. rewrite H. reflexivity.
Qed.

(** The loop stops at the first message whose author is Albert H. *)
Lemma find_albert_first (answer : pyval -> outcome response)
    (pre : list (list (string * pyval))) (m : list (string * pyval)) (post : list pyval) :
  (forall h user_id, http env h (users_info cfg env user_id) = answer user_id) ->
  Forall (fun x => lookup_failure (answer (author x))
                   || other_author (answer (author x)) = true) pre ->
  is_albert (answer (author m)) = true ->
  forall h, exists h',
    find_albert cfg env ((PDict <$> pre) ++ PDict m :: post)%list h = (Ret (text_of m), h')
    /\ requests h' = (requests h + length pre + 1)%nat
    /\ count is_llm h' = count is_llm h.
Proof.
  intros Hdir Hpre Hm. induction Hpre as [|x pre Hx _ IH]; intros h.
  - cbn [fmap list_fmap app find_albert]. run. fold (author m).
    unfold is_albert in Hm.
    destruct (who (answer (author m))) as [[rn dn]|] eqn:Hw; [|discriminate Hm].
    rewrite <- (Hdir h) in Hw.
    rewrite (bind_ret_eq _ _ _ _ _ (author_check_resolved m (author m) h rn dn Hw)).
    rewrite Hm. eexists. split; [reflexivity|]. unfold requests. simpl. split; lia.
  - cbn [fmap list_fmap app find_albert]. run. fold (author x).
    rewrite <- (Hdir h) in Hx.
    rewrite (bind_ret_eq _ _ _ _ _ (author_check_skips x (author x) h Hx)).
    destruct (IH (EvHttp (users_info cfg env (author x)) :: h)) as (h' & E & Hr & Hl).
    exists h'. split; [exact E|]. unfold requests in *. simpl in *. split; lia.
Qed.

(** X21. The loop of [check_albert_message] takes the first message
    whose author resolves to Albert H., by the real name or by the display
    name, and stops: with one lookup per message up to that one, the
    messages after it are not looked up.  A text of that message that is
    empty or absent reads as no message at all: the node returns the "not
    found" update without asking the model, whatever follows in the
    channel.  Otherwise the model is asked about that text. *)
Theorem first_message_of_albert_wins
    (answer : pyval -> outcome response) (state : State)
    (pre : list (list (string * pyval))) (m : list (string * pyval)) (post : list pyval)
    (h : history) :
  (forall h' user_id, http env h' (users_info cfg env user_id) = answer user_id) ->
  state !! "slack_messages" = Some (PList ((PDict <$> pre) ++ PDict m :: post)%list) ->
  Forall (fun x => lookup_failure (answer (author x))
                   || other_author (answer (author x)) = true) pre ->
  is_albert (answer (author m)) = true ->
  exists h1,
    find_albert cfg env ((PDict <$> pre) ++ PDict m :: post)%list
      (EvCall "check_albert_message" :: h) = (Ret (text_of m), h1)
    /\ requests h1 = (requests h + length pre + 1)%nat
    /\ (truthy (text_of m) = false ->
        check_albert_message cfg env state h = (Ret not_found, h1))
    /\ (truthy (text_of m) = true ->
        snd (check_albert_message cfg env state h)
        = EvLlm (approval_prompt env (text_of m)) :: h1).
Proof.
  intros Hdir Hs Hpre Hm.
  destruct (find_albert_first answer pre m post Hdir Hpre Hm (EvCall "check_albert_message" :: h))
    as (h1 & E & Hr & _).
  exists h1. split; [exact E|]. split; [exact Hr|].
  assert (Hi : py_iter (get state "slack_messages" (PList []))
               = Ret ((PDict <$> pre) ++ PDict m :: post)%list).
  { unfold get. rewrite Hs. reflexivity. }
  split.
  - intros Ht. apply (check_albert_not_found cfg env state _ h h1 (text_of m) Hi E Ht).
  - intros Ht. unfold check_albert_message. rewrite call_eq, Hi. run.
    rewrite (bind_ret_eq _ _ _ _ _ E). rewrite Ht. cbn [negb].
    unfold try_except, llm_invoke, bind at 1.
    destruct (llm_content env h1 _) as [c|e]; [|reflexivity].
    run. destruct (py_strip c) as [t|e]; reflexivity.
Qed.

(** The loop over JSON objects: one request per message at most, no call
    of the model, no sleep. *)
Lemma find_albert_effects (messages : list pyval) :
  forallb is_dict messages = true ->
  forall h, exists am h',
    find_albert cfg env messages h = (Ret am, h')
    /\ (requests h' <= requests h + length messages)%nat
    /\ count is_llm h' = count is_llm h
    /\ sleeps h' = sleeps h.
Proof.
  induction messages as [|message rest IH]; intros Hd h.
  - eexists _, _. split; [reflexivity|]. simpl. repeat split; lia.
  - simpl in Hd. apply andb_true_iff in Hd as [Hm Hrest].
    destruct message as [|b|z|s|l|d]; try discriminate Hm.
    cbn [find_albert]. run.
    destruct (author_check_total cfg env (PDict d) (default (PStr "") (assoc "user" d)) h)
      as [found E].
    rewrite (bind_ret_eq _ _ _ _ _ E).
    destruct found as [text|].
    + eexists _, _. split; [reflexivity|]. unfold requests, sleeps. simpl. repeat split; lia.
    + destruct (IH Hrest (EvHttp (users_info cfg env (default (PStr "") (assoc "user" d))) :: h))
        as (am & h' & E' & Hr & Hl & Hs).
      exists am, h'. split; [exact E'|]. unfold requests, sleeps in *. simpl in *.
      repeat split; lia.
Qed.

(** X22. On messages that are JSON objects [check_albert_message] always
    returns: it sends at most one request per message, asks the model at
    most once and does not sleep.  Its update always carries
    [albert_message] and a verdict [llm_approval] that is "Approved" or
    "Rejected", and "Approved" never comes with an error. *)
Theorem check_albert_message_always_gives_a_verdict
    (state : State) (items : list pyval) (h : history) :
  py_iter (get state "slack_messages" (PList [])) = Ret items ->
  forallb is_dict items = true ->
  exists update h',
    check_albert_message cfg env state h = (Ret update, h')
    /\ (requests h' <= requests h + length items)%nat
    /\ (count is_llm h' <= count is_llm h + 1)%nat
    /\ sleeps h' = sleeps h
    /\ approval_update update.
Proof.
  intros Hi Hd.
  destruct (find_albert_effects items Hd (EvCall "check_albert_message" :: h))
    as (am & h1 & E & Hr & Hl & Hs).
  unfold check_albert_message. rewrite call_eq, Hi. run.
  rewrite (bind_ret_eq _ _ _ _ _ E).
  unfold requests, sleeps in *. simpl in Hr, Hl, Hs.
  destruct (truthy am); cbn [negb].
  2:{ eexists _, _. split; [reflexivity|]. repeat split; try lia.
      - eexists. reflexivity.
      - right. reflexivity. }
  unfold try_except, llm_invoke, bind at 1.
  destruct (llm_content env h1 _) as [c|e].
  - run. destruct (py_strip c) as [t|e].
    + run. eexists _, _. split; [reflexivity|]. simpl. repeat split; try lia.
      * eexists. apply lookup_insert_eq.
      * destruct (contains "Approved" t); [left|right]; split; reflexivity.
    + run. eexists _, _. split; [reflexivity|]. simpl. repeat split; try lia.
      * eexists. apply lookup_insert_eq.
      * right. reflexivity.
  - eexists _, _. split; [reflexivity|]. simpl. repeat split; try lia.
    + eexists. apply lookup_insert_eq.
    + right. reflexivity.
Qed.
End Albert.

Section JokeNodes.
Context (env : Env).
Import ReAgent AgentProps.

(** X23. A node of the joke workflow whose input field is missing from
    the StateRecord raises the [KeyError] of that field on entry, before
    the model is asked. *)
Theorem joke_nodes_need_their_input (state : State) (h : history) :
  (state !! "topic" = None ->
   generate_joke env state h = (Raise (Exn KeyError "'topic'"), EvCall "generate_joke" :: h))
  /\ (state !! "joke" = None ->
      improve_joke env state h = (Raise (Exn KeyError "'joke'"), EvCall "improve_joke" :: h)
      /\ ask_for_applause env state h
         = (Raise (Exn KeyError "'joke'"), EvCall "ask_for_applause" :: h)
      /\ check_punchline state = Raise (Exn KeyError "'joke'"))
  /\ (state !! "improved_joke" = None ->
      polish_joke env state h
      = (Raise (Exn KeyError "'improved_joke'"), EvCall "polish_joke" :: h)).
Proof.
  split; [|split].
  - intros H. unfold generate_joke, getitem. rewrite call_eq, H. reflexivity.
  - intros H. unfold improve_joke, ask_for_applause, check_punchline, getitem.
    rewrite !call_eq, H. repeat split; reflexivity.
  - intros H. unfold polish_joke, getitem. rewrite call_eq, H. reflexivity.
Qed.

Lemma prompt_once (fn prefix field out : string) (state : State) (h : history) :
  let node :=
    call fn (let! v := lift (getitem state field) in
             let! content := llm_invoke env (prefix +:+ py_str env v) in
             ret ({[ out := content ]} : State)) in
  (count is_llm (snd (node h)) <= count is_llm h + 1)%nat
  /\ requests (snd (node h)) = requests h
  /\ sleeps (snd (node h)) = sleeps h
  /\ match fst (node h) with
     | Ret update => exists content, update = {[ out := content ]}
                                     /\ count is_llm (snd (node h)) = S (count is_llm h)
     | Raise _ => True
     end.
Proof.
  intros node. unfold node, call, getitem, llm_invoke, bind, lift, ret.
  destruct (state !! field) as [v|].
  - destruct (llm_content env _ _) as [c|e]; unfold requests, sleeps; simpl.
    + repeat split; try lia. exists c. split; reflexivity.
    + repeat split; lia.
  - unfold requests, sleeps. simpl. repeat split; lia.
Qed.

(** X24. Each node of the joke workflow sends no request, does not sleep
    and asks the model at most once; when it returns, it has asked the
    model exactly once and its update consists of the one field it
    writes: [joke], [improved_joke], [final_joke], [ask_for_applause]. *)
Theorem joke_nodes_write_one_field (state : State) (h : history) :
  Forall (fun entry : string * (State -> M State) =>
            let (field, node) := entry in
            (count is_llm (snd (node state h)) <= count is_llm h + 1)%nat
            /\ requests (snd (node state h)) = requests h
            /\ sleeps (snd (node state h)) = sleeps h
            /\ match fst (node state h) with
               | Ret update =>
                   exists content, update = {[ field := content ]}
                                   /\ count is_llm (snd (node state h)) = S (count is_llm h)
               | Raise _ => True
               end)
    [ ("joke", generate_joke env); ("improved_joke", improve_joke env);
      ("final_joke", polish_joke env); ("ask_for_applause", ask_for_applause env) ].
Proof.
  repeat apply Forall_cons_2; [| | | |apply Forall_nil_2].
  - apply (prompt_once "generate_joke" "Write a short joke about " "topic" "joke").
  - apply (prompt_once "improve_joke" "Make this joke funnier by adding wordplay: "
             "joke" "improved_joke").
  - apply (prompt_once "polish_joke" "Add a surprising twist to this joke: "
             "improved_joke" "final_joke").
  - apply (prompt_once "ask_for_applause" "Ask for applause for the joke: "
             "joke" "ask_for_applause").
Qed.
End JokeNodes.

(** ** Failures of the nodes: what becomes data and what does not *)

Section NodeContract.
Context (cfg : ReAgentV2.Config) (env : Env).
Import ReAgentV2.

(** A call of the model that raises ends in "Rejected" and the error
    field. *)
Lemma check_albert_llm_error (state : State) (items : list pyval) (h h1 : history) am e :
  py_iter (get state "slack_messages" (PList [])) = Ret items ->
  find_albert cfg env items (EvCall "check_albert_message" :: h) = (Ret am, h1) ->
  truthy am = true ->
  llm_content env h1 (approval_prompt env am) = Raise e ->
  fst (check_albert_message cfg env state h) =
    Ret {[ "albert_message" := am;
           "llm_approval" := PStr "Rejected";
           "error" := PStr ("Error evaluating message with LLM: " +:+ exn_msg e) ]}.
Proof.
  intros Hi Hf Ht Hl. unfold check_albert_message. rewrite call_eq, Hi. run.
  rewrite (bind_ret_eq _ _ _ _ _ Hf). rewrite Ht. cbn [negb].
  unfold try_except, llm_invoke, bind at 1. rewrite Hl. reflexivity.
Qed.

(** A node of the joke workflow is one prompt between reading a field and
    writing one; the exception of the model leaves it. *)
Lemma prompt_raises (fn prefix field out : string) (state : State) (h : history) v e :
  state !! field = Some v ->
  llm_content env (EvCall fn :: h) (prefix +:+ py_str env v) = Raise e ->
  fst (call fn (let! v := lift (getitem state field) in
                let! content := llm_invoke env (prefix +:+ py_str env v) in
                ret ({[ out := content ]} : State)) h) = Raise e.
Proof.
  intros Hv Hl. unfold getitem, llm_invoke. rewrite call_eq, Hv. run.
  unfold bind. rewrite Hl. reflexivity.
Qed.

End NodeContract.

(** ** The theorems at work on concrete worlds *)

Section Witnesses.
Import Scenario ReAgentV2.

Lemma C1_rejected_run_witness :
  exists r h,
    invoke cfg_demo env_net_down 4 st_general [] = (Ret r, h)
    /\ map v_node (visited r) = ["consult_slack_messages"; "check_albert_message"]
    /\ calls "trigger_pipeline" h = 0%nat.
Proof.
  pose (r1 := consult_slack_messages cfg_demo env_net_down st_general []).
  pose (u1 := match fst r1 with Ret u => u | Raise _ => ∅ end).
  pose (r2 := check_albert_message cfg_demo env_net_down (merge u1 st_general) (snd r1)).
  pose (u2 := match fst r2 with Ret u => u | Raise _ => ∅ end).
  destruct (C1_rejected_run_never_triggers cfg_demo env_net_down 4 st_general []
              u1 (snd r1) u2 (snd r2))
    as (_ & _ & (r & Hr & _ & _ & Hv) & Hc).
  - lia.
  - vm_compute. reflexivity.
  - vm_compute. reflexivity.
  - vm_compute. discriminate.
  - exists r, (snd r2). split; [exact Hr|]. split; [exact Hv|]. exact Hc.
Defined.

Lemma env_completes_at_pending (k : nat) (pid bid : pyval) (h : history) :
  (calls "get_pipeline_status" h + 1 < k)%nat ->
  classify (env_completes_at k)
    (value (get_pipeline_status cfg_demo (env_completes_at k) pid bid h)) = Pending.
Proof.
  intros Hlt. unfold value, get_pipeline_status, call, try_except, bind, requests_get, send.
  simpl. unfold calls. simpl.
  destruct (S (count (is_call "get_pipeline_status") h) <? k)%nat eqn:E.
  - reflexivity.
  - apply Nat.ltb_ge in E. unfold calls in Hlt. lia.
Qed.

Lemma env_completes_at_completed (k : nat) (pid bid : pyval) (h : history) :
  (k <= calls "get_pipeline_status" h + 1)%nat ->
  classify (env_completes_at k)
    (value (get_pipeline_status cfg_demo (env_completes_at k) pid bid h))
    = Completed "Completed - Succeeded".
Proof.
  intros Hle. unfold value, get_pipeline_status, call, try_except, bind, requests_get, send.
  simpl. unfold calls. simpl.
  destruct (S (count (is_call "get_pipeline_status") h) <? k)%nat eqn:E.
  - apply Nat.ltb_lt in E. unfold calls in Hle. lia.
  - reflexivity.
Qed.

Lemma C2_poll_timeout_witness :
  exists update h',
    check_pipeline_status cfg_demo env_net_down st_build [] = (Ret update, h')
    /\ calls "get_pipeline_status" h' = 100%nat
    /\ update !! "build_status" = Some (PStr "Timeout - Status check exceeded maximum attempts")
    /\ update !! "error" = Some (PStr "Pipeline status check timed out").
Proof.
  destruct (C2_poll_timeout cfg_demo env_net_down st_build (PInt 7) (PInt 42) [])
    as (_ & update & h' & H).
  - vm_compute. reflexivity.
  - reflexivity.
  - vm_compute. reflexivity.
  - reflexivity.
  - intros h'. reflexivity.
  - exists update, h'. exact H.
Defined.



Lemma env_flaky_fails (pid bid : pyval) (h : history) :
  (calls "get_pipeline_status" h + 1 <= 2)%nat ->
  check_fails cfg_demo env_flaky pid bid h = true.
Proof.
  intros Hle. unfold check_fails, env_flaky. cbn [http].
  replace (calls "get_pipeline_status" (EvCall "get_pipeline_status" :: h) <=? 2)%nat
    with true; [reflexivity|].
  symmetry. apply Nat.leb_le. unfold calls in *. simpl. lia.
Qed.

Lemma env_flaky_completed (pid bid : pyval) (h : history) :
  (3 <= calls "get_pipeline_status" h + 1)%nat ->
  classify env_flaky (value (get_pipeline_status cfg_demo env_flaky pid bid h))
    = Completed "Completed - Succeeded".
Proof.
  intros Hle.
  assert (E : http env_flaky (EvCall "get_pipeline_status" :: h)
                (status_request cfg_demo env_flaky pid bid)
              = Ret (ok_response (PDict [("state", PStr "completed");
                                         ("result", PStr "succeeded")]))).
  { unfold env_flaky. cbn [http].
    replace (calls "get_pipeline_status" (EvCall "get_pipeline_status" :: h) <=? 2)%nat
      with false; [reflexivity|].
    symmetry. apply Nat.leb_gt. unfold calls in *. simpl. lia. }
  unfold value.
  rewrite (get_pipeline_status_ok cfg_demo env_flaky pid bid h _ _ eq_refl E eq_refl eq_refl).
  reflexivity.
Qed.

Lemma C7_io_failure_witness :
  exists h',
    check_pipeline_status cfg_demo env_flaky st_build []
      = (Ret {[ "build_status" := PStr "Completed - Succeeded" ]}, h')
    /\ calls "get_pipeline_status" h' = 3%nat.
Proof.
  destruct (C7_io_failure_is_retried cfg_demo env_flaky st_build (PInt 7) (PInt 42) [])
    as (_ & Hretry & _).
  - vm_compute. reflexivity.
  - reflexivity.
  - vm_compute. reflexivity.
  - reflexivity.
  - apply (Hretry 3%nat "Completed - Succeeded").
    + lia.
    + intros h' Hh'. apply env_flaky_fails. simpl in Hh'. lia.
    + intros h' Hh'. apply env_flaky_completed. simpl in Hh'. lia.
Defined.

(** C7 as written does not hold: with a network that is down, the first
    failed status check does not end the poll, whatever configuration and
    StateRecord the caller supplies; all 100 attempts are made. *)
Lemma C7_abort_on_io_failure_is_not_a_choice :
  (calls "get_pipeline_status"
     (snd (check_pipeline_status cfg_demo env_net_down st_build [])) = 100%nat
   /\ fst (check_pipeline_status cfg_demo env_net_down st_build []) = Ret timed_out)
  /\ (forall (cfg : Config) (state : State) (pid bid : pyval),
        state !! "pipeline_id" = Some pid -> truthy pid = true ->
        state !! "build_id" = Some bid -> truthy bid = true ->
        calls "get_pipeline_status" (snd (check_pipeline_status cfg env_net_down state [])) = 100%nat
        /\ fst (check_pipeline_status cfg env_net_down state []) = Ret timed_out).
Proof.
  split.
  - split; vm_compute; reflexivity.
  - intros cfg state pid bid Hp Htp Hb Htb.
    destruct (io_failure_times_out cfg env_net_down state pid bid [] Hp Htp Hb Htb)
      as (h' & Hr & Hc).
    + intros h'. reflexivity.
    + rewrite Hr. split; [exact Hc|reflexivity].
Qed.



Lemma C5_last_writer_witness :
  exists r h,
    invoke cfg_demo env_net_down 4 st_general [] = (Ret r, h)
    /\ final_state r !! "error" = Some (PStr "No message from Albert H. found in channel")
    /\ is_Some (final_state r !! "channel").
Proof.
  pose (res := invoke cfg_demo env_net_down 4 st_general []).
  pose (r := match fst res with Ret r => r | Raise _ => stop ∅ None end).
  destruct (C5_last_writer_wins_and_no_field_is_lost
              (workflow cfg_demo env_net_down) 4 st_general [] r (snd res))
    as (Hlast & Hkeep & _).
  - vm_compute. reflexivity.
  - exists r, (snd res). split; [vm_compute; reflexivity|]. split.
    + apply (Hlast [] (nth 0 (visited r) no_visit) [] (nth 1 (visited r) no_visit) [] "error"
               (PStr "Error fetching Slack messages: connection refused")
               (PStr "No message from Albert H. found in channel")).
      * vm_compute. reflexivity.
      * vm_compute. reflexivity.
      * vm_compute. reflexivity.
      * constructor.
    + apply Hkeep. exists (PStr "general"). vm_compute. reflexivity.
Defined.

Lemma env_flat_joke_answers : llm_answers env_flat_joke.
Proof.
  intros h prompt. unfold env_flat_joke. cbn [llm_content].
  destruct (count is_llm h =? 0)%nat; eexists; reflexivity.
Qed.

Lemma C6_punchline_gate_witness :
  exists r hf j,
    ReAgent.invoke env_flat_joke 4 st_cats [] = (Ret r, hf)
    /\ run_fault r = None
    /\ final_state r !! "joke" = Some (PStr j)
    /\ ((ReAgent.check_punchline (merge {[ "joke" := PStr j ]} st_cats) = Ret "Pass"
         /\ map v_node (visited r) = ["generate_joke"; "ask_for_applause"]
         /\ final_state r !! "improved_joke" = None)
        \/ (ReAgent.check_punchline (merge {[ "joke" := PStr j ]} st_cats) = Ret "Fail"
            /\ map v_node (visited r) =
                 ["generate_joke"; "improve_joke"; "polish_joke"; "ask_for_applause"]
            /\ is_Some (final_state r !! "improved_joke"))).
Proof.
  apply (C6_punchline_gate_routes env_flat_joke 4 st_cats [] (PStr "cats")).
  - lia.
  - vm_compute. reflexivity.
  - vm_compute. reflexivity.
  - exact env_flat_joke_answers.
Defined.

Lemma C8_failed_lookups_witness :
  lookup_failure (http env_profile_null [] (users_info cfg_demo env_profile_null (PStr "U1")))
    = false
  /\ exists h',
       check_albert_message cfg_demo env_profile_null st_one_message [] = (Ret not_found, h')
       /\ requests h' = 1%nat
       /\ count is_llm h' = 0%nat.
Proof.
  split; [reflexivity|].
  destruct (C8_failed_lookups_read_as_absence cfg_demo env_profile_null st_one_message
              [PDict [("user", PStr "U1"); ("text", PStr "ship it")]] [])
    as (_ & H & _).
  - vm_compute. reflexivity.
  - reflexivity.
  - apply H. intros h' message [<-|[]]. reflexivity.
Defined.

Lemma C9_not_approved_witness :
  exists r hf,
    invoke cfg_demo env_not_approved 4 st_general [] = (Ret r, hf)
    /\ run_fault r = None
    /\ map v_node (visited r) =
         ["consult_slack_messages"; "check_albert_message";
          "trigger_pipeline"; "check_pipeline_status"].
Proof.
  pose (r1 := consult_slack_messages cfg_demo env_not_approved st_general []).
  pose (u1 := match fst r1 with Ret u => u | Raise _ => ∅ end).
  pose (items := [PDict [("user", PStr "U1"); ("text", PStr "ship it")]]).
  pose (r2 := find_albert cfg_demo env_not_approved items
                (EvCall "check_albert_message" :: snd r1)).
  destruct (C9_approval_is_a_substring_test cfg_demo env_not_approved 4 st_general []
              u1 (snd r1) items (PStr "ship it") (snd r2))
    as (_ & _ & _ & H).
  - lia.
  - vm_compute. reflexivity.
  - vm_compute. reflexivity.
  - vm_compute. reflexivity.
  - reflexivity.
  - exact H.
Defined.

Lemma C10_failed_retrieval_witness :
  exists r h,
    invoke cfg_demo env_history_unavailable 2 st_general [] = (Ret r, h)
    /\ final_state r !! "slack_messages" = Some (PList [])
    /\ final_state r !! "llm_approval" = Some (PStr "Rejected").
Proof.
  pose (r1 := get_slack_channel_id cfg_demo env_history_unavailable (PStr "general")
                [EvCall "consult_slack_messages"]).
  destruct (C10_failed_retrieval_reads_as_empty_channel cfg_demo env_history_unavailable 2
              st_general [] (PStr "general") (PStr "C1") (snd r1))
    as (Hfail & _).
  - lia.
  - vm_compute. reflexivity.
  - vm_compute. reflexivity.
  - reflexivity.
  - destruct Hfail as (_ & _ & _ & r & Hr & _ & _ & Hs & Hl).
    + vm_compute. reflexivity.
    + eexists r, _. split; [exact Hr|]. split; [exact Hs|exact Hl].
Defined.

(** C10 as written does not hold: when the request for the channel's
    history raises, [get_slack_messages] raises too, and
    [consult_slack_messages], whose channel lookup has succeeded, returns
    an error field and no [slack_messages]. *)
Lemma C10_retrieval_can_raise :
  fst (get_slack_messages cfg_demo env_history_down (PStr "C1") 100 [])
    = Raise connection_error
  /\ fst (get_slack_channel_id cfg_demo env_history_down (PStr "general") [])
     = Ret (PStr "C1")
  /\ fst (consult_slack_messages cfg_demo env_history_down st_general [])
     = Ret {[ "error" := PStr "Error fetching Slack messages: connection refused" ]}.
Proof. repeat split; vm_compute; reflexivity. Qed.
End Witnesses.

(** Instances of the statements above in concrete worlds. *)
Section AgentWitnesses.
Import ReAgentV2 AgentProps Scenario.





Lemma unknown_channel_is_reported_witness :
  st_general !! "channel" = Some (PStr "general")
  /\ retrieval_failed
       (http env_refused
          [EvCall "get_slack_channel_id"; EvCall "consult_slack_messages"]
          (channels_request cfg_demo env_refused)) = true
  /\ consult_slack_messages cfg_demo env_refused st_general []
     = (Ret {[ "error" := PStr "Channel 'general' not found or not accessible" ]},
        [ EvHttp (channels_request cfg_demo env_refused);
          EvCall "get_slack_channel_id"; EvCall "consult_slack_messages" ])
  /\ consult_slack_messages cfg_demo env_net_down st_general []
     = (Ret {[ "error" := PStr "Error fetching Slack messages: connection refused" ]},
        [ EvHttp (channels_request cfg_demo env_net_down);
          EvCall "get_slack_channel_id"; EvCall "consult_slack_messages" ]).
Proof.
  split; [reflexivity|]. split; [reflexivity|]. split.
  - apply (proj1 (unknown_channel_is_reported cfg_demo env_refused st_general []
                    (PStr "general") eq_refl)), or_introl, eq_refl.
  - apply (proj2 (unknown_channel_is_reported cfg_demo env_net_down st_general []
                    (PStr "general") eq_refl) connection_error eq_refl).
Defined.

Lemma consult_reads_the_channel_found_witness :
  st_general !! "channel" = Some (PStr "general")
  /\ consult_slack_messages cfg_demo env_not_approved st_general []
     = (Ret st_one_message,
        [ EvHttp (history_request cfg_demo env_not_approved (PStr "C1") 100);
          EvCall "get_slack_messages";
          EvHttp (channels_request cfg_demo env_not_approved);
          EvCall "get_slack_channel_id"; EvCall "consult_slack_messages" ]).
Proof.
  split; [reflexivity|].
  apply (consult_reads_the_channel_found cfg_demo env_not_approved st_general []
           (PStr "general") channels_reply
           [ ("ok", PBool true);
             ("channels", PList [ PDict [ ("name", PStr "general"); ("id", PStr "C1") ] ]) ]
           [ [ ("name", PStr "general"); ("id", PStr "C1") ] ]
           [ ("name", PStr "general"); ("id", PStr "C1") ] (PStr "C1")
           (ok_response (PDict [ ("ok", PBool true);
                                 ("messages", PList [ PDict [ ("user", PStr "U1");
                                                              ("text", PStr "ship it") ] ]) ]))
           [ ("ok", PBool true);
             ("messages", PList [ PDict [ ("user", PStr "U1"); ("text", PStr "ship it") ] ]) ]);
    reflexivity.
Defined.

Lemma first_message_of_albert_wins_witness :
  is_albert (Ret (directory (Some (PStr "U2")))) = true
  /\ other_author (Ret (directory (Some (PStr "U1")))) = true
  /\ exists h1,
       find_albert cfg_demo env_directory
         [ PDict (msg "U1" "hello"); PDict (msg "U2" "ship it"); PDict (msg "U3" "wait") ]
         [EvCall "check_albert_message"] = (Ret (PStr "ship it"), h1)
       /\ requests h1 = 2%nat.
Proof.
  split; [reflexivity|]. split; [reflexivity|].
  destruct (first_message_of_albert_wins cfg_demo env_directory
              (fun user_id => Ret (directory (Some user_id)))
              st_three_messages [msg "U1" "hello"] (msg "U2" "ship it")
              [PDict (msg "U3" "wait")] []
              (fun _ _ => eq_refl) eq_refl
              ltac:(repeat constructor) eq_refl)
    as (h1 & E & Hr & _).
  exists h1. split; [exact E|exact Hr].
Defined.

Lemma check_albert_message_always_gives_a_verdict_witness :
  py_iter (get st_three_messages "slack_messages" (PList []))
    = Ret [ PDict (msg "U1" "hello"); PDict (msg "U2" "ship it"); PDict (msg "U3" "wait") ]
  /\ exists update h',
       check_albert_message cfg_demo env_directory st_three_messages [] = (Ret update, h')
       /\ (requests h' <= 3)%nat
       /\ approval_update update.
Proof.
  split; [reflexivity|].
  destruct (check_albert_message_always_gives_a_verdict cfg_demo env_directory
              st_three_messages _ [] eq_refl eq_refl)
    as (update & h' & E & Hr & _ & _ & Hu).
  exists update, h'. split; [exact E|]. split; [exact Hr|exact Hu].
Defined.
End AgentWitnesses.

(** ** The Python string functions on examples *)

Example contains_not_approved : contains "Approved" "Not Approved" = true.
Proof. reflexivity. Qed.

Example contains_lowercase : contains "Approved" "approved" = false.
Proof. reflexivity. Qed.

Example strip_reply : strip "  Approved
" = "Approved".
Proof. reflexivity. Qed.

Example split_href : split "/" "a/runs/42" = ["a"; "runs"; "42"].
Proof. reflexivity. Qed.

Example int_of_string_padded (U : Unicode) : int_of_string U " -1_000 " = Some (-1000).
Proof. reflexivity. Qed.

Example int_of_string_double_underscore (U : Unicode) : int_of_string U "1__0" = None.
Proof. reflexivity. Qed.

Example int_of_string_letters (U : Unicode) : int_of_string U "12a" = None.
Proof. reflexivity. Qed.

(** [int] does not skip the separator characters that [strip] removes. *)
Example int_of_string_separator (U : Unicode) :
  int_of_string U (String (ascii_of_nat 28) "7") = None
  /\ strip (String (ascii_of_nat 28) "7") = "7".
Proof. split; reflexivity. Qed.

(** A string with a character beyond ASCII is left to the database. *)
Example int_of_string_beyond_ascii (U : Unicode) :
  int_of_string U (String (ascii_of_nat 217) (String (ascii_of_nat 167) EmptyString))
  = u_int U (String (ascii_of_nat 217) (String (ascii_of_nat 167) EmptyString)).
Proof. reflexivity. Qed.

Example int_literal_backslash (U : Unicode) :
  int_literal U (String "a" (String backslash "b"))
  = String single_quote (String "a" (String backslash (String backslash "b'"))).
Proof. reflexivity. Qed.

Example int_literal_single_quote (U : Unicode) :
  int_literal U "it's" = String double_quote ("it's" +:+ String double_quote EmptyString).
Proof. reflexivity. Qed.

Example lower_state (U : Unicode) : lower U "Completed" = "completed".
Proof. reflexivity. Qed.

Example capitalize_result (U : Unicode) : capitalize U "succeeded" = "Succeeded".
Proof. reflexivity. Qed.

Example py_eq_dicts :
  py_eq (PDict [("a", PInt 1); ("b", PList [PBool true])])
        (PDict [("b", PList [PInt 1]); ("a", PInt 1)]) = true.
Proof. reflexivity. Qed.

Example find_run_id_href :
  ReAgentV2.find_run_id (split "/" "https://dev.azure.com/o/p/_apis/pipelines/7/runs/42")
    = Some "42".
Proof. reflexivity. Qed.
